(** * FinSight Co-Pilot: routing, risk scoring, formatting and retry logic

    A shallow embedding of the routing/aggregation core of the financial
    analysis co-pilot (orchestrator, specialist agents, data-provider
    formatting helpers and the generative-text client), followed by the
    properties established about it.

    Conventions of the embedding.
    - Python [str] values are Rocq strings, one character per code
      point.  The character classes and case mappings behind
      [str.upper], [str.strip] and [str.isalpha] are written out for
      the 7-bit range, where they are Python's; Python's Unicode tables
      for the other code points are not part of the development.  Text
      that comes from outside the program (a reply of the model, the
      text of a PDF page) may hold such code points; a property that
      depends on the character classes of such text is stated for 7-bit
      text ([PyStr.isascii]).
    - Python numbers are [PInt] (unbounded integers) and [PFloat]
      (IEEE-754 binary64, carried by [spec_float] with the operations of
      the standard library's [SpecFloat]).
    - Python dictionaries are insertion-ordered association lists.
    - A call to the generative text service that ends a function
      ([return self.gemini.generate(...)]) is recorded as the
      constructor [Generate] of the function's outcome; a raised
      exception is [Raise]. *)

From Stdlib Require Import NArith ZArith QArith Qabs Bool List Ascii String Lia Lqa.
From Stdlib Require Import SpecFloat.
From Stdlib Require Import Sorting Permutation.
Import ListNotations.

Open Scope list_scope.
Open Scope string_scope.

(* ===================================================================== *)
(** * Part I: definitions                                                  *)
(* ===================================================================== *)

(** ** List helper *)


(** ** Python string operations *)

Module PyStr.

Definition code (c : ascii) : N := N_of_ascii c.

(** A character of the 7-bit range. *)
Definition is_ascii_char (c : ascii) : bool := (code c <? 128)%N.

(** [str.isspace] on one 7-bit character: TAB..CR, FS..US and SPACE. *)
Definition is_space (c : ascii) : bool :=
  let n := code c in
  (((9 <=? n) && (n <=? 13)) || ((28 <=? n) && (n <=? 32)))%N.

Definition is_upper (c : ascii) : bool :=
  let n := code c in ((65 <=? n) && (n <=? 90))%N.

Definition is_lower (c : ascii) : bool :=
  let n := code c in ((97 <=? n) && (n <=? 122))%N.

(** [str.isalpha] on one 7-bit character. *)
Definition is_alpha (c : ascii) : bool := is_upper c || is_lower c.

Definition is_digit (c : ascii) : bool :=
  let n := code c in ((48 <=? n) && (n <=? 57))%N.

(** [str.upper] and [str.lower] on one 7-bit character. *)
Definition upper_char (c : ascii) : ascii :=
  if is_lower c then ascii_of_N (code c - 32) else c.

Definition lower_char (c : ascii) : ascii :=
  if is_upper c then ascii_of_N (code c + 32) else c.

Fixpoint map_chars (f : ascii -> ascii) (s : string) : string :=
  match s with
  | EmptyString => EmptyString
  | String c s' => String (f c) (map_chars f s')
  end.

Fixpoint all_chars (p : ascii -> bool) (s : string) : bool :=
  match s with
  | EmptyString => true
  | String c s' => p c && all_chars p s'
  end.

(** [s.isascii()] *)
Definition isascii (s : string) : bool := all_chars is_ascii_char s.

(** [s.upper()], [s.lower()] *)
Definition upper (s : string) : string := map_chars upper_char s.
Definition lower (s : string) : string := map_chars lower_char s.

Definition is_empty (s : string) : bool :=
  match s with EmptyString => true | _ => false end.

(** [s.isalpha()]: at least one character and all of them letters. *)
Definition isalpha (s : string) : bool :=
  negb (is_empty s) && all_chars is_alpha s.

Fixpoint lstrip (s : string) : string :=
  match s with
  | EmptyString => EmptyString
  | String c s' => if is_space c then lstrip s' else s
  end.

Fixpoint rstrip (s : string) : string :=
  match s with
  | EmptyString => EmptyString
  | String c s' =>
      match rstrip s' with
      | EmptyString => if is_space c then EmptyString else String c EmptyString
      | r => String c r
      end
  end.

(** [s.strip()] *)
Definition strip (s : string) : string := rstrip (lstrip s).

(** [s.split(sep)] for a one-character separator: always at least one
    piece, empty pieces kept. *)
Fixpoint split (sep : ascii) (s : string) : list string :=
  match s with
  | EmptyString => [EmptyString]
  | String c s' =>
      if Ascii.eqb c sep then EmptyString :: split sep s'
      else match split sep s' with
           | h :: t => String c h :: t
           | [] => [String c EmptyString]
           end
  end.

(** [sub in s] *)
Fixpoint contains (sub s : string) : bool :=
  if String.prefix sub s then true
  else match s with
       | EmptyString => false
       | String _ s' => contains sub s'
       end.

(** [s.replace(a, b)] for single characters. *)
Definition replace_char (a b : ascii) (s : string) : string :=
  map_chars (fun c => if Ascii.eqb c a then b else c) s.

(** [sep.join(l)] *)
Fixpoint join (sep : string) (l : list string) : string :=
  match l with
  | [] => EmptyString
  | [x] => x
  | x :: rest => x ++ sep ++ join sep rest
  end.

(** [s.title()]: a letter that follows a non-letter is upper-cased, a
    letter that follows a letter is lower-cased. *)
Fixpoint title_from (prev_cased : bool) (s : string) : string :=
  match s with
  | EmptyString => EmptyString
  | String c s' =>
      String (if prev_cased then lower_char c else upper_char c)
             (title_from (is_alpha c) s')
  end.

Definition title (s : string) : string := title_from false s.

(** [s[:n]] *)
Fixpoint take (n : nat) (s : string) : string :=
  match n, s with
  | O, _ => EmptyString
  | _, EmptyString => EmptyString
  | S n', String c s' => String c (take n' s')
  end.

End PyStr.

(** ** Exceptions and fallible computations *)

Inductive exn_kind :=
| ValueError | TypeError | OverflowError | AttributeError | RuntimeError | OtherError.

(** A raised exception: its class and [str(e)]. *)
Record exn := { exn_class : exn_kind; exn_str : string }.

Inductive outcome (A : Type) : Type :=
| Ok (a : A)
| Raise (e : exn).
Arguments Ok {A} a.
Arguments Raise {A} e.

Definition bind {A B} (c : outcome A) (k : A -> outcome B) : outcome B :=
  match c with
  | Ok a => k a
  | Raise e => Raise e
  end.

Notation "x <- c ;; k" := (bind c (fun x => k))
  (at level 61, c at next level, right associativity).

(** ** Python numbers and values *)

Module PyNum.

Definition prec : Z := 53.
Definition emax : Z := 1024.

(** The binary64 arithmetic of [float * float] and [float / float]. *)
Definition fmul (x y : spec_float) : spec_float := SFmul prec emax x y.
Definition fdiv (x y : spec_float) : spec_float := SFdiv prec emax x y.
Definition fabs (x : spec_float) : spec_float := SFabs x.

(** The float nearest to [m * 10^e10] (ties to even), with the sign
    [neg]: the value of a decimal literal and of [float("...")]. *)
Definition float_of_decimal (neg : bool) (m : N) (e10 : Z) : spec_float :=
  match m with
  | N0 => S754_zero neg
  | Npos p =>
      match e10 with
      | Zneg k =>
          let '(q, e, l) :=
            SFdiv_core_binary prec emax (Zpos p) 0 (Zpos (10 ^ k)) 0 in
          binary_round_aux prec emax neg q e l
      | _ => binary_round prec emax neg (p * Z.to_pos (10 ^ e10)) 0
      end
  end.

(** [float(n)] for an integer: the nearest float, [OverflowError] when
    the integer is beyond the binary64 range. *)
Definition float_of_int (z : Z) : outcome spec_float :=
  match binary_normalize prec emax z 0 false with
  | S754_infinity _ =>
      Raise {| exn_class := OverflowError;
               exn_str := "int too large to convert to float" |}
  | f => Ok f
  end.

(** Exact values: a finite float or an integer denotes a rational. *)
Inductive xreal := XNaN | XInf (neg : bool) | XFin (q : Q).

Definition Q_of_finite (s : bool) (m : positive) (e : Z) : Q :=
  let z := if s then Zneg m else Zpos m in
  match e with
  | Zneg k => Qmake z (2 ^ k)
  | _ => inject_Z (z * 2 ^ e)
  end.

Definition value_of_float (f : spec_float) : xreal :=
  match f with
  | S754_zero _ => XFin 0
  | S754_infinity s => XInf s
  | S754_nan => XNaN
  | S754_finite s m e => XFin (Q_of_finite s m e)
  end.

Definition Qltb (p q : Q) : bool :=
  match Qcompare p q with Lt => true | _ => false end.

(** [x < y] on exact values; every comparison with NaN is false. *)
Definition xlt (x y : xreal) : bool :=
  match x, y with
  | XNaN, _ | _, XNaN => false
  | XInf true, XInf true => false
  | XInf true, _ => true
  | _, XInf true => false
  | XInf false, _ => false
  | _, XInf false => true
  | XFin p, XFin q => Qltb p q
  end.

(** [x <= y] on exact values. *)
Definition xle (x y : xreal) : bool :=
  match x, y with
  | XNaN, _ | _, XNaN => false
  | _, _ => negb (xlt y x)
  end.

(** Comparisons between floats, as Python evaluates them. *)
Definition flt (x y : spec_float) : bool := xlt (value_of_float x) (value_of_float y).
Definition fle (x y : spec_float) : bool := xle (value_of_float x) (value_of_float y).

(** *** Decimal rendering *)

Definition digit_char (n : N) : ascii := ascii_of_N (48 + n mod 10).

(** The decimal digits of [n], least significant last; [fuel] bounds the
    number of digits. *)
Fixpoint digits_fuel (fuel : nat) (n : N) (acc : string) : string :=
  match fuel with
  | O => acc
  | S fuel' =>
      let acc' := String (digit_char n) acc in
      if (n <? 10)%N then acc' else digits_fuel fuel' (n / 10)%N acc'
  end.

(** [str(n)] for a natural number. *)
Definition string_of_N (n : N) : string :=
  digits_fuel (S (N.to_nat (N.log2 n))) n EmptyString.

(** [str(z)] for an integer. *)
Definition string_of_Z (z : Z) : string :=
  match z with
  | Zneg p => String "-" (string_of_N (Npos p))
  | _ => string_of_N (Z.to_N z)
  end.

(** Exactly [d] decimal digits of [n], zero-padded on the left. *)
Fixpoint frac_digits (d : nat) (n : N) : string :=
  match d with
  | O => EmptyString
  | S d' => frac_digits d' (n / 10)%N ++ String (digit_char n) EmptyString
  end.

(** The integer nearest to [a / b] (ties to even), for [a >= 0], [b > 0]. *)
Definition round_half_even (a : N) (b : positive) : N :=
  let q := (a / Npos b)%N in
  let r := (a mod Npos b)%N in
  match (2 * r ?= Npos b)%N with
  | Lt => q
  | Gt => (q + 1)%N
  | Eq => if N.even q then q else (q + 1)%N
  end.

(** [|m * 2^e| * 10^d] rounded to the nearest integer. *)
Definition scaled_round (d : nat) (m : positive) (e : Z) : N :=
  let p10 := (10 ^ N.of_nat d)%N in
  match e with
  | Zneg k => round_half_even (Npos m * p10) (2 ^ k)
  | _ => (Npos m * 2 ^ Z.to_N e * p10)%N
  end.

Definition sign_string (s : bool) : string := if s then "-" else "".

(** The digits [n] of a value scaled by [10^d], with the decimal point
    put back. *)
Definition fixed_digits (d : nat) (n : N) : string :=
  let p10 := (10 ^ N.of_nat d)%N in
  string_of_N (n / p10) ++
  match d with
  | O => ""
  | _ => "." ++ frac_digits d (n mod p10)
  end.

(** [format(x, ".<d>f")] *)
Definition format_fixed (d : nat) (f : spec_float) : string :=
  match f with
  | S754_nan => "nan"
  | S754_infinity s => sign_string s ++ "inf"
  | S754_zero s => sign_string s ++ fixed_digits d 0
  | S754_finite s m e => sign_string s ++ fixed_digits d (scaled_round d m e)
  end.

(** *** Parsing [float(s)] *)

Definition digit_val (c : ascii) : N := (PyStr.code c - 48)%N.

(** A digit part [digit (["_"] digit)*] at the head of [s]: the number
    read after the digits already in [acc], how many digits were read,
    and the rest of the input.  An underscore is accepted only between
    two digits. *)
Fixpoint read_digits (s : string) (acc : N) (count : nat) : N * nat * string :=
  match s with
  | String c s' =>
      if PyStr.is_digit c then read_digits s' (acc * 10 + digit_val c)%N (S count)
      else
        match count, s' with
        | S _, String c' _ =>
            if Ascii.eqb c "_" && PyStr.is_digit c'
            then read_digits s' acc count
            else (acc, count, s)
        | _, _ => (acc, count, s)
        end
  | EmptyString => (acc, count, s)
  end.

(** The optional exponent [("e"|"E") [sign] digitpart]; [None] when the
    rest of the input is not an exponent. *)
Definition read_exponent (s : string) : option Z :=
  match s with
  | EmptyString => Some 0%Z
  | String c s' =>
      if Ascii.eqb c "e" || Ascii.eqb c "E" then
        let '(neg, body) :=
          match s' with
          | String "-" b => (true, b)
          | String "+" b => (false, b)
          | _ => (false, s')
          end in
        match read_digits body 0 0 with
        | (n, S _, EmptyString) => Some (if neg then (- Z.of_N n)%Z else Z.of_N n)
        | _ => None
        end
      else None
  end.

(** [number [exponent]] without sign. *)
Definition read_number (neg : bool) (s : string) : option spec_float :=
  let '(ip, ni, rest) := read_digits s 0 0 in
  match rest with
  | String "." rest' =>
      let '(m, nf, rest'') := read_digits rest' ip 0 in
      match (ni + nf)%nat with
      | O => None
      | _ =>
          match read_exponent rest'' with
          | Some e => Some (float_of_decimal neg m (e - Z.of_nat nf))
          | None => None
          end
      end
  | _ =>
      match ni with
      | O => None
      | _ =>
          match read_exponent rest with
          | Some e => Some (float_of_decimal neg ip e)
          | None => None
          end
      end
  end.

(** [float(s)] for a string: surrounding whitespace is ignored, then an
    optional sign and a decimal number, [inf], [infinity] or [nan] in any
    letter case; [None] is [ValueError]. *)
Definition parse_float (s : string) : option spec_float :=
  let t := PyStr.lower (PyStr.strip s) in
  let '(neg, body) :=
    match t with
    | String "-" b => (true, b)
    | String "+" b => (false, b)
    | _ => (false, t)
    end in
  if String.eqb body "inf" || String.eqb body "infinity" then Some (S754_infinity neg)
  else if String.eqb body "nan" then Some S754_nan
  else read_number neg body.


(** *** [repr(x)] of a float: the shortest digits that read back as [x] *)

Definition pow10 (k : Z) : positive := Z.to_pos (10 ^ k).

(** [m * 2^e * 10^k] as a fraction of two positive integers. *)
Definition scaled_fraction (m : positive) (e k : Z) : positive * positive :=
  let num2 := match e with Zpos _ => Z.to_pos (2 ^ e) | _ => 1%positive end in
  let den2 := match e with Zneg p => (2 ^ p)%positive | _ => 1%positive end in
  let num10 := match k with Zpos _ => pow10 k | _ => 1%positive end in
  let den10 := match k with Zneg _ => pow10 (- k) | _ => 1%positive end in
  (m * num2 * num10, den2 * den10)%positive.

(** [10^k <= m * 2^e] *)
Definition ge_pow10 (m : positive) (e k : Z) : bool :=
  let '(a, b) := scaled_fraction m e (- k) in (b <=? a)%positive.

(** The decimal exponent [floor (log10 (m * 2^e))], from the binary one. *)
Definition decimal_exponent (m : positive) (e : Z) : Z :=
  let b := (Z.log2 (Zpos m) + e)%Z in
  let est := (b * 30103 / 100000)%Z in
  if ge_pow10 m e (est + 1) then (est + 1)%Z
  else if ge_pow10 m e est then est
  else (est - 1)%Z.

Definition same_float (x y : spec_float) : bool :=
  match x, y with
  | S754_finite s1 m1 e1, S754_finite s2 m2 e2 =>
      Bool.eqb s1 s2 && (m1 =? m2)%positive && (e1 =? e2)%Z
  | _, _ => false
  end.

(** The [n]-digit decimal [D * 10^k] nearest to [m * 2^e] that reads
    back as the float, when there is one. *)
Definition shortest_candidate (s : bool) (m : positive) (e : Z) (e10 : Z) (n : nat)
  : option (N * Z) :=
  let k := (e10 - Z.of_nat n + 1)%Z in
  let '(a, b) := scaled_fraction m e (- k) in
  let lo := (Npos a / Npos b)%N in
  let r := (Npos a mod Npos b)%N in
  let hi := (lo + 1)%N in
  let ok d := same_float (float_of_decimal s d k) (S754_finite s m e) in
  let pick first second :=
    if ok first then Some (first, k)
    else if ok second then Some (second, k) else None in
  match (2 * r ?= Npos b)%N with
  | Gt => pick hi lo
  | Eq => if N.even lo then pick lo hi else pick hi lo
  | Lt => pick lo hi
  end.

Fixpoint shortest_from (s : bool) (m : positive) (e e10 : Z) (n fuel : nat) : N * Z :=
  match shortest_candidate s m e e10 n with
  | Some r => r
  | None =>
      match fuel with
      | O => (Npos m, 0%Z)
      | S fuel' => shortest_from s m e e10 (S n) fuel'
      end
  end.

(** Drop the trailing zeros of the digits [d], raising the exponent. *)
Fixpoint drop_zeros (fuel : nat) (d : N) (k : Z) : N * Z :=
  match fuel with
  | O => (d, k)
  | S fuel' =>
      if ((d mod 10 =? 0) && negb (d =? 0))%N
      then drop_zeros fuel' (d / 10)%N (k + 1)%Z
      else (d, k)
  end.

Fixpoint zeros (n : nat) : string :=
  match n with O => EmptyString | S n' => String "0" (zeros n') end.

Definition drop (n : nat) (s : string) : string :=
  String.substring n (String.length s - n) s.

(** The digits [ds] with the decimal point after the first [decpt] of
    them: positional notation when [-4 < decpt <= 16], exponent notation
    otherwise. *)
Definition place_point (ds : string) (decpt : Z) : string :=
  let nd := Z.of_nat (String.length ds) in
  if ((-4 <? decpt) && (decpt <=? 16))%Z then
    if (decpt <=? 0)%Z then "0." ++ zeros (Z.to_nat (- decpt)) ++ ds
    else if (nd <=? decpt)%Z then ds ++ zeros (Z.to_nat (decpt - nd)) ++ ".0"
    else PyStr.take (Z.to_nat decpt) ds ++ "." ++ drop (Z.to_nat decpt) ds
  else
    let x := (decpt - 1)%Z in
    let mant :=
      match ds with
      | String c EmptyString => ds
      | String c rest => String c ("." ++ rest)
      | EmptyString => ds
      end in
    let xs := string_of_N (Z.abs_N x) in
    mant ++ "e" ++ (if (x <? 0)%Z then "-" else "+")
         ++ (if (Z.abs x <? 10)%Z then "0" else "") ++ xs.

(** [repr(x)], which is also [str(x)], for a float. *)
Definition float_repr (f : spec_float) : string :=
  match f with
  | S754_nan => "nan"
  | S754_infinity s => sign_string s ++ "inf"
  | S754_zero s => sign_string s ++ "0.0"
  | S754_finite s m e =>
      let '(d0, k0) := shortest_from s m e (decimal_exponent m e) 1 16 in
      let '(d, k) := drop_zeros 400 d0 k0 in
      let ds := string_of_N d in
      sign_string s ++ place_point ds (Z.of_nat (String.length ds) + k)
  end.

End PyNum.

(** Python values that reach the formatting helpers and the metrics
    bundle.  [PObj r] stands for a value of any other type (list, dict,
    ...): [float()] rejects it with [TypeError] and [str()] of it is [r]. *)
Inductive pyval :=
| PNone
| PBool (b : bool)
| PInt (z : Z)
| PFloat (f : spec_float)
| PStr (s : string)
| PObj (repr : string).

(** [str(v)] *)
Definition py_str (v : pyval) : string :=
  match v with
  | PNone => "None"
  | PBool true => "True"
  | PBool false => "False"
  | PInt z => PyNum.string_of_Z z
  | PFloat f => PyNum.float_repr f
  | PStr s => s
  | PObj r => r
  end.

(** [bool(v)], the truth value used by [or] and [if]. *)
Definition py_truthy (v : pyval) : bool :=
  match v with
  | PNone => false
  | PBool b => b
  | PInt z => negb (z =? 0)%Z
  | PFloat (S754_zero _) => false
  | PFloat _ => true
  | PStr s => negb (PyStr.is_empty s)
  | PObj _ => true
  end.

(** [a or b] *)
Definition py_or (a b : pyval) : pyval := if py_truthy a then a else b.

(** The exact value of a number; [None] for a value that is not one. *)
Definition value_of (v : pyval) : option PyNum.xreal :=
  match v with
  | PBool b => Some (PyNum.XFin (if b then 1 else 0))
  | PInt z => Some (PyNum.XFin (inject_Z z))
  | PFloat f => Some (PyNum.value_of_float f)
  | _ => None
  end.

Definition type_name (v : pyval) : string :=
  match v with
  | PNone => "NoneType"
  | PBool _ => "bool"
  | PInt _ => "int"
  | PFloat _ => "float"
  | PStr _ => "str"
  | PObj _ => "object"
  end.

Definition not_supported (op : string) (a b : pyval) : exn :=
  {| exn_class := TypeError;
     exn_str := "'" ++ op ++ "' not supported between instances of '"
                ++ type_name a ++ "' and '" ++ type_name b ++ "'" |}.

(** [a > b] and [a < b] when [b] is a number: numbers compare by exact
    value, anything else raises [TypeError]. *)
Definition py_gt (a b : pyval) : outcome bool :=
  match value_of a, value_of b with
  | Some x, Some y => Ok (PyNum.xlt y x)
  | _, _ => Raise (not_supported ">" a b)
  end.

Definition py_lt (a b : pyval) : outcome bool :=
  match value_of a, value_of b with
  | Some x, Some y => Ok (PyNum.xlt x y)
  | _, _ => Raise (not_supported "<" a b)
  end.

(** *** Arithmetic and formatting used by the report templates *)

Definition is_zero (f : spec_float) : bool :=
  match f with S754_zero _ => true | _ => false end.

Definition zero_division (msg : string) : exn :=
  {| exn_class := OtherError; exn_str := msg |}.

(** [a / b] for two integers: the float nearest to the quotient. *)
Definition int_truediv (a b : Z) : outcome spec_float :=
  match b with
  | Z0 => Raise (zero_division "division by zero")
  | _ =>
      let neg := xorb (a <? 0)%Z (b <? 0)%Z in
      match a with
      | Z0 => Ok (S754_zero neg)
      | _ =>
          let '(q, e, l) :=
            SFdiv_core_binary PyNum.prec PyNum.emax (Z.abs a) 0 (Z.abs b) 0 in
          match binary_round_aux PyNum.prec PyNum.emax neg q e l with
          | S754_infinity _ =>
              Raise {| exn_class := OverflowError;
                       exn_str := "integer division result too large for a float" |}
          | f => Ok f
          end
      end
  end.

Definition as_int (v : pyval) : option Z :=
  match v with
  | PBool b => Some (if b then 1 else 0)%Z
  | PInt z => Some z
  | _ => None
  end.

Definition is_number (v : pyval) : bool :=
  match v with
  | PBool _ | PInt _ | PFloat _ => true
  | _ => false
  end.

(** The float an operand of a mixed operation is converted to. *)
Definition operand_float (v : pyval) : outcome spec_float :=
  match v with
  | PFloat f => Ok f
  | PBool b => PyNum.float_of_int (if b then 1 else 0)
  | PInt z => PyNum.float_of_int z
  | _ => Raise {| exn_class := TypeError; exn_str := "unsupported operand type(s) for /" |}
  end.

(** [a / b] *)
Definition py_truediv (a b : pyval) : outcome spec_float :=
  if is_number a && is_number b then
    match as_int a, as_int b with
    | Some x, Some y => int_truediv x y
    | _, _ =>
        x <- operand_float a ;;
        y <- operand_float b ;;
        if is_zero y then Raise (zero_division "float division by zero")
        else Ok (PyNum.fdiv x y)
    end
  else
    Raise {| exn_class := TypeError;
             exn_str := "unsupported operand type(s) for /: '" ++ type_name a
                        ++ "' and '" ++ type_name b ++ "'" |}.

(** [round(x, 2)] for a float: the float nearest to [x] rounded to two
    decimals. *)
Definition round2 (x : spec_float) : spec_float :=
  match x with
  | S754_finite s m e =>
      PyNum.float_of_decimal s (PyNum.scaled_round 2 m e) (-2)
  | _ => x
  end.

(** The digits [ds] with a comma before every group of three counted
    from the right. *)
Fixpoint group_thousands (ds : list ascii) : list ascii :=
  match ds with
  | [] => []
  | c :: rest =>
      c :: (if ((0 <? List.length rest) && (List.length rest mod 3 =? 0))%nat
            then ","%char :: group_thousands rest
            else group_thousands rest)
  end.

Definition group_digits (ds : string) : string :=
  string_of_list_ascii (group_thousands (list_ascii_of_string ds)).

(** The text before and after the first ['.']. *)
Fixpoint split_point (s : string) : string * string :=
  match s with
  | EmptyString => (EmptyString, EmptyString)
  | String c s' =>
      if Ascii.eqb c "." then (EmptyString, s)
      else let '(a, b) := split_point s' in (String c a, b)
  end.

(** [format(v, ",")] *)
Definition format_comma (v : pyval) : outcome string :=
  match v with
  | PBool b => Ok (if b then "1" else "0")
  | PInt z =>
      Ok (PyNum.sign_string (z <? 0)%Z ++ group_digits (PyNum.string_of_N (Z.abs_N z)))
  | PFloat f =>
      let r := PyNum.float_repr f in
      if PyStr.contains "e" r || PyStr.contains "n" r then Ok r
      else
        let body := match r with String "-" b => b | _ => r end in
        let '(ip, rest) := split_point body in
        Ok (PyNum.sign_string (PyStr.contains "-" r) ++ group_digits ip ++ rest)
  | PStr _ =>
      Raise {| exn_class := ValueError; exn_str := "Cannot specify ',' with 's'." |}
  | PNone | PObj _ =>
      Raise {| exn_class := TypeError;
               exn_str := "unsupported format string passed to "
                          ++ type_name v ++ ".__format__" |}
  end.

(** [v.upper()] *)
Definition upper_method (v : pyval) : outcome string :=
  match v with
  | PStr s => Ok (PyStr.upper s)
  | _ => Raise {| exn_class := AttributeError;
                  exn_str := "'" ++ type_name v ++ "' object has no attribute 'upper'" |}
  end.

(** ** Dictionaries: insertion-ordered association lists *)

Module Dict.

Definition dict (V : Type) : Type := list (string * V).

Definition empty {V} : dict V := [].

(** [d.get(k)] as an option; [d[k]] where the key is known present. *)
Fixpoint get {V} (d : dict V) (k : string) : option V :=
  match d with
  | [] => None
  | (k', v) :: rest => if String.eqb k' k then Some v else get rest k
  end.

(** [k in d] *)
Definition mem {V} (k : string) (d : dict V) : bool :=
  match get d k with Some _ => true | None => false end.

(** [d[k] = v]: an existing key keeps its position and takes the new
    value, a new key goes last. *)
Fixpoint set {V} (d : dict V) (k : string) (v : V) : dict V :=
  match d with
  | [] => [(k, v)]
  | (k', v') :: rest =>
      if String.eqb k' k then (k', v) :: rest else (k', v') :: set rest k v
  end.

Definition keys {V} (d : dict V) : list string := map fst d.

(** [d.items()] *)
Definition items {V} (d : dict V) : list (string * V) := d.

End Dict.

(** [d.get(k)] on a dictionary of Python values: [None] when absent. *)
Definition py_get (d : Dict.dict pyval) (k : string) : pyval :=
  match Dict.get d k with Some v => v | None => PNone end.

(** [d.get(k, default)] *)
Definition py_get_default (d : Dict.dict pyval) (k : string) (default : pyval) : pyval :=
  match Dict.get d k with Some v => v | None => default end.

(** ** Data providers (src/deployment/utils/data_providers.py) *)

Module DataProviders.
Import PyNum.

(** Float literals of the source. *)
Definition lit_1e12 : spec_float := float_of_decimal false 1 12.
Definition lit_1e9 : spec_float := float_of_decimal false 1 9.
Definition lit_1e6 : spec_float := float_of_decimal false 1 6.
Definition lit_1e3 : spec_float := float_of_decimal false 1 3.
Definition float_one : spec_float := float_of_decimal false 1 0.
Definition float_100 : spec_float := float_of_decimal false 100 0.

(** [float(v)] *)
Definition to_float (v : pyval) : outcome spec_float :=
  match v with
  | PBool b => Ok (if b then float_one else S754_zero false)
  | PInt z => float_of_int z
  | PFloat f => Ok f
  | PStr s =>
      match parse_float s with
      | Some f => Ok f
      | None => Raise {| exn_class := ValueError;
                         exn_str := "could not convert string to float: '" ++ s ++ "'" |}
      end
  | PNone | PObj _ =>
      Raise {| exn_class := TypeError;
               exn_str := "float() argument must be a string or a real number, not '"
                          ++ type_name v ++ "'" |}
  end.

(** [except (ValueError, TypeError)] *)
Definition is_value_or_type_error (e : exn) : bool :=
  match exn_class e with
  | ValueError | TypeError => true
  | _ => false
  end.

Definition format_large_number (num : pyval) : outcome string :=
  match num with
  | PNone => Ok "N/A"
  | _ =>
      match to_float num with
      | Raise e =>
          if is_value_or_type_error e then Ok (py_str num) else Raise e
      | Ok x =>
          if fle lit_1e12 (fabs x) then
            Ok ("$" ++ format_fixed 2 (fdiv x lit_1e12) ++ "T")
          else if fle lit_1e9 (fabs x) then
            Ok ("$" ++ format_fixed 2 (fdiv x lit_1e9) ++ "B")
          else if fle lit_1e6 (fabs x) then
            Ok ("$" ++ format_fixed 2 (fdiv x lit_1e6) ++ "M")
          else if fle lit_1e3 (fabs x) then
            Ok ("$" ++ format_fixed 1 (fdiv x lit_1e3) ++ "K")
          else
            Ok ("$" ++ format_fixed 2 x)
      end
  end.

Definition format_percentage (val : pyval) : outcome string :=
  match val with
  | PNone => Ok "N/A"
  | _ =>
      match to_float val with
      | Raise e =>
          if is_value_or_type_error e then Ok (py_str val) else Raise e
      | Ok x =>
          if xlt (value_of_float (fabs x)) (XFin 1) then
            Ok (format_fixed 2 (fmul x float_100) ++ "%")
          else
            Ok (format_fixed 2 x ++ "%")
      end
  end.

(** The fields [get_key_metrics] copies from the provider's payload. *)
Definition metric_keys : list string :=
  [ "marketCap"; "enterpriseValue"; "trailingPE"; "forwardPE";
    "pegRatio"; "priceToBook"; "trailingEps"; "forwardEps";
    "dividendYield"; "payoutRatio"; "beta"; "fiftyTwoWeekHigh";
    "fiftyTwoWeekLow"; "fiftyDayAverage"; "twoHundredDayAverage";
    "revenueGrowth"; "earningsGrowth"; "grossMargins";
    "operatingMargins"; "profitMargins"; "returnOnEquity";
    "returnOnAssets"; "debtToEquity"; "currentRatio";
    "quickRatio"; "freeCashflow"; "operatingCashflow";
    "totalRevenue"; "totalDebt"; "totalCash";
    "shortName"; "longName"; "sector"; "industry";
    "fullTimeEmployees"; "website"; "currentPrice";
    "targetHighPrice"; "targetLowPrice"; "targetMeanPrice";
    "recommendationKey"; "numberOfAnalystOpinions" ].

(** [get_key_metrics], given the payload [get_stock_info(ticker)]
    returned: the error sentinel is passed through, otherwise the listed
    fields that are present are copied in the order of the list. *)
Definition key_metrics_of (info : Dict.dict pyval) : Dict.dict pyval :=
  if Dict.mem "error" info && (List.length info <=? 1)%nat then info
  else
    fold_left
      (fun metrics key =>
         match Dict.get info key with
         | Some v => Dict.set metrics key v
         | None => metrics
         end)
      metric_keys Dict.empty.

End DataProviders.

(** ** Generative text client (src/utils/gemini_client.py) *)

(** The arguments of one [generate] call. *)
Record gen_request := {
  gr_prompt : string;
  gr_system : option string;
  gr_temperature : spec_float;
  gr_max_tokens : Z
}.

(** A call that leaves [temperature] and [max_tokens] at their defaults,
    0.3 and 8192. *)
Definition request (prompt : string) (system_instruction : option string)
  : gen_request :=
  {| gr_prompt := prompt;
     gr_system := system_instruction;
     gr_temperature := PyNum.float_of_decimal false 3 (-1);
     gr_max_tokens := 8192 |}.

Module GeminiClient.

(** Maximum characters of extracted PDF text sent as a prompt fallback. *)
Definition _MAX_TEXT_CHARS : nat := N.to_nat 60000.

(** What the model sends back; reading [response.text] can itself raise. *)
Record gen_response := { text : outcome string }.

(** The remote model: the outcome of the [k]-th call (from 0) made for a
    request. *)
Definition model := gen_request -> nat -> outcome gen_response.

(** What [_call_with_retry] does besides returning: it calls [fn] and it
    sleeps. *)
Inductive event :=
| Attempt (index : nat)
| Sleep (seconds : Z).

(** ["429" in err_str or "503" in err_str or "Resource exhausted" in err_str] *)
Definition retryable (err_str : string) : bool :=
  PyStr.contains "429" err_str
  || PyStr.contains "503" err_str
  || PyStr.contains "Resource exhausted" err_str.

(** The loop [for attempt in range(max_retries)] from iteration
    [attempt], with [remaining] iterations to go; [fn k] is the outcome
    of the [k]-th call of [fn()]. *)
Fixpoint retry_from {A} (fn : nat -> outcome A) (attempt remaining : nat)
  (last_err : option exn) : list event * outcome A :=
  match remaining with
  | O =>
      ([], match last_err with
           | Some e => Raise e
           | None => Raise {| exn_class := TypeError;
                              exn_str := "exceptions must derive from BaseException" |}
           end)
  | S remaining' =>
      match fn attempt with
      | Ok a => ([Attempt attempt], Ok a)
      | Raise e =>
          if retryable (exn_str e) then
            let wait := (2 ^ Z.of_nat attempt + 1)%Z in
            let '(events, result) := retry_from fn (S attempt) remaining' (Some e) in
            (Attempt attempt :: Sleep wait :: events, result)
          else ([Attempt attempt], Raise e)
      end
  end.

Definition _call_with_retry {A} (fn : nat -> outcome A) (max_retries : nat)
  : list event * outcome A :=
  retry_from fn 0 max_retries None.

Definition default_max_retries : nat := 4.

(** [generate]: the text, or the error-prefixed string. *)
Definition generate_traced (m : model) (req : gen_request) : list event * string :=
  let '(events, result) := _call_with_retry (m req) default_max_retries in
  (events,
   match (response <- result ;; text response) with
   | Ok t => t
   | Raise e => "Error generating response: " ++ exn_str e
   end).

Definition generate (m : model) (req : gen_request) : string :=
  snd (generate_traced m req).

(** [enumerate(pages)] from index [i] *)
Fixpoint enumerate {A} (i : N) (l : list A) : list (N * A) :=
  match l with
  | [] => []
  | x :: rest => (i, x) :: enumerate (i + 1)%N rest
  end.

Definition nl : string := String (ascii_of_N 10) EmptyString.

(** [_extract_pdf_text], given what the PDF reader yields for the bytes:
    the text of each page ([None] when a page has none), or an exception
    raised anywhere while reading.  The test [text.strip()] is the one of
    [PyStr], for pages of 7-bit text. *)
Definition _extract_pdf_text (reader : outcome (list (option string))) : string :=
  match reader with
  | Raise _ => ""
  | Ok pages =>
      PyStr.join (nl ++ nl)
        (flat_map
           (fun ip : N * option string =>
              let text := match snd ip with Some t => t | None => "" end in
              if PyStr.is_empty (PyStr.strip text) then []
              else ["--- Page " ++ PyNum.string_of_N (fst ip + 1) ++ " ---" ++ nl ++ text])
           (enumerate 0 pages))
  end.

(** The surroundings of one [analyze_document] call. *)
Record document_env := {
  (** creating and filling the temporary file *)
  tempfile : outcome unit;
  (** the [k]-th call of [_upload_and_generate] (upload, wait for the
      server-side processing, generate) *)
  upload_and_generate : nat -> outcome gen_response;
  (** the local PDF reader on the same bytes *)
  reader : outcome (list (option string))
}.

(** Attempt 1: the body of the [try]. *)
Definition upload_attempt (env : document_env) : outcome string :=
  _ <- tempfile env ;;
  response <- snd (_call_with_retry (upload_and_generate env) default_max_retries) ;;
  text response.

Definition truncation_marker : string := nl ++ nl ++ "... [text truncated] ...".

(** [if len(pdf_text) > _MAX_TEXT_CHARS: pdf_text = pdf_text[:_MAX_TEXT_CHARS] + marker] *)
Definition truncate (pdf_text : string) : string :=
  if (_MAX_TEXT_CHARS <? String.length pdf_text)%nat
  then PyStr.take _MAX_TEXT_CHARS pdf_text ++ truncation_marker
  else pdf_text.

Definition fallback_prompt (filename pdf_text query : string) : string :=
  "The following is the extracted text of a financial document "
  ++ "named '" ++ filename ++ "'." ++ nl ++ nl
  ++ "DOCUMENT TEXT:" ++ nl ++ pdf_text ++ nl ++ nl
  ++ "QUESTION / TASK:" ++ nl ++ query.

Definition fallback_system : string :=
  "You are an expert financial document analyst. "
  ++ "Analyse the document text provided and answer the question thoroughly.".

Definition double_failure_message (upload_err : exn) : string :=
  "Error analyzing document: " ++ exn_str upload_err ++ nl ++ nl
  ++ "Additionally, could not extract text from the PDF for a "
  ++ "fallback analysis.  Please try again in a minute.".

(** [analyze_document].  The [finally] clause only deletes the temporary
    file. *)
Definition analyze_document (m : model) (env : document_env)
  (query filename : string) : string :=
  match upload_attempt env with
  | Ok t => t
  | Raise upload_err =>
      let pdf_text := _extract_pdf_text (reader env) in
      if PyStr.is_empty pdf_text then double_failure_message upload_err
      else
        generate m
          {| gr_prompt := fallback_prompt filename (truncate pdf_text) query;
             gr_system := Some fallback_system;
             gr_temperature := PyNum.float_of_decimal false 2 (-1);
             gr_max_tokens := 8192 |}
  end.

End GeminiClient.

(** [self.gemini.generate] as the agents use it: a request gives a text. *)
Definition text_service := gen_request -> string.

(** What an agent operation does with the generative text service: it
    either answers without calling it, or ends with one call whose text
    is the answer. *)
Inductive response :=
| Reply (text : string)
| Generate (req : gen_request).

(** The text finally returned to the caller. *)
Definition answer (gemini : text_service) (r : response) : string :=
  match r with
  | Reply text => text
  | Generate req => gemini req
  end.

(** The external data sources.  Each is a function of its arguments:
    within one operation, two fetches for the same ticker see the same
    payload. *)
Record provider := {
  (** [get_stock_info(ticker)]: the market-data payload, or the error
      sentinel [{"error": msg}] *)
  get_stock_info : string -> Dict.dict pyval;
  (** [get_price_history(ticker, period)]: an opaque table *)
  get_price_history : string -> string -> pyval;
  (** [get_news(ticker)] *)
  get_news : string -> list (Dict.dict pyval)
}.

(** [get_key_metrics(ticker)] *)
Definition get_key_metrics (p : provider) (ticker : string) : Dict.dict pyval :=
  DataProviders.key_metrics_of (get_stock_info p ticker).

Definition nl : string := GeminiClient.nl.

(** ** The loops shared by the comparison operations *)

(** [ticker.strip().upper()] *)
Definition normalize (ticker : string) : string := PyStr.upper (PyStr.strip ticker).

(** [for ticker in tickers: ticker = ticker.strip().upper();
    result[ticker] = fetch(ticker)], from the dictionary [acc]. *)
Fixpoint collect {V} (fetch : string -> outcome V) (tickers : list string)
  (acc : Dict.dict V) : outcome (Dict.dict V) :=
  match tickers with
  | [] => Ok acc
  | ticker :: rest =>
      let ticker := normalize ticker in
      v <- fetch ticker ;;
      collect fetch rest (Dict.set acc ticker v)
  end.

(** A dictionary that holds, for each of its keys, what [fetch] returns
    for that key. *)
Definition consistent {V} (fetch : string -> outcome V) (acc : Dict.dict V) : Prop :=
  forall k v, Dict.get acc k = Some v -> fetch k = Ok v.

(** [mapM] over a list, left to right. *)
Fixpoint map_outcome {A B} (f : A -> outcome B) (l : list A) : outcome (list B) :=
  match l with
  | [] => Ok []
  | x :: rest => y <- f x ;; ys <- map_outcome f rest ;; Ok (y :: ys)
  end.

(** ** Risk agent (src/agents/risk_agent.py) *)

Module RiskAgent.
Import PyNum.

Definition SYSTEM_INSTRUCTION : string :=
  "You are an expert financial risk analyst agent. Your role is to:
1. Identify and categorize risk factors for companies
2. Assess the severity and likelihood of each risk
3. Compare risks across peer companies
4. Detect red flags in financial data
5. Evaluate financial health and stability metrics
6. Provide actionable risk mitigation insights

Risk categories to consider:
- Market Risk (competition, demand, pricing)
- Financial Risk (leverage, liquidity, currency)
- Operational Risk (supply chain, technology, talent)
- Regulatory Risk (compliance, litigation, policy changes)
- Strategic Risk (M&A, innovation, market shifts)
- ESG Risk (environmental, social, governance)

Always rate severity as: Critical / High / Medium / Low
Format responses with structured risk tables and clear explanations.".

(** A value of the [risk_indicators] dictionary: a plain value (ticker,
    company, error message) or an indicator
    [{"level": ..., "value": ..., "note": ...}]. *)
Inductive rval :=
| RVal (v : pyval)
| RInd (level : string) (value : pyval) (note : string).

(** Float literals of the source. *)
Definition lit_0_5 : pyval := PFloat (float_of_decimal false 5 (-1)).
Definition lit_1_0 : pyval := PFloat (float_of_decimal false 10 (-1)).
Definition lit_1_5 : pyval := PFloat (float_of_decimal false 15 (-1)).
Definition lit_0_05 : pyval := PFloat (float_of_decimal false 5 (-2)).
Definition lit_neg_0_1 : pyval := PFloat (SFopp (float_of_decimal false 1 (-1))).
Definition lit_2_0 : pyval := PFloat (float_of_decimal false 20 (-1)).
Definition lit_1_2 : pyval := PFloat (float_of_decimal false 12 (-1)).

(** Leverage risk, from [debtToEquity]. *)
Definition leverage_risk (de : pyval) : outcome rval :=
  c1 <- py_gt de (PInt 200) ;;
  if c1 then Ok (RInd "Critical" de "Very high leverage") else
  c2 <- py_gt de (PInt 100) ;;
  if c2 then Ok (RInd "High" de "High leverage") else
  c3 <- py_gt de (PInt 50) ;;
  if c3 then Ok (RInd "Medium" de "Moderate leverage")
  else Ok (RInd "Low" de "Conservative leverage").

(** Liquidity risk, from [currentRatio]. *)
Definition liquidity_risk (cr : pyval) : outcome rval :=
  c1 <- py_lt cr lit_0_5 ;;
  if c1 then Ok (RInd "Critical" cr "Severe liquidity concern") else
  c2 <- py_lt cr lit_1_0 ;;
  if c2 then Ok (RInd "High" cr "Below 1x current ratio") else
  c3 <- py_lt cr lit_1_5 ;;
  if c3 then Ok (RInd "Medium" cr "Adequate liquidity")
  else Ok (RInd "Low" cr "Strong liquidity").

(** Valuation risk, from [trailingPE]. *)
Definition valuation_risk (pe : pyval) : outcome rval :=
  c1 <- py_gt pe (PInt 60) ;;
  if c1 then Ok (RInd "High" pe "Very high P/E, elevated expectations") else
  c2 <- py_gt pe (PInt 30) ;;
  if c2 then Ok (RInd "Medium" pe "Above-average valuation") else
  c3 <- py_gt pe (PInt 0) ;;
  if c3 then Ok (RInd "Low" pe "Reasonable valuation")
  else Ok (RInd "High" pe "Negative earnings").

(** Profitability risk, from [profitMargins]. *)
Definition profitability_risk (margins : pyval) : outcome rval :=
  c1 <- py_lt margins (PInt 0) ;;
  if c1 then Ok (RInd "High" margins "Unprofitable") else
  c2 <- py_lt margins lit_0_05 ;;
  if c2 then Ok (RInd "Medium" margins "Thin margins")
  else Ok (RInd "Low" margins "Healthy margins").

(** Growth risk, from [revenueGrowth]. *)
Definition growth_risk (rev_growth : pyval) : outcome rval :=
  c1 <- py_lt rev_growth lit_neg_0_1 ;;
  if c1 then Ok (RInd "High" rev_growth "Revenue declining") else
  c2 <- py_lt rev_growth (PInt 0) ;;
  if c2 then Ok (RInd "Medium" rev_growth "Slight revenue decline")
  else Ok (RInd "Low" rev_growth "Positive growth").

(** Volatility risk, from [beta]. *)
Definition volatility_risk (beta : pyval) : outcome rval :=
  c1 <- py_gt beta lit_2_0 ;;
  if c1 then Ok (RInd "High" beta "Very high beta") else
  c2 <- py_gt beta lit_1_2 ;;
  if c2 then Ok (RInd "Medium" beta "Above-market volatility")
  else Ok (RInd "Low" beta "Low to moderate volatility").

(** [x = metrics.get(metric); if x is not None: risk_indicators[key] = ...] *)
Definition add_indicator (key : string) (classify : pyval -> outcome rval)
  (x : pyval) (risk_indicators : Dict.dict rval) : outcome (Dict.dict rval) :=
  match x with
  | PNone => Ok risk_indicators
  | _ => r <- classify x ;; Ok (Dict.set risk_indicators key r)
  end.

(** The body of [assess_financial_risk] once the metrics are fetched. *)
Definition risk_indicators_of (ticker : string) (metrics : Dict.dict pyval)
  : outcome (Dict.dict rval) :=
  if Dict.mem "error" metrics then
    Ok [("error", RVal (py_get metrics "error"))]
  else
    let d0 :=
      [("ticker", RVal (PStr (PyStr.upper ticker)));
       ("company", RVal (py_or (py_get metrics "longName")
                               (py_get_default metrics "shortName" (PStr ticker))))] in
    d1 <- add_indicator "leverage_risk" leverage_risk (py_get metrics "debtToEquity") d0 ;;
    d2 <- add_indicator "liquidity_risk" liquidity_risk (py_get metrics "currentRatio") d1 ;;
    d3 <- add_indicator "valuation_risk" valuation_risk (py_get metrics "trailingPE") d2 ;;
    d4 <- add_indicator "profitability_risk" profitability_risk (py_get metrics "profitMargins") d3 ;;
    d5 <- add_indicator "growth_risk" growth_risk (py_get metrics "revenueGrowth") d4 ;;
    add_indicator "volatility_risk" volatility_risk (py_get metrics "beta") d5.

Definition assess_financial_risk (p : provider) (ticker : string)
  : outcome (Dict.dict rval) :=
  risk_indicators_of ticker (get_key_metrics p ticker).

(** [repr(v)]: as [str(v)], with quotes around a string. *)
Definition py_repr (v : pyval) : string :=
  match v with
  | PStr s => "'" ++ s ++ "'"
  | _ => py_str v
  end.

(** [str(val)] for a value of the risk dictionary. *)
Definition rval_str (r : rval) : string :=
  match r with
  | RVal v => py_str v
  | RInd level value note =>
      "{'level': '" ++ level ++ "', 'value': " ++ py_repr value
      ++ ", 'note': '" ++ note ++ "'}"
  end.

(** [profile.get('company', ticker)] inside an f-string *)
Definition company_or (profile : Dict.dict rval) (ticker : string) : string :=
  match Dict.get profile "company" with
  | Some r => rval_str r
  | None => ticker
  end.

(** [key.replace('_', ' ').title()] *)
Definition pretty_key (key : string) : string :=
  PyStr.title (PyStr.replace_char "_" " " key).

(** The lines added for the entries that are indicators
    ([isinstance(val, dict) and "level" in val]). *)
Definition indicator_lines (render : string -> string -> string -> string)
  (risk_data : Dict.dict rval) : list string :=
  flat_map (fun kv =>
              match snd kv with
              | RInd level _ note => [render (pretty_key (fst kv)) level note]
              | RVal _ => []
              end)
           (Dict.items risk_data).

Definition risk_report_outline : string :=
  "
Generate a professional risk report with:

1. **Executive Risk Summary** (2-3 sentences)

2. **Risk Scorecard** (rate each 1-10):
   - Financial Risk
   - Market/Competitive Risk
   - Operational Risk
   - Regulatory/Legal Risk
   - Strategic Risk
   - Overall Risk Score

3. **Key Risk Factors** (top 5, with severity rating):
   For each: Description, Severity (Critical/High/Medium/Low), Likelihood, Potential Impact

4. **Red Flags** - Any warning signs in the data

5. **Risk Mitigation Factors** - Positive indicators that offset risks

6. **Peer Context** - How these risks compare to typical industry peers

7. **Monitoring Recommendations** - Key metrics to watch".

(** [filings = get_company_filings(ticker, "10-K", 1)] is fetched too;
    its result is not used. *)
Definition comprehensive_risk_analysis (p : provider) (ticker : string)
  : outcome response :=
  let metrics := get_key_metrics p ticker in
  risk_data <- assess_financial_risk p ticker ;;
  market_cap <- DataProviders.format_large_number (py_get metrics "marketCap") ;;
  revenue <- DataProviders.format_large_number (py_get metrics "totalRevenue") ;;
  revenue_growth <- DataProviders.format_percentage (py_get metrics "revenueGrowth") ;;
  gross <- DataProviders.format_percentage (py_get metrics "grossMargins") ;;
  operating <- DataProviders.format_percentage (py_get metrics "operatingMargins") ;;
  net <- DataProviders.format_percentage (py_get metrics "profitMargins") ;;
  let na := PStr "N/A" in
  roe <- DataProviders.format_percentage (py_get metrics "returnOnEquity") ;;
  fcf <- DataProviders.format_large_number (py_get metrics "freeCashflow") ;;
  let data_context :=
    nl ++ "Company: " ++ company_or risk_data ticker
       ++ " (" ++ PyStr.upper ticker ++ ")" ++ nl
    ++ nl
    ++ "FINANCIAL METRICS:" ++ nl
    ++ "- Market Cap: " ++ market_cap ++ nl
    ++ "- Revenue: " ++ revenue ++ nl
    ++ "- Revenue Growth: " ++ revenue_growth ++ nl
    ++ "- Gross Margins: " ++ gross ++ nl
    ++ "- Operating Margins: " ++ operating ++ nl
    ++ "- Net Margins: " ++ net ++ nl
    ++ "- Debt/Equity: " ++ py_str (py_get_default metrics "debtToEquity" na) ++ nl
    ++ "- Current Ratio: " ++ py_str (py_get_default metrics "currentRatio" na) ++ nl
    ++ "- P/E Ratio: " ++ py_str (py_get_default metrics "trailingPE" na) ++ nl
    ++ "- Beta: " ++ py_str (py_get_default metrics "beta" na) ++ nl
    ++ "- ROE: " ++ roe ++ nl
    ++ "- Free Cash Flow: " ++ fcf ++ nl
    ++ nl
    ++ "QUANTITATIVE RISK ASSESSMENT:" ++ nl
    ++ String.concat ""
         (indicator_lines
            (fun key level note =>
               "- " ++ key ++ ": " ++ level ++ " (" ++ note ++ ")" ++ nl)
            risk_data) in
  let prompt :=
    "Provide a comprehensive risk assessment for " ++ PyStr.upper ticker
    ++ " based on the data below:" ++ nl
    ++ nl
    ++ data_context ++ nl
    ++ risk_report_outline in
  Ok (Generate (request prompt (Some SYSTEM_INSTRUCTION))).

(** The block of one company in [compare_risks]. *)
Definition profile_block (entry : string * Dict.dict rval) : list string :=
  let '(ticker, profile) := entry in
  (nl ++ "--- " ++ company_or profile ticker ++ " (" ++ ticker ++ ") ---")
  :: indicator_lines
       (fun key level note => "  " ++ key ++ ": " ++ level ++ " - " ++ note)
       profile.

(** [profile_text] of [compare_risks]: the assembled comparison context. *)
Definition risk_profiles (p : provider) (tickers : list string)
  : outcome (Dict.dict (Dict.dict rval)) :=
  collect (assess_financial_risk p) tickers Dict.empty.

Definition profile_text (p : provider) (tickers : list string)
  : outcome (list string) :=
  profiles <- risk_profiles p tickers ;;
  Ok (flat_map profile_block (Dict.items profiles)).

Definition risk_comparison_outline : string :=
  "
Provide:
1. **Comparative Risk Matrix** (table format)
2. **Company-by-Company Risk Summary**
3. **Shared Risks** - Common risks across all companies
4. **Unique Risks** - Risks specific to individual companies
5. **Risk-Adjusted Ranking** - Which company has the best risk profile and why
6. **Key Takeaways** for investors".

Definition compare_risks (p : provider) (tickers : list string) : outcome response :=
  text <- profile_text p tickers ;;
  let prompt :=
    "Compare the risk profiles of these companies:" ++ nl
    ++ nl
    ++ String.concat "" text ++ nl
    ++ risk_comparison_outline in
  Ok (Generate (request prompt (Some SYSTEM_INSTRUCTION))).

End RiskAgent.

(** ** Market data agent (src/deployment/agents/market_agent.py) *)

Module MarketDataAgent.

Definition SYSTEM_INSTRUCTION : string :=
  "You are an expert financial market analyst agent. Your role is to:
1. Analyze stock market data including prices, fundamentals, and ratios
2. Provide clear, concise insights based on quantitative data
3. Compare companies using standard financial metrics
4. Identify trends in price movement and financial performance
5. Always cite specific numbers and metrics in your analysis
6. Use professional financial terminology
Format your responses with clear headers and bullet points.".

Definition na : pyval := PStr "N/A".

Definition get_company_overview (p : provider) (ticker : string)
  : outcome (Dict.dict pyval) :=
  let metrics := get_key_metrics p ticker in
  if Dict.mem "error" metrics then
    Ok [("error",
         PStr ("Could not fetch data for " ++ ticker ++ ": "
               ++ py_str (py_get metrics "error")))]
  else
    let price_hist := get_price_history p ticker "1y" in
    num_marketCap <- DataProviders.format_large_number (py_get metrics "marketCap") ;;
    num_totalRevenue <- DataProviders.format_large_number (py_get metrics "totalRevenue") ;;
    num_freeCashflow <- DataProviders.format_large_number (py_get metrics "freeCashflow") ;;
    Ok [
         ("ticker", PStr (PyStr.upper ticker));
         ("name", py_or (py_get metrics "longName") (py_get_default metrics "shortName" (PStr ticker)));
         ("sector", py_get_default metrics "sector" na);
         ("industry", py_get_default metrics "industry" na);
         ("current_price", py_get metrics "currentPrice");
         ("market_cap", py_get metrics "marketCap");
         ("market_cap_formatted", PStr num_marketCap);
         ("pe_ratio", py_get metrics "trailingPE");
         ("forward_pe", py_get metrics "forwardPE");
         ("peg_ratio", py_get metrics "pegRatio");
         ("price_to_book", py_get metrics "priceToBook");
         ("dividend_yield", py_get metrics "dividendYield");
         ("beta", py_get metrics "beta");
         ("52w_high", py_get metrics "fiftyTwoWeekHigh");
         ("52w_low", py_get metrics "fiftyTwoWeekLow");
         ("revenue_growth", py_get metrics "revenueGrowth");
         ("earnings_growth", py_get metrics "earningsGrowth");
         ("gross_margins", py_get metrics "grossMargins");
         ("operating_margins", py_get metrics "operatingMargins");
         ("profit_margins", py_get metrics "profitMargins");
         ("roe", py_get metrics "returnOnEquity");
         ("roa", py_get metrics "returnOnAssets");
         ("debt_to_equity", py_get metrics "debtToEquity");
         ("current_ratio", py_get metrics "currentRatio");
         ("total_revenue", py_get metrics "totalRevenue");
         ("total_revenue_formatted", PStr num_totalRevenue);
         ("free_cash_flow", py_get metrics "freeCashflow");
         ("free_cash_flow_formatted", PStr num_freeCashflow);
         ("analyst_target", py_get metrics "targetMeanPrice");
         ("recommendation", py_get metrics "recommendationKey");
         ("num_analysts", py_get metrics "numberOfAnalystOpinions");
         ("employees", py_get metrics "fullTimeEmployees");
         ("price_history", price_hist) ].


(** [if query:] *)
Definition given (query : option string) : option string :=
  match query with
  | Some q => if PyStr.is_empty q then None else Some q
  | None => None
  end.

Definition analyze_with_ai (p : provider) (ticker : string) (query : option string)
  : outcome response :=
  overview <- get_company_overview p ticker ;;
  if Dict.mem "error" overview then Ok (Reply (py_str (py_get overview "error")))
  else
    pct_gross_margins <- DataProviders.format_percentage (py_get overview "gross_margins") ;;
    pct_operating_margins <- DataProviders.format_percentage (py_get overview "operating_margins") ;;
    pct_profit_margins <- DataProviders.format_percentage (py_get overview "profit_margins") ;;
    pct_roe <- DataProviders.format_percentage (py_get overview "roe") ;;
    pct_roa <- DataProviders.format_percentage (py_get overview "roa") ;;
    pct_revenue_growth <- DataProviders.format_percentage (py_get overview "revenue_growth") ;;
    pct_earnings_growth <- DataProviders.format_percentage (py_get overview "earnings_growth") ;;
    let data_summary :=
      nl
      ++ "Company: " ++ py_str (py_get overview "name") ++ " (" ++ py_str (py_get overview "ticker") ++ ")" ++ nl
      ++ "Sector: " ++ py_str (py_get overview "sector") ++ " | Industry: " ++ py_str (py_get overview "industry") ++ nl
      ++ nl
      ++ "PRICE DATA:" ++ nl
      ++ "- Current Price: $" ++ py_str (py_get_default overview "current_price" na) ++ nl
      ++ "- 52-Week High: $" ++ py_str (py_get_default overview "52w_high" na) ++ nl
      ++ "- 52-Week Low: $" ++ py_str (py_get_default overview "52w_low" na) ++ nl
      ++ "- Beta: " ++ py_str (py_get_default overview "beta" na) ++ nl
      ++ nl
      ++ "VALUATION:" ++ nl
      ++ "- Market Cap: " ++ py_str (py_get overview "market_cap_formatted") ++ nl
      ++ "- P/E (TTM): " ++ py_str (py_get_default overview "pe_ratio" na) ++ nl
      ++ "- Forward P/E: " ++ py_str (py_get_default overview "forward_pe" na) ++ nl
      ++ "- PEG Ratio: " ++ py_str (py_get_default overview "peg_ratio" na) ++ nl
      ++ "- Price/Book: " ++ py_str (py_get_default overview "price_to_book" na) ++ nl
      ++ nl
      ++ "PROFITABILITY:" ++ nl
      ++ "- Gross Margins: " ++ pct_gross_margins ++ nl
      ++ "- Operating Margins: " ++ pct_operating_margins ++ nl
      ++ "- Profit Margins: " ++ pct_profit_margins ++ nl
      ++ "- ROE: " ++ pct_roe ++ nl
      ++ "- ROA: " ++ pct_roa ++ nl
      ++ nl
      ++ "GROWTH:" ++ nl
      ++ "- Revenue Growth: " ++ pct_revenue_growth ++ nl
      ++ "- Earnings Growth: " ++ pct_earnings_growth ++ nl
      ++ "- Total Revenue: " ++ py_str (py_get overview "total_revenue_formatted") ++ nl
      ++ "- Free Cash Flow: " ++ py_str (py_get overview "free_cash_flow_formatted") ++ nl
      ++ nl
      ++ "FINANCIAL HEALTH:" ++ nl
      ++ "- Debt/Equity: " ++ py_str (py_get_default overview "debt_to_equity" na) ++ nl
      ++ "- Current Ratio: " ++ py_str (py_get_default overview "current_ratio" na) ++ nl
      ++ nl
      ++ "ANALYST CONSENSUS:" ++ nl
      ++ "- Recommendation: " ++ py_str (py_get_default overview "recommendation" na) ++ nl
      ++ "- Target Price: $" ++ py_str (py_get_default overview "analyst_target" na) ++ nl
      ++ "- Number of Analysts: " ++ py_str (py_get_default overview "num_analysts" na) ++ nl in
    let prompt :=
      match given query with
      | Some q =>
        "Based on the following market data, answer this question: " ++ q ++ nl
        ++ nl
        ++ data_summary ++ nl
        ++ nl
        ++ "Provide a detailed, data-driven analysis. Reference specific metrics in your answer."
      | None =>
        "Provide a comprehensive market analysis for this company based on the data:" ++ nl
        ++ nl
        ++ data_summary ++ nl
        ++ nl
        ++ "Include:" ++ nl
        ++ "1. Valuation assessment (overvalued/undervalued/fair)" ++ nl
        ++ "2. Growth trajectory analysis" ++ nl
        ++ "3. Profitability comparison to typical industry benchmarks" ++ nl
        ++ "4. Financial health assessment" ++ nl
        ++ "5. Key strengths and concerns" ++ nl
        ++ "6. Brief investment outlook"
      end in
    Ok (Generate (request prompt (Some SYSTEM_INSTRUCTION))).




End MarketDataAgent.

(** ** Report agent (src/agents/report_agent.py) *)

Module ReportAgent.

Definition SYSTEM_INSTRUCTION : string :=
  "You are an expert investment report generator agent. Your role is to:
1. Generate professional, institutional-grade investment reports
2. Create comprehensive investment theses with bull/bear cases
3. Provide clear, actionable recommendations with price targets
4. Include quantitative analysis with qualitative insights
5. Structure reports in a professional format suitable for portfolio managers
6. Always include specific data points, metrics, and citations

Report Quality Standards:
- Use precise financial language
- Include specific numbers and percentages
- Present balanced bull/bear perspectives
- Provide clear rationale for recommendations
- Structure with executive summary, detailed analysis, and conclusion".

Definition na : pyval := PStr "N/A".

(** [metrics.get("longName") or metrics.get("shortName", ticker)] inside
    an f-string *)
Definition company_name_of (metrics : Dict.dict pyval) (ticker : string) : string :=
  py_str (py_or (py_get metrics "longName")
                (py_get_default metrics "shortName" (PStr ticker))).

(** [round(ev / revenue, 2) if ev and revenue else 'N/A'] *)
Definition ev_to_revenue (metrics : Dict.dict pyval) : outcome string :=
  if py_truthy (py_get metrics "enterpriseValue")
     && py_truthy (py_get metrics "totalRevenue")
  then
    ratio <- py_truediv (py_get_default metrics "enterpriseValue" (PInt 0))
                        (py_get_default metrics "totalRevenue" (PInt 1)) ;;
    Ok (PyNum.float_repr (round2 ratio))
  else Ok "N/A".

(** The first [n] headlines, one per line. *)
Definition headlines (n : nat) (news : list (Dict.dict pyval)) (none : string) : string :=
  match news with
  | [] => none
  | _ =>
      PyStr.join nl
        (map (fun item => "- " ++ py_str (py_get_default item "title" (PStr "")))
             (firstn n news))
  end.

Definition generate_investment_thesis (p : provider) (ticker : string)
  : outcome response :=
  let metrics := get_key_metrics p ticker in
  let news := get_news p ticker in
  let company_name := company_name_of metrics ticker in
  let news_headlines := headlines 8 news "No recent news available." in
  employees <- format_comma (py_get_default metrics "fullTimeEmployees" na) ;;
  num_marketCap <- DataProviders.format_large_number (py_get metrics "marketCap") ;;
  num_enterpriseValue <- DataProviders.format_large_number (py_get metrics "enterpriseValue") ;;
  ev_revenue <- ev_to_revenue metrics ;;
  num_totalRevenue <- DataProviders.format_large_number (py_get metrics "totalRevenue") ;;
  pct_revenueGrowth <- DataProviders.format_percentage (py_get metrics "revenueGrowth") ;;
  pct_grossMargins <- DataProviders.format_percentage (py_get metrics "grossMargins") ;;
  pct_operatingMargins <- DataProviders.format_percentage (py_get metrics "operatingMargins") ;;
  pct_profitMargins <- DataProviders.format_percentage (py_get metrics "profitMargins") ;;
  pct_returnOnEquity <- DataProviders.format_percentage (py_get metrics "returnOnEquity") ;;
  pct_returnOnAssets <- DataProviders.format_percentage (py_get metrics "returnOnAssets") ;;
  num_totalCash <- DataProviders.format_large_number (py_get metrics "totalCash") ;;
  num_totalDebt <- DataProviders.format_large_number (py_get metrics "totalDebt") ;;
  num_freeCashflow <- DataProviders.format_large_number (py_get metrics "freeCashflow") ;;
  num_operatingCashflow <- DataProviders.format_large_number (py_get metrics "operatingCashflow") ;;
  pct_dividendYield <- DataProviders.format_percentage (py_get metrics "dividendYield") ;;
  recommendation <- upper_method (py_get_default metrics "recommendationKey" na) ;;
  let data_context :=
      nl
      ++ "COMPANY: " ++ company_name ++ " (" ++ PyStr.upper ticker ++ ")" ++ nl
      ++ "Sector: " ++ py_str (py_get_default metrics "sector" na) ++ " | Industry: " ++ py_str (py_get_default metrics "industry" na) ++ nl
      ++ "Employees: " ++ employees ++ " " ++ nl
      ++ nl
      ++ "CURRENT VALUATION:" ++ nl
      ++ "- Stock Price: $" ++ py_str (py_get_default metrics "currentPrice" na) ++ nl
      ++ "- Market Cap: " ++ num_marketCap ++ nl
      ++ "- Enterprise Value: " ++ num_enterpriseValue ++ nl
      ++ "- P/E (TTM): " ++ py_str (py_get_default metrics "trailingPE" na) ++ nl
      ++ "- Forward P/E: " ++ py_str (py_get_default metrics "forwardPE" na) ++ nl
      ++ "- PEG Ratio: " ++ py_str (py_get_default metrics "pegRatio" na) ++ nl
      ++ "- Price/Book: " ++ py_str (py_get_default metrics "priceToBook" na) ++ nl
      ++ "- EV/Revenue: " ++ ev_revenue ++ nl
      ++ nl
      ++ "FINANCIAL PERFORMANCE:" ++ nl
      ++ "- Revenue: " ++ num_totalRevenue ++ nl
      ++ "- Revenue Growth: " ++ pct_revenueGrowth ++ nl
      ++ "- Gross Margins: " ++ pct_grossMargins ++ nl
      ++ "- Operating Margins: " ++ pct_operatingMargins ++ nl
      ++ "- Net Margins: " ++ pct_profitMargins ++ nl
      ++ "- EPS (TTM): $" ++ py_str (py_get_default metrics "trailingEps" na) ++ nl
      ++ "- EPS (Forward): $" ++ py_str (py_get_default metrics "forwardEps" na) ++ nl
      ++ "- ROE: " ++ pct_returnOnEquity ++ nl
      ++ "- ROA: " ++ pct_returnOnAssets ++ nl
      ++ nl
      ++ "BALANCE SHEET:" ++ nl
      ++ "- Total Cash: " ++ num_totalCash ++ nl
      ++ "- Total Debt: " ++ num_totalDebt ++ nl
      ++ "- Debt/Equity: " ++ py_str (py_get_default metrics "debtToEquity" na) ++ nl
      ++ "- Current Ratio: " ++ py_str (py_get_default metrics "currentRatio" na) ++ nl
      ++ "- Free Cash Flow: " ++ num_freeCashflow ++ nl
      ++ "- Operating Cash Flow: " ++ num_operatingCashflow ++ nl
      ++ nl
      ++ "MARKET DATA:" ++ nl
      ++ "- Beta: " ++ py_str (py_get_default metrics "beta" na) ++ nl
      ++ "- 52-Week High: $" ++ py_str (py_get_default metrics "fiftyTwoWeekHigh" na) ++ nl
      ++ "- 52-Week Low: $" ++ py_str (py_get_default metrics "fiftyTwoWeekLow" na) ++ nl
      ++ "- 50-Day Average: $" ++ py_str (py_get_default metrics "fiftyDayAverage" na) ++ nl
      ++ "- 200-Day Average: $" ++ py_str (py_get_default metrics "twoHundredDayAverage" na) ++ nl
      ++ "- Dividend Yield: " ++ pct_dividendYield ++ nl
      ++ nl
      ++ "ANALYST CONSENSUS:" ++ nl
      ++ "- Recommendation: " ++ recommendation ++ nl
      ++ "- Target High: $" ++ py_str (py_get_default metrics "targetHighPrice" na) ++ nl
      ++ "- Target Low: $" ++ py_str (py_get_default metrics "targetLowPrice" na) ++ nl
      ++ "- Target Mean: $" ++ py_str (py_get_default metrics "targetMeanPrice" na) ++ nl
      ++ "- Number of Analysts: " ++ py_str (py_get_default metrics "numberOfAnalystOpinions" na) ++ nl
      ++ nl
      ++ "RECENT NEWS:" ++ nl
      ++ news_headlines ++ nl in
  let prompt :=
      "Generate a comprehensive investment thesis report for " ++ company_name ++ " (" ++ PyStr.upper ticker ++ ")." ++ nl
      ++ nl
      ++ data_context ++ nl
      ++ nl
      ++ "Create a professional investment report with the following structure:" ++ nl
      ++ nl
      ++ "# " ++ company_name ++ " (" ++ PyStr.upper ticker ++ ") - Investment Thesis" ++ nl
      ++ nl
      ++ "## Executive Summary" ++ nl
      ++ "- Rating (Strong Buy / Buy / Hold / Sell / Strong Sell)" ++ nl
      ++ "- Target Price with upside/downside percentage" ++ nl
      ++ "- 1-paragraph thesis summary" ++ nl
      ++ nl
      ++ "## Company Overview" ++ nl
      ++ "- Business description and competitive position" ++ nl
      ++ "- Key products/services and revenue drivers" ++ nl
      ++ "- Market position and competitive moats" ++ nl
      ++ nl
      ++ "## Financial Analysis" ++ nl
      ++ "- Revenue and earnings trends" ++ nl
      ++ "- Profitability assessment" ++ nl
      ++ "- Balance sheet strength" ++ nl
      ++ "- Cash flow analysis" ++ nl
      ++ nl
      ++ "## Valuation Assessment" ++ nl
      ++ "- Current valuation vs. historical averages" ++ nl
      ++ "- Peer comparison context" ++ nl
      ++ "- Is the stock overvalued, undervalued, or fairly valued?" ++ nl
      ++ nl
      ++ "## Bull Case (with target price)" ++ nl
      ++ "- 3-5 key catalysts and positive scenarios" ++ nl
      ++ "- Upside target price and rationale" ++ nl
      ++ nl
      ++ "## Bear Case (with target price)" ++ nl
      ++ "- 3-5 key risks and negative scenarios" ++ nl
      ++ "- Downside target price and rationale" ++ nl
      ++ nl
      ++ "## Key Catalysts & Timeline" ++ nl
      ++ "- Upcoming events that could move the stock" ++ nl
      ++ "- Expected timing of catalysts" ++ nl
      ++ nl
      ++ "## Risk Factors" ++ nl
      ++ "- Top 5 risks with severity assessment" ++ nl
      ++ nl
      ++ "## Conclusion & Recommendation" ++ nl
      ++ "- Final recommendation with confidence level" ++ nl
      ++ "- Position sizing suggestion (e.g., core position vs. starter)" ++ nl
      ++ "- Key metrics to monitor" ++ nl
      ++ nl
      ++ "Use specific numbers from the data provided. Be balanced and objective." in
  Ok (Generate {| gr_prompt := prompt;
                  gr_system := Some SYSTEM_INSTRUCTION;
                  gr_temperature := PyNum.float_of_decimal false 4 (-1);
                  gr_max_tokens := 8192 |}).

(** The block of one company in [generate_comparison_report]. *)
Definition company_block (entry : string * Dict.dict pyval) : outcome string :=
  let '(ticker, metrics) := entry in
  let name := company_name_of metrics ticker in
  num_marketCap <- DataProviders.format_large_number (py_get metrics "marketCap") ;;
  num_totalRevenue <- DataProviders.format_large_number (py_get metrics "totalRevenue") ;;
  pct_revenueGrowth <- DataProviders.format_percentage (py_get metrics "revenueGrowth") ;;
  pct_grossMargins <- DataProviders.format_percentage (py_get metrics "grossMargins") ;;
  pct_operatingMargins <- DataProviders.format_percentage (py_get metrics "operatingMargins") ;;
  pct_profitMargins <- DataProviders.format_percentage (py_get metrics "profitMargins") ;;
  pct_returnOnEquity <- DataProviders.format_percentage (py_get metrics "returnOnEquity") ;;
  num_freeCashflow <- DataProviders.format_large_number (py_get metrics "freeCashflow") ;;
  Ok (
    nl
    ++ "--- " ++ name ++ " (" ++ ticker ++ ") ---" ++ nl
    ++ "Price: $" ++ py_str (py_get_default metrics "currentPrice" na) ++ " | Market Cap: " ++ num_marketCap ++ nl
    ++ "P/E: " ++ py_str (py_get_default metrics "trailingPE" na) ++ " | Fwd P/E: " ++ py_str (py_get_default metrics "forwardPE" na) ++ " | PEG: " ++ py_str (py_get_default metrics "pegRatio" na) ++ nl
    ++ "Revenue: " ++ num_totalRevenue ++ " | Rev Growth: " ++ pct_revenueGrowth ++ nl
    ++ "Gross: " ++ pct_grossMargins ++ " | Op: " ++ pct_operatingMargins ++ " | Net: " ++ pct_profitMargins ++ nl
    ++ "ROE: " ++ pct_returnOnEquity ++ " | D/E: " ++ py_str (py_get_default metrics "debtToEquity" na) ++ nl
    ++ "FCF: " ++ num_freeCashflow ++ " | Analyst: " ++ py_str (py_get_default metrics "recommendationKey" na) ++ nl).

(** [data_text] of [generate_comparison_report]: the assembled comparison
    context. *)
Definition all_data (p : provider) (tickers : list string)
  : outcome (Dict.dict (Dict.dict pyval)) :=
  collect (fun ticker => Ok (get_key_metrics p ticker)) tickers Dict.empty.

Definition data_text_of (p : provider) (tickers : list string) : outcome (list string) :=
  data <- all_data p tickers ;;
  map_outcome company_block (Dict.items data).

Definition generate_comparison_report (p : provider) (tickers : list string)
  : outcome response :=
  data_text <- data_text_of p tickers ;;
  let prompt :=
      "Generate a peer comparison report for: " ++ PyStr.join ", " tickers ++ nl
      ++ nl
      ++ "Data:" ++ nl
      ++ String.concat "" data_text ++ nl
      ++ nl
      ++ "Create a professional comparison report with:" ++ nl
      ++ "1. **Executive Summary** - Key takeaway about which companies stand out" ++ nl
      ++ "2. **Comparison Table** - Side-by-side metrics comparison" ++ nl
      ++ "3. **Valuation Comparison** - Which offers the best value" ++ nl
      ++ "4. **Growth Comparison** - Which has the strongest growth profile" ++ nl
      ++ "5. **Profitability Comparison** - Which is most profitable" ++ nl
      ++ "6. **Financial Health** - Which has the strongest balance sheet" ++ nl
      ++ "7. **Rankings** - Overall ranking with rationale" ++ nl
      ++ "8. **Investment Implications** - Which to buy/hold/avoid and why" in
  Ok (Generate (request prompt (Some SYSTEM_INSTRUCTION))).

End ReportAgent.

(** ** Orchestrator (src/agents/orchestrator.py) *)

Module Orchestrator.

Definition SYSTEM_INSTRUCTION : string :=
  "You are the Orchestrator of a multi-agent financial analysis system.
Your role is to understand user queries and provide comprehensive financial analysis.
You have access to data from multiple specialized agents:
- Market Data Agent: Real-time prices, fundamentals, ratios
- Document Agent: SEC filings (10-K, 10-Q) and XBRL data
- Sentiment Agent: News and market sentiment analysis
- Risk Agent: Risk assessment and red flag detection
- Report Agent: Investment thesis and report generation

When answering user queries:
1. Synthesize information from all relevant data sources
2. Provide specific numbers and metrics
3. Be balanced and objective in your analysis
4. Use professional financial language
5. Format responses clearly with headers and bullet points
6. Always cite data sources when possible".

Definition extract_prompt (query : string) : string :=
  "Extract all stock ticker symbols mentioned in this query.
Return ONLY a comma-separated list of tickers (e.g., AAPL, MSFT, GOOGL).
If no specific tickers are mentioned, return NONE.

Query: " ++ query ++ "

Tickers:".

(** The post-processing of [_extract_tickers], applied to the text the
    model returned (for a reply of 7-bit characters, see [PyStr]). *)
Definition tickers_of_result (raw : string) : list string :=
  let result := PyStr.upper (PyStr.strip raw) in
  if String.eqb result "NONE" || PyStr.is_empty result then []
  else map PyStr.strip
           (filter (fun t => PyStr.isalpha (PyStr.strip t))
                   (PyStr.split "," result)).

Definition _extract_tickers (gemini : text_service) (query : string) : list string :=
  tickers_of_result
    (gemini {| gr_prompt := extract_prompt query;
               gr_system := None;
               gr_temperature := S754_zero false;
               gr_max_tokens := 100 |}).

Definition classify_prompt (query : string) : string :=
  "Classify this financial query into ONE of the following categories:
- MARKET_ANALYSIS: Questions about stock prices, valuation, financials, metrics
- DOCUMENT_ANALYSIS: Questions about SEC filings, 10-K, 10-Q, financial statements
- SENTIMENT: Questions about news, market sentiment, analyst opinions
- RISK_ASSESSMENT: Questions about risks, red flags, financial health concerns
- INVESTMENT_THESIS: Requests for buy/sell recommendations, investment analysis
- PEER_COMPARISON: Comparing multiple companies
- EARNINGS: Questions about earnings, revenue, profits
- GENERAL: General financial questions or education

Query: " ++ query ++ "

Category:".

Definition _classify_intent (gemini : text_service) (query : string) : string :=
  PyStr.replace_char " " "_"
    (PyStr.upper (PyStr.strip
       (gemini {| gr_prompt := classify_prompt query;
                  gr_system := None;
                  gr_temperature := S754_zero false;
                  gr_max_tokens := 50 |}))).

(** The one specialist operation a query is dispatched to. *)
Inductive handler :=
| InvestmentThesis (ticker : string)            (* report_agent.generate_investment_thesis *)
| ComparisonReport (tickers : list string)      (* report_agent.generate_comparison_report *)
| CompareRisks (tickers : list string)          (* risk_agent.compare_risks *)
| ComprehensiveRisk (ticker : string)           (* risk_agent.comprehensive_risk_analysis *)
| NewsBatch (tickers : list string)             (* sentiment_agent.analyze_news_batch *)
| Sentiment (ticker : string)                   (* sentiment_agent.analyze_sentiment *)
| EarningsAnalysis (ticker : string)            (* report_agent.generate_earnings_analysis *)
| FilingAnalysis (ticker query : string)        (* document_agent.analyze_filing_with_ai *)
| MarketCompare (tickers : list string) (query : string) (* market_agent.compare_with_ai *)
| MarketAnalysis (ticker query : string)        (* market_agent.analyze_with_ai *)
| ComprehensiveSingle (ticker query : string)   (* self._comprehensive_single_stock *)
| GeneralAnswer (query : string).               (* self.gemini.generate(query, SYSTEM_INSTRUCTION) *)

(** [if tickers:] *)
Definition truthy {A} (l : list A) : bool :=
  match l with [] => false | _ => true end.

(** [tickers[0]]; only evaluated under a guard that makes the list
    non-empty. *)
Definition first (tickers : list string) : string := hd EmptyString tickers.

(** Step 2 of [process_query]: the if/elif chain, in source order. *)
Definition route (intent : string) (tickers : list string) (query : string) : handler :=
  if PyStr.contains "INVESTMENT_THESIS" intent && truthy tickers then
    InvestmentThesis (first tickers)
  else if PyStr.contains "PEER_COMPARISON" intent && (2 <=? List.length tickers)%nat then
    ComparisonReport tickers
  else if PyStr.contains "RISK" intent && truthy tickers then
    if (1 <? List.length tickers)%nat then CompareRisks tickers
    else ComprehensiveRisk (first tickers)
  else if PyStr.contains "SENTIMENT" intent && truthy tickers then
    if (1 <? List.length tickers)%nat then NewsBatch tickers
    else Sentiment (first tickers)
  else if PyStr.contains "EARNINGS" intent && truthy tickers then
    EarningsAnalysis (first tickers)
  else if PyStr.contains "DOCUMENT" intent && truthy tickers then
    FilingAnalysis (first tickers) query
  else if PyStr.contains "MARKET" intent && truthy tickers then
    if (1 <? List.length tickers)%nat then MarketCompare tickers query
    else MarketAnalysis (first tickers) query
  else if truthy tickers then
    if (1 <? List.length tickers)%nat then MarketCompare tickers query
    else ComprehensiveSingle (first tickers) query
  else
    GeneralAnswer query.

(** Fire-and-forget telemetry emitted around the dispatch. *)
Inductive telemetry :=
| LogActivity (ticker intent status : string)
| PublishComplete (ticker intent response : string).

Definition log_key (tickers : list string) : string :=
  if truthy tickers then PyStr.join ", " tickers else "GEN".

(** [process_query]: the handler chosen for the query, and the telemetry
    as a function of the handler's response text. *)
Definition process_query (gemini : text_service) (query : string)
  : handler * (string -> list telemetry) :=
  let tickers := _extract_tickers gemini query in
  let intent := _classify_intent gemini query in
  (route intent tickers query,
   fun response =>
     LogActivity (log_key tickers) intent "STARTED"
     :: LogActivity (log_key tickers) intent "COMPLETED"
     :: (if truthy tickers
         then [PublishComplete (first tickers) intent response]
         else [])).

End Orchestrator.

(** ** A sample market-data payload *)

Definition sample_info : Dict.dict pyval :=
  [ ("longName", PStr "Apple Inc.");
    ("sector", PStr "Technology");
    ("marketCap", PInt 1500000000000);
    ("trailingPE", PInt 0);
    ("debtToEquity", PInt 200);
    ("currentRatio", PFloat (PyNum.float_of_decimal false 5 (-1)));
    ("profitMargins", PNone);
    ("beta", PFloat (PyNum.float_of_decimal false 13 (-1))) ].

Definition sample_provider : provider :=
  {| get_stock_info := fun _ => sample_info;
     get_price_history := fun _ _ => PObj "Empty DataFrame";
     get_news := fun _ => [] |}.

(** ** A provider that has no data for any ticker *)

Definition sentinel_provider : provider :=
  {| get_stock_info := fun ticker => [("error", PStr ("No data returned for " ++ ticker))];
     get_price_history := fun _ _ => PObj "Empty DataFrame";
     get_news := fun _ => [] |}.

(** ** A sample rate-limited service and document *)

Definition rate_limited : exn :=
  {| exn_class := OtherError; exn_str := "429 Resource exhausted" |}.

Definition busy_model : GeminiClient.model := fun _ _ => Raise rate_limited.

Definition sample_document : GeminiClient.document_env :=
  {| GeminiClient.tempfile := Ok tt;
     GeminiClient.upload_and_generate := fun _ => Raise rate_limited;
     GeminiClient.reader := Ok [Some "Revenue grew 10%"; None; Some "  "] |}.

Definition bad_request : exn :=
  {| exn_class := ValueError; exn_str := "400 Invalid argument" |}.

Definition server_busy : exn :=
  {| exn_class := OtherError; exn_str := "503 Service Unavailable" |}.

Definition quota_exceeded : exn :=
  {| exn_class := OtherError; exn_str := "Resource exhausted, slow down" |}.

(** A call that meets a busy server, then a quota error, then a rate
    limit, and then succeeds. *)
Definition crowded_call (k : nat) : outcome string :=
  match k with
  | 0%nat => Raise server_busy
  | 1%nat => Raise quota_exceeded
  | 2%nat => Raise rate_limited
  | _ => Ok "done"
  end.

(** A call that is rate-limited once and then succeeds. *)
Definition flaky_call (k : nat) : outcome string :=
  match k with
  | O => Raise rate_limited
  | _ => Ok "done"
  end.


Definition sample_tickers : list string := [" aapl"; "MSFT "; "AAPL"].


(** ** The risk table as the specification words it *)

Module RiskSpec.
Import RiskAgent.

(** The thresholds that are not binary fractions.  A comparison of the
    table is between exact values, and the number a program compares
    with when it writes 0.05, -0.10 or 1.2 is the binary64 number
    nearest to it: 0.05 + 2.8e-18, -0.10 - 5.6e-18 and 1.2 - 4.5e-17. *)
Definition margin_cut : Q := 3602879701896397 # 72057594037927936.
Definition growth_cut : Q := -3602879701896397 # 36028797018963968.
Definition beta_cut : Q := 5404319552844595 # 4503599627370496.

(** The float a program gets for the decimal [m * 10^e], negated when
    [neg]. *)
Definition decimal (neg : bool) (m : N) (e : Z) : pyval :=
  PFloat (PyNum.float_of_decimal neg m e).

(** Leverage (debt/equity): >200 Critical, >100 High, >50 Medium, else Low. *)
Definition leverage (q : Q) (level : string) : Prop :=
  (200 < q -> level = "Critical")
  /\ (100 < q /\ q <= 200 -> level = "High")
  /\ (50 < q /\ q <= 100 -> level = "Medium")
  /\ (q <= 50 -> level = "Low").

(** Liquidity (current ratio): <0.5 Critical, <1.0 High, <1.5 Medium, else Low. *)
Definition liquidity (q : Q) (level : string) : Prop :=
  (q < 1 # 2 -> level = "Critical")
  /\ (1 # 2 <= q /\ q < 1 -> level = "High")
  /\ (1 <= q /\ q < 3 # 2 -> level = "Medium")
  /\ (3 # 2 <= q -> level = "Low").

(** Valuation (trailing P/E): >60 High, >30 Medium, >0 Low, <=0 High. *)
Definition valuation (q : Q) (level : string) : Prop :=
  (60 < q -> level = "High")
  /\ (30 < q /\ q <= 60 -> level = "Medium")
  /\ (0 < q /\ q <= 30 -> level = "Low")
  /\ (q <= 0 -> level = "High").

(** Profitability (profit margin): <0 High, <0.05 Medium, else Low. *)
Definition profitability (q : Q) (level : string) : Prop :=
  (q < 0 -> level = "High")
  /\ (0 <= q /\ q < margin_cut -> level = "Medium")
  /\ (margin_cut <= q -> level = "Low").

(** Growth (revenue growth): <-0.10 High, <0 Medium, else Low. *)
Definition growth (q : Q) (level : string) : Prop :=
  (q < growth_cut -> level = "High")
  /\ (growth_cut <= q /\ q < 0 -> level = "Medium")
  /\ (0 <= q -> level = "Low").

(** Volatility (beta): >2.0 High, >1.2 Medium, else Low. *)
Definition volatility (q : Q) (level : string) : Prop :=
  (2 < q -> level = "High")
  /\ (beta_cut < q /\ q <= 2 -> level = "Medium")
  /\ (q <= beta_cut -> level = "Low").

(** The six categories with their source metric, in the order the
    indicators are emitted. *)
Definition categories : list (string * string) :=
  [ ("leverage_risk", "debtToEquity");
    ("liquidity_risk", "currentRatio");
    ("valuation_risk", "trailingPE");
    ("profitability_risk", "profitMargins");
    ("growth_risk", "revenueGrowth");
    ("volatility_risk", "beta") ].

Definition table (category : string) : Q -> string -> Prop :=
  if String.eqb category "leverage_risk" then leverage
  else if String.eqb category "liquidity_risk" then liquidity
  else if String.eqb category "valuation_risk" then valuation
  else if String.eqb category "profitability_risk" then profitability
  else if String.eqb category "growth_risk" then growth
  else volatility.

Definition is_none (v : pyval) : bool :=
  match v with PNone => true | _ => false end.

(** The categories whose metric is present. *)
Definition present_categories (metrics : Dict.dict pyval) : list string :=
  map fst (filter (fun cm => negb (is_none (py_get metrics (snd cm)))) categories).

Definition severity (level : string) : nat :=
  if String.eqb level "Critical" then 3
  else if String.eqb level "High" then 2
  else if String.eqb level "Medium" then 1
  else 0.

(** A listed threshold: the scorer of its category, the boundary value
    (an integer, or the float of the decimal 0.5, 1.0, 1.5, 0.05, -0.1,
    2.0, 1.2), the bucket of the strict inequality with that threshold,
    and the bucket listed next. *)
Record boundary := {
  b_scorer : pyval -> outcome rval;
  b_value : pyval;
  b_bucket : string;
  b_next : string
}.

Definition boundaries : list boundary :=
  [ {| b_scorer := leverage_risk; b_value := PInt 200; b_bucket := "Critical"; b_next := "High" |};
    {| b_scorer := leverage_risk; b_value := PInt 100; b_bucket := "High"; b_next := "Medium" |};
    {| b_scorer := leverage_risk; b_value := PInt 50; b_bucket := "Medium"; b_next := "Low" |};
    {| b_scorer := liquidity_risk; b_value := decimal false 5 (-1); b_bucket := "Critical"; b_next := "High" |};
    {| b_scorer := liquidity_risk; b_value := decimal false 10 (-1); b_bucket := "High"; b_next := "Medium" |};
    {| b_scorer := liquidity_risk; b_value := decimal false 15 (-1); b_bucket := "Medium"; b_next := "Low" |};
    {| b_scorer := valuation_risk; b_value := PInt 60; b_bucket := "High"; b_next := "Medium" |};
    {| b_scorer := valuation_risk; b_value := PInt 30; b_bucket := "Medium"; b_next := "Low" |};
    {| b_scorer := valuation_risk; b_value := PInt 0; b_bucket := "Low"; b_next := "High" |};
    {| b_scorer := profitability_risk; b_value := PInt 0; b_bucket := "High"; b_next := "Medium" |};
    {| b_scorer := profitability_risk; b_value := decimal false 5 (-2); b_bucket := "Medium"; b_next := "Low" |};
    {| b_scorer := growth_risk; b_value := decimal true 1 (-1); b_bucket := "High"; b_next := "Medium" |};
    {| b_scorer := growth_risk; b_value := PInt 0; b_bucket := "Medium"; b_next := "Low" |};
    {| b_scorer := volatility_risk; b_value := decimal false 20 (-1); b_bucket := "High"; b_next := "Medium" |};
    {| b_scorer := volatility_risk; b_value := decimal false 12 (-1); b_bucket := "Medium"; b_next := "Low" |} ].

(** At a boundary the value gets the next-listed bucket. *)
Definition falls_to_next (b : boundary) : Prop :=
  exists note, b_scorer b (b_value b) = Ok (RInd (b_next b) (b_value b) note).

(** At a boundary the value gets a bucket of lower severity than the
    bucket of the strict inequality. *)
Definition falls_lower (b : boundary) : Prop :=
  exists level note,
    b_scorer b (b_value b) = Ok (RInd level (b_value b) note)
    /\ (severity level < severity (b_bucket b))%nat.

Definition is_pe_zero (b : boundary) : Prop :=
  b_next b = "High" /\ b_bucket b = "Low".

End RiskSpec.

(** ** Deduplicated ticker lists *)

Module CompareSpec.

Definition seen_in (seen : list string) (x : string) : bool :=
  existsb (String.eqb x) seen.

(** [l] without the elements of [seen] and without repetitions, each
    element kept at its first occurrence. *)
Fixpoint dedup_from (seen l : list string) : list string :=
  match l with
  | [] => []
  | x :: rest =>
      if seen_in seen x then dedup_from seen rest
      else x :: dedup_from (x :: seen) rest
  end.

(** The distinct normalized tickers, in order of first occurrence. *)
Definition distinct (tickers : list string) : list string :=
  dedup_from [] (map normalize tickers).



End CompareSpec.

(** ** The retry policy as the specification words it *)

Module RetrySpec.
Import GeminiClient.

(** [n] failed attempts from attempt [a] on, each followed by its
    back-off wait of [2^attempt + 1] seconds. *)
Fixpoint backoff_trace (a n : nat) : list event :=
  match n with
  | O => []
  | S n' => Attempt a :: Sleep (2 ^ Z.of_nat a + 1) :: backoff_trace (S a) n'
  end.

Definition attempts (events : list event) : list nat :=
  flat_map (fun e => match e with Attempt k => [k] | Sleep _ => [] end) events.

Definition waits (events : list event) : list Z :=
  flat_map (fun e => match e with Sleep w => [w] | Attempt _ => [] end) events.

(** The errors that signal rate limiting or a busy server: the text of
    the error names 429, 503 or "Resource exhausted". *)
Definition busy_signal (err_str : string) : bool :=
  PyStr.contains "429" err_str
  || PyStr.contains "503" err_str
  || PyStr.contains "Resource exhausted" err_str.

(** The first [k] calls fail with a rate-limit or server-busy signal. *)
Definition fails_retryably {A} (fn : nat -> outcome A) (k : nat) : Prop :=
  forall j, (j < k)%nat ->
    exists e, fn j = Raise e /\ busy_signal (exn_str e) = true.

End RetrySpec.

(** ** The text fallback of the document analysis as the specification
      words it *)

Module FallbackSpec.




End FallbackSpec.

(** ** What "rendered with [d] decimal places" means *)

Module FormatSpec.

(** The number a string of decimal digits denotes. *)
Fixpoint digits_value_from (acc : N) (s : string) : N :=
  match s with
  | EmptyString => acc
  | String c s' => digits_value_from (acc * 10 + PyNum.digit_val c)%N s'
  end.

Definition digits_value (s : string) : N := digits_value_from 0 s.

(** [s] is the sign [sg], at least one digit, a point and exactly [d]
    digits; without the point the digits denote [n]. *)
Definition fixed_point (d : nat) (s sg : string) (n : N) : Prop :=
  exists ip fr,
    s = sg ++ ip ++ "." ++ fr
    /\ ip <> ""
    /\ PyStr.all_chars PyStr.is_digit ip = true
    /\ String.length fr = d
    /\ PyStr.all_chars PyStr.is_digit fr = true
    /\ digits_value (ip ++ fr) = n.

(** [s] renders the number [q] with [d] decimal places: the decimal it
    shows is within half a unit of its last place of [q], with a minus
    sign when [q] is negative and none when it is positive. *)
Definition rendered (d : nat) (q : Q) (s : string) : Prop :=
  exists sg n,
    fixed_point d s sg n
    /\ (sg = "" \/ sg = "-")
    /\ (q < 0 -> sg = "-")
    /\ (0 < q -> sg = "")
    /\ Qabs (inject_Z (Z.of_N n) - Qabs q * inject_Z (10 ^ Z.of_nat d)) <= 1 # 2.

End FormatSpec.

(** ** The routing table and the extraction rule as the specification
      words them *)

Module RoutingSpec.
Import Orchestrator.

(** One row of the routing table: the keyword the intent must contain
    ([None] for the row that accepts any intent), the least number of
    tickers, and the operation run on a match. *)
Record rule := {
  keyword : option string;
  min_tickers : nat;
  action : list string -> string -> handler
}.

(** "if >=2 tickers ... else ..." *)
Definition many_or_one (many : list string -> handler) (one : string -> handler)
  (tickers : list string) : handler :=
  if (2 <=? List.length tickers)%nat then many tickers else one (first tickers).

(** The table of section 4.3, in priority order; the last row of the
    table (0 tickers) is the default of [first_match]. *)
Definition rules : list rule :=
  [ {| keyword := Some "INVESTMENT_THESIS"; min_tickers := 1;
       action := fun T _ => InvestmentThesis (first T) |};
    {| keyword := Some "PEER_COMPARISON"; min_tickers := 2;
       action := fun T _ => ComparisonReport T |};
    {| keyword := Some "RISK"; min_tickers := 1;
       action := fun T _ => many_or_one CompareRisks ComprehensiveRisk T |};
    {| keyword := Some "SENTIMENT"; min_tickers := 1;
       action := fun T _ => many_or_one NewsBatch Sentiment T |};
    {| keyword := Some "EARNINGS"; min_tickers := 1;
       action := fun T _ => EarningsAnalysis (first T) |};
    {| keyword := Some "DOCUMENT"; min_tickers := 1;
       action := fun T q => FilingAnalysis (first T) q |};
    {| keyword := Some "MARKET"; min_tickers := 1;
       action := fun T q =>
         many_or_one (fun T => MarketCompare T q) (fun t => MarketAnalysis t q) T |};
    {| keyword := None; min_tickers := 1;
       action := fun T q =>
         many_or_one (fun T => MarketCompare T q) (fun t => ComprehensiveSingle t q) T |} ].

(** A row matches when BOTH the intent contains its keyword AND enough
    tickers were extracted. *)
Definition matches (intent : string) (tickers : list string) (r : rule) : bool :=
  match keyword r with
  | Some k => PyStr.contains k intent
  | None => true
  end && (min_tickers r <=? List.length tickers)%nat.

(** Top-to-bottom evaluation, first match wins. *)
Fixpoint first_match (rs : list rule) (intent : string) (tickers : list string)
  (query : string) : handler :=
  match rs with
  | [] => GeneralAnswer query
  | r :: rest =>
      if matches intent tickers r then action r tickers query
      else first_match rest intent tickers query
  end.

(** Section 4.1: upper-case, split on commas, trim each token, keep the
    tokens that are non-empty and entirely alphabetic; the literal NONE
    or an empty result gives no ticker. *)
Definition tickers (raw : string) : list string :=
  let u := PyStr.upper raw in
  if String.eqb (PyStr.strip u) "NONE" || PyStr.is_empty (PyStr.strip u) then []
  else filter (fun t => negb (PyStr.is_empty t) && PyStr.all_chars PyStr.is_alpha t)
              (map PyStr.strip (PyStr.split "," u)).

End RoutingSpec.

(** ** Yahoo Finance access (src/deployment/utils/data_providers.py) *)

(** [d.pop(k, None)]: the dictionary without the key [k]. *)
Fixpoint dict_pop {V} (d : Dict.dict V) (k : string) : Dict.dict V :=
  match d with
  | [] => []
  | (k', v) :: rest =>
      if String.eqb k' k then dict_pop rest k else (k', v) :: dict_pop rest k
  end.

Module YahooFinance.

(** What [yf.Ticker(ticker).info] gives on its [k]-th access (from 0)
    within one call of [get_stock_info]: a payload ([None] and [{}] are
    both the empty one), or an exception. *)
Definition info_source := nat -> outcome (Dict.dict pyval).

Definition meaningful_keys : list string :=
  ["currentPrice"; "marketCap"; "shortName"; "longName"; "sector"].

(** [meaningful_keys & set(info.keys())] is not empty. *)
Definition has_meaningful_key (info : Dict.dict pyval) : bool :=
  existsb (fun k => Dict.mem k info) meaningful_keys.

(** What [get_stock_info] does besides returning: it reads [stock.info]
    and it sleeps half a second. *)
Inductive event :=
| Fetch (attempt : nat)
| Sleep.

(** [not info] *)
Definition falsy {V} (info : Dict.dict V) : bool :=
  match info with [] => true | _ => false end.

(** The loop [for attempt in range(3)] from iteration [attempt], with
    [remaining] iterations to go; [None] when the loop runs out. *)
Fixpoint retry_loop (src : info_source) (attempt remaining : nat)
  : list event * option (Dict.dict pyval) :=
  match remaining with
  | O => ([], None)
  | S remaining' =>
      let again :=
        let '(events, result) := retry_loop src (S attempt) remaining' in
        (Fetch attempt :: Sleep :: events, result) in
      match src attempt with
      | Raise _ => again
      | Ok info =>
          if falsy info then again
          else if has_meaningful_key info
               then ([Fetch attempt], Some (dict_pop info "error"))
               else again
      end
  end.

Definition get_stock_info (src : info_source) (ticker : string)
  : list event * Dict.dict pyval :=
  let '(events, result) := retry_loop src 0 3 in
  match result with
  | Some info => (events, info)
  | None =>
      ((events ++ [Fetch 3])%list,
       match src 3%nat with
       | Ok info =>
           if negb (falsy info) && (3 <? List.length info)%nat
           then dict_pop info "error"
           else [("error", PStr ("No data returned for " ++ ticker))]
       | Raise e => [("error", PStr (exn_str e))]
       end)
  end.

(** The number of reads and of half-second sleeps in a trace. *)
Definition fetches (events : list event) : nat :=
  List.length (filter (fun e => match e with Fetch _ => true | Sleep => false end) events).

Definition sleeps (events : list event) : nat :=
  List.length (filter (fun e => match e with Sleep => true | Fetch _ => false end) events).

(** One item of the list [get_news] returns. *)
Definition news_item (item : Dict.dict pyval) : Dict.dict pyval :=
  [ ("title", py_get_default item "title" (PStr ""));
    ("publisher", py_get_default item "publisher" (PStr ""));
    ("link", py_get_default item "link" (PStr ""));
    ("published", py_get_default item "providerPublishTime" (PStr ""));
    ("type", py_get_default item "type" (PStr "")) ].

(** [get_news], given what [stock.news] yields: the items ([None] is the
    empty list), or an exception. *)
Definition get_news (news : outcome (list (Dict.dict pyval)))
  : list (Dict.dict pyval) :=
  match news with
  | Raise _ => []
  | Ok [] => []
  | Ok items => map news_item (firstn 10 items)
  end.

(** The Yahoo Finance library as one operation sees it. *)
Record yahoo := {
  info_of : string -> info_source;
  history_of : string -> string -> pyval;
  news_of : string -> outcome (list (Dict.dict pyval))
}.

End YahooFinance.

(** The data sources of the agents when they are backed by Yahoo
    Finance. *)
Definition yahoo_provider (y : YahooFinance.yahoo) : provider :=
  {| get_stock_info :=
       fun ticker => snd (YahooFinance.get_stock_info (YahooFinance.info_of y ticker) ticker);
     get_price_history := YahooFinance.history_of y;
     get_news := fun ticker => YahooFinance.get_news (YahooFinance.news_of y ticker) |}.

(** ** SEC EDGAR access (src/deployment/utils/data_providers.py) *)

Module SecEdgar.

(** [s.zfill(width)] *)
Definition zfill (width : nat) (s : string) : string :=
  let fill := PyNum.zeros (width - String.length s) in
  match s with
  | String c rest =>
      if Ascii.eqb c "+" || Ascii.eqb c "-" then String c (fill ++ rest)
      else fill ++ s
  | EmptyString => fill
  end.

(** One entry of [company_tickers.json]. *)
Record ticker_entry := { entry_ticker : string; cik_str : Z }.

(** The scan [for entry in data.values()], left at the first entry whose
    upper-cased ticker is [ticker]. *)
Fixpoint scan_entries (ticker : string) (entries : list ticker_entry) : option string :=
  match entries with
  | [] => None
  | entry :: rest =>
      if String.eqb (PyStr.upper (entry_ticker entry)) ticker
      then Some (zfill 10 (PyNum.string_of_Z (cik_str entry)))
      else scan_entries ticker rest
  end.

(** [get_cik_from_ticker], given the outcome of the request for
    [company_tickers.json] and the module-level cache: the CIK and the
    cache afterwards. *)
Definition get_cik_from_ticker (company_tickers : outcome (list ticker_entry))
  (_cik_cache : Dict.dict string) (ticker : string)
  : option string * Dict.dict string :=
  let ticker := PyStr.strip (PyStr.upper ticker) in
  match Dict.get _cik_cache ticker with
  | Some cik => (Some cik, _cik_cache)
  | None =>
      match company_tickers with
      | Raise _ => (None, _cik_cache)
      | Ok entries =>
          match scan_entries ticker entries with
          | Some cik => (Some cik, Dict.set _cik_cache ticker cik)
          | None => (None, _cik_cache)
          end
      end
  end.

(** The payload of the submissions endpoint: its top-level fields
    ([profile]) and the columns of [data["filings"]["recent"]]; a column
    that is not in the payload is [None], and a payload without
    ["filings"] or ["recent"] has none of them. *)
Record submission_data := {
  profile : Dict.dict pyval;
  form : option (list string);
  accessionNumber : option (list string);
  filingDate : option (list string);
  primaryDocument : option (list string);
  primaryDocDescription : option (list string)
}.

Definition key_error (name : string) : exn :=
  {| exn_class := OtherError; exn_str := "'" ++ name ++ "'" |}.

Definition index_error : exn :=
  {| exn_class := OtherError; exn_str := "list index out of range" |}.

(** [recent[name][i]] *)
Definition required (name : string) (column : option (list string)) (i : nat)
  : outcome string :=
  match column with
  | None => Raise (key_error name)
  | Some l =>
      match nth_error l i with
      | Some x => Ok x
      | None => Raise index_error
      end
  end.

(** [recent.get(name, [""])[i] if i < len(recent.get(name, [])) else ""] *)
Definition optional (column : option (list string)) (i : nat) : string :=
  if (i <? List.length (match column with Some l => l | None => [] end))%nat
  then nth i (match column with Some l => l | None => [""] end) ""
  else "".

(** The dictionary appended for row [i]. *)
Definition filing_entry (recent : submission_data) (i : nat) (f : string)
  : outcome (Dict.dict pyval) :=
  accession <- required "accessionNumber" (accessionNumber recent) i ;;
  date <- required "filingDate" (filingDate recent) i ;;
  Ok [ ("accession_number", PStr accession);
       ("filing_date", PStr date);
       ("form", PStr f);
       ("primary_document", PStr (optional (primaryDocument recent) i));
       ("description", PStr (optional (primaryDocDescription recent) i)) ].

(** [enumerate(l)] from index [i] *)
Fixpoint indexed {A} (i : nat) (l : list A) : list (nat * A) :=
  match l with
  | [] => []
  | x :: rest => (i, x) :: indexed (S i) rest
  end.

(** The loop [for i, form in enumerate(forms)], with what is in
    [filings] so far. *)
Fixpoint scan_forms (recent : submission_data) (filing_type : string) (count : Z)
  (rows : list (nat * string)) (filings : list (Dict.dict pyval))
  : outcome (list (Dict.dict pyval)) :=
  match rows with
  | [] => Ok filings
  | (i, f) :: rest =>
      if String.eqb f filing_type && (Z.of_nat (List.length filings) <? count)%Z
      then
        entry <- filing_entry recent i f ;;
        scan_forms recent filing_type count rest (filings ++ [entry])%list
      else scan_forms recent filing_type count rest filings
  end.

(** The SEC endpoints as one operation sees them: the ticker table, and
    per CIK the submissions and the XBRL company facts (its
    [facts["us-gaap"]] part: per concept and unit the reported data
    points). *)
Record sec := {
  company_tickers : outcome (list ticker_entry);
  submissions : string -> outcome submission_data;
  company_facts : string -> outcome (Dict.dict (Dict.dict (list (Dict.dict pyval))))
}.

(** [not cik] *)
Definition no_cik (cik : option string) : bool :=
  match cik with
  | None => true
  | Some c => PyStr.is_empty c
  end.

Definition get_company_filings (s : sec) (_cik_cache : Dict.dict string)
  (ticker filing_type : string) (count : Z)
  : list (Dict.dict pyval) * Dict.dict string :=
  let '(cik, cache) := get_cik_from_ticker (company_tickers s) _cik_cache ticker in
  if no_cik cik then ([], cache)
  else
    (match (recent <- submissions s (match cik with Some c => c | None => "" end) ;;
            scan_forms recent filing_type count
              (indexed 0 (match form recent with Some l => l | None => [] end)) [])
     with
     | Ok filings => filings
     | Raise e => [[("error", PStr (exn_str e))]]
     end, cache).

(** What [get_company_facts] returns: the error dictionary, or the
    payload. *)
Inductive facts :=
| FactsError (msg : string)
| Facts (us_gaap : Dict.dict (Dict.dict (list (Dict.dict pyval)))).

Definition get_company_facts (s : sec) (_cik_cache : Dict.dict string) (ticker : string)
  : facts * Dict.dict string :=
  let '(cik, cache) := get_cik_from_ticker (company_tickers s) _cik_cache ticker in
  if no_cik cik then (FactsError "CIK not found", cache)
  else
    (match company_facts s (match cik with Some c => c | None => "" end) with
     | Ok us_gaap => Facts us_gaap
     | Raise e => FactsError (exn_str e)
     end, cache).

Definition get_company_info_sec (s : sec) (_cik_cache : Dict.dict string)
  (ticker : string) : Dict.dict pyval * Dict.dict string :=
  let '(cik, cache) := get_cik_from_ticker (company_tickers s) _cik_cache ticker in
  if no_cik cik then ([("error", PStr "CIK not found")], cache)
  else
    let cik := match cik with Some c => c | None => "" end in
    (match submissions s cik with
     | Ok data =>
         [ ("name", py_get_default (profile data) "name" (PStr ""));
           ("cik", PStr cik);
           ("ticker", PStr (PyStr.upper ticker));
           ("sic", py_get_default (profile data) "sic" (PStr ""));
           ("sic_description", py_get_default (profile data) "sicDescription" (PStr ""));
           ("fiscal_year_end", py_get_default (profile data) "fiscalYearEnd" (PStr ""));
           ("state", py_get_default (profile data) "stateOfIncorporation" (PStr ""));
           ("exchange", py_get_default (profile data) "exchanges" (PObj "[]")) ]
     | Raise e => [("error", PStr (exn_str e))]
     end, cache).

End SecEdgar.

(** ** Document agent (src/deployment/agents/document_agent.py) *)

Module DocumentAgent.

Definition key_items : list (string * string) :=
  [ ("Revenues", "revenue");
    ("RevenueFromContractWithCustomerExcludingAssessedTax", "revenue");
    ("NetIncomeLoss", "net_income");
    ("EarningsPerShareBasic", "eps_basic");
    ("EarningsPerShareDiluted", "eps_diluted");
    ("Assets", "total_assets");
    ("Liabilities", "total_liabilities");
    ("StockholdersEquity", "stockholders_equity");
    ("OperatingIncomeLoss", "operating_income");
    ("GrossProfit", "gross_profit");
    ("CashAndCashEquivalentsAtCarryingValue", "cash");
    ("LongTermDebt", "long_term_debt");
    ("CommonStockSharesOutstanding", "shares_outstanding") ].

Definition unit_types : list string := ["USD"; "USD/shares"; "shares"].

(** [v.get("form") in ("10-K", "10-K/A") and "frame" not in v] *)
Definition annual (v : Dict.dict pyval) : bool :=
  match py_get v "form" with
  | PStr f => String.eqb f "10-K" || String.eqb f "10-K/A"
  | _ => false
  end
  && negb (Dict.mem "frame" v).

(** The sort key [x.get("end", "")]. *)
Definition end_key (v : Dict.dict pyval) : pyval :=
  py_get_default v "end" (PStr "").

(** [a < b] between two sort keys: strings compare character by
    character, numbers by value, anything else raises [TypeError]. *)
Definition key_lt (a b : pyval) : outcome bool :=
  match a, b with
  | PStr x, PStr y => Ok (String.ltb x y)
  | _, _ => py_lt a b
  end.

(** [x] put into a list sorted by [end_key], before the first element
    that is not below it. *)
Fixpoint insert_by_end (x : Dict.dict pyval) (l : list (Dict.dict pyval))
  : outcome (list (Dict.dict pyval)) :=
  match l with
  | [] => Ok [x]
  | y :: rest =>
      below <- key_lt (end_key y) (end_key x) ;;
      if below then
        rest' <- insert_by_end x rest ;;
        Ok (y :: rest')
      else Ok (x :: l)
  end.

(** [values.sort(key=lambda x: x.get("end", ""))]: the stable sort. *)
Fixpoint sort_by_end (values : list (Dict.dict pyval))
  : outcome (list (Dict.dict pyval)) :=
  match values with
  | [] => Ok []
  | x :: rest =>
      sorted <- sort_by_end rest ;;
      insert_by_end x sorted
  end.

(** [l[-3:]] *)
Definition last3 {A} (l : list A) : list A := skipn (List.length l - 3) l.

(** One entry of a metric's list. *)
Definition metric_row (v : Dict.dict pyval) : Dict.dict pyval :=
  [ ("value", py_get v "val");
    ("period_end", py_get v "end");
    ("period_start", py_get_default v "start" (PStr ""));
    ("filed", py_get_default v "filed" (PStr "")) ].

(** The loop [for unit_type in ...] up to its [break]: the values of the
    first unit type the concept is reported in. *)
Fixpoint first_unit (units : Dict.dict (list (Dict.dict pyval))) (types : list string)
  : option (list (Dict.dict pyval)) :=
  match types with
  | [] => None
  | unit_type :: rest =>
      match Dict.get units unit_type with
      | Some values => Some values
      | None => first_unit units rest
      end
  end.

(** The rows kept for a concept's values, if any. *)
Definition recent_annual (values : list (Dict.dict pyval))
  : outcome (option (list (Dict.dict pyval))) :=
  match filter annual values with
  | [] => Ok None
  | annual_values =>
      sorted <- sort_by_end annual_values ;;
      Ok (Some (map metric_row (last3 sorted)))
  end.

(** One iteration of [for xbrl_key, label in key_items.items()]. *)
Definition add_metric (us_gaap : Dict.dict (Dict.dict (list (Dict.dict pyval))))
  (metrics : Dict.dict (list (Dict.dict pyval))) (item : string * string)
  : outcome (Dict.dict (list (Dict.dict pyval))) :=
  let '(xbrl_key, label) := item in
  match Dict.get us_gaap xbrl_key with
  | None => Ok metrics
  | Some units =>
      match first_unit units unit_types with
      | None => Ok metrics
      | Some values =>
          rows <- recent_annual values ;;
          match rows with
          | Some rows => Ok (Dict.set metrics label rows)
          | None => Ok metrics
          end
      end
  end.

Fixpoint add_metrics (us_gaap : Dict.dict (Dict.dict (list (Dict.dict pyval))))
  (items : list (string * string)) (metrics : Dict.dict (list (Dict.dict pyval)))
  : outcome (Dict.dict (list (Dict.dict pyval))) :=
  match items with
  | [] => Ok metrics
  | item :: rest =>
      metrics' <- add_metric us_gaap metrics item ;;
      add_metrics us_gaap rest metrics'
  end.

(** What [extract_key_metrics_from_xbrl] returns: the error dictionary
    of [get_company_facts], or the metrics. *)
Inductive xbrl_metrics :=
| XbrlError (msg : string)
| Xbrl (metrics : Dict.dict (list (Dict.dict pyval))).

(** The body of [extract_key_metrics_from_xbrl] once the facts are
    fetched. *)
Definition metrics_of_facts (facts : SecEdgar.facts) : outcome xbrl_metrics :=
  match facts with
  | SecEdgar.FactsError msg => Ok (XbrlError msg)
  | SecEdgar.Facts us_gaap =>
      metrics <- add_metrics us_gaap key_items Dict.empty ;;
      Ok (Xbrl metrics)
  end.

Definition extract_key_metrics_from_xbrl (s : SecEdgar.sec)
  (_cik_cache : Dict.dict string) (ticker : string) : outcome xbrl_metrics :=
  metrics_of_facts (fst (SecEdgar.get_company_facts s _cik_cache ticker)).

Definition SYSTEM_INSTRUCTION : string :=
  "You are an expert SEC filing and financial document analyst agent.
Your role is to:
1. Parse and analyze SEC filings (10-K, 10-Q, 8-K)
2. Extract key financial data, metrics, and risk factors
3. Identify important changes between reporting periods
4. Provide analysis with specific citations to filing sections
5. Understand document structure (Item 1, 1A, 7, 8, etc.)
Always reference specific sections, page numbers, or items when citing information.
Format responses with clear headers and structured data.".

Definition na : pyval := PStr "N/A".

(** [format(x, ",.<d>f")]: the fixed-point text with the integer digits
    grouped in thousands. *)
Definition format_fixed_grouped (d : nat) (x : spec_float) : string :=
  let r := PyNum.format_fixed d x in
  let body := match r with String "-" b => b | _ => r end in
  let '(ip, rest) := split_point body in
  PyNum.sign_string (PyStr.contains "-" r) ++ group_digits ip ++ rest.

(** [abs(val)] for a number. *)
Definition py_abs (val : pyval) : pyval :=
  match val with
  | PBool b => PInt (if b then 1 else 0)
  | PInt z => PInt (Z.abs z)
  | PFloat f => PFloat (PyNum.fabs f)
  | _ => val
  end.

(** The text shown for a value that is not [None]. *)
Definition val_str (val : pyval) : outcome string :=
  large <- (if is_number val
            then py_gt (py_abs val) (PFloat DataProviders.lit_1e6)
            else Ok false) ;;
  if large then
    below <- py_lt (py_abs val) (PFloat DataProviders.lit_1e9) ;;
    if below then
      x <- py_truediv val (PFloat DataProviders.lit_1e6) ;;
      Ok ("$" ++ format_fixed_grouped 1 x ++ "M")
    else
      x <- py_truediv val (PFloat DataProviders.lit_1e9) ;;
      Ok ("$" ++ format_fixed_grouped 2 x ++ "B")
  else
    match val with
    | PFloat f => Ok (format_fixed_grouped 2 f)
    | _ => Ok (py_str val)
    end.

(** The loop [for v in values]: one line per row whose value is not
    [None]. *)
Fixpoint value_lines (values : list (Dict.dict pyval)) : outcome (list string) :=
  match values with
  | [] => Ok []
  | v :: rest =>
      match py_get v "value" with
      | PNone => value_lines rest
      | val =>
          text <- val_str val ;;
          lines <- value_lines rest ;;
          Ok (("    Period ending " ++ py_str (py_get_default v "period_end" na)
               ++ ": " ++ text) :: lines)
      end
  end.

(** The loop [for metric_name, values in xbrl_metrics.items()] over the
    metrics. *)
Fixpoint metric_lines (metrics : list (string * list (Dict.dict pyval)))
  : outcome (list string) :=
  match metrics with
  | [] => Ok []
  | (metric_name, values) :: rest =>
      let header := nl ++ "  " ++ RiskAgent.pretty_key metric_name ++ ":" in
      lines <- value_lines values ;;
      more <- metric_lines rest ;;
      Ok (app (header :: lines) more)
  end.

(** The same loop over what [extract_key_metrics_from_xbrl] returned: the
    error dictionary holds no list, so it adds nothing. *)
Definition xbrl_lines (xbrl : xbrl_metrics) : outcome (list string) :=
  match xbrl with
  | XbrlError _ => Ok []
  | Xbrl metrics => metric_lines (Dict.items metrics)
  end.

(** The loop [for f in filings]: one line per entry without "error". *)
Definition filing_lines (filings : list (Dict.dict pyval)) : list string :=
  flat_map
    (fun f =>
       if Dict.mem "error" f then []
       else ["  - Filed: " ++ py_str (py_get_default f "filing_date" na)
             ++ " | " ++ py_str (py_get_default f "description" (PStr ""))])
    filings.

Definition analyze_filing_with_ai (s : SecEdgar.sec) (_cik_cache : Dict.dict string)
  (ticker : string) (query : option string) : outcome response :=
  let '(sec_info, cache1) := SecEdgar.get_company_info_sec s _cik_cache ticker in
  let '(facts, cache2) := SecEdgar.get_company_facts s cache1 ticker in
  xbrl_metrics <- metrics_of_facts facts ;;
  let filings := fst (SecEdgar.get_company_filings s cache2 ticker "10-K" 3) in
  metric_parts <- xbrl_lines xbrl_metrics ;;
  let context_parts :=
    app [ "Company: " ++ py_str (py_get_default sec_info "name" (PStr ticker))
            ++ " (" ++ PyStr.upper ticker ++ ")";
          "SIC: " ++ py_str (py_get_default sec_info "sic_description" na);
          "Fiscal Year End: " ++ py_str (py_get_default sec_info "fiscal_year_end" na);
          nl ++ "Recent 10-K Filings:" ]
      (app (filing_lines filings)
         ((nl ++ "Key Financial Metrics (from XBRL filings):") :: metric_parts)) in
  let context := PyStr.join nl context_parts in
  let prompt :=
    match MarketDataAgent.given query with
    | Some q =>
        "Based on the following SEC filing data for " ++ PyStr.upper ticker ++ ", answer this question:" ++ nl
        ++ q ++ nl
        ++ nl
        ++ context ++ nl
        ++ nl
        ++ "Provide a thorough analysis citing specific metrics and trends. If the data is insufficient to fully answer," ++ nl
        ++ "note what additional information would be needed."
    | None =>
        "Provide a comprehensive analysis of " ++ PyStr.upper ticker ++ "'s SEC filings based on this data:" ++ nl
        ++ nl
        ++ context ++ nl
        ++ nl
        ++ "Include:" ++ nl
        ++ "1. Revenue and earnings trends (year-over-year changes)" ++ nl
        ++ "2. Profitability analysis" ++ nl
        ++ "3. Balance sheet strength" ++ nl
        ++ "4. Key changes or trends observed" ++ nl
        ++ "5. Notable items that warrant further investigation"
    end in
  Ok (Generate (request prompt (Some SYSTEM_INSTRUCTION))).

End DocumentAgent.

(** ** Sentiment agent (src/deployment/agents/sentiment_agent.py) *)

Module SentimentAgent.

Definition SYSTEM_INSTRUCTION : string :=
  "You are an expert financial sentiment analyst agent. Your role is to:
1. Analyze news headlines and articles for sentiment (bullish/bearish/neutral)
2. Identify market-moving events and catalysts
3. Assess overall market sentiment for specific companies
4. Detect shifts in sentiment that might precede price movements
5. Provide sentiment scores and explain the reasoning
6. Consider both quantitative signals and qualitative news content
Always provide specific evidence for your sentiment assessments.
Rate sentiment on a scale from -1.0 (very bearish) to +1.0 (very bullish).".

Definition na : pyval := PStr "N/A".

(** The lines [news_items] collects: one per item whose title is truthy. *)
Definition news_items (news : list (Dict.dict pyval)) : list string :=
  flat_map
    (fun item =>
       let title := py_get_default item "title" (PStr "") in
       let publisher := py_get_default item "publisher" (PStr "") in
       if py_truthy title
       then ["- [" ++ py_str publisher ++ "] " ++ py_str title]
       else [])
    news.

Definition news_text_of (news : list (Dict.dict pyval)) : string :=
  match news with
  | [] => "No recent news articles available."
  | _ => PyStr.join nl (news_items news)
  end.

Definition stock_context_of (info : Dict.dict pyval) : string :=
  if negb (YahooFinance.falsy info) && negb (Dict.mem "error" info) then
    let rec := py_get_default info "recommendationKey" na in
    let target := py_get_default info "targetMeanPrice" na in
    let current := py_get_default info "currentPrice" na in
    nl
    ++ "Current Stock Context:" ++ nl
    ++ "- Current Price: $" ++ py_str current ++ nl
    ++ "- Analyst Recommendation: " ++ py_str rec ++ nl
    ++ "- Mean Target Price: $" ++ py_str target ++ nl
    ++ "- 52-Week Range: $" ++ py_str (py_get_default info "fiftyTwoWeekLow" na) ++ " - $" ++ py_str (py_get_default info "fiftyTwoWeekHigh" na) ++ nl
  else "".

Definition sentiment_outline : string :=
  "Provide:" ++ nl
  ++ "1. **Overall Sentiment Score**: Rate from -1.0 (very bearish) to +1.0 (very bullish)" ++ nl
  ++ "2. **Sentiment Summary**: 2-3 sentence overview of current sentiment" ++ nl
  ++ "3. **Key Positive Factors**: Bullish signals from news and data" ++ nl
  ++ "4. **Key Negative Factors**: Bearish signals from news and data" ++ nl
  ++ "5. **Sentiment Drivers**: What's driving the current sentiment" ++ nl
  ++ "6. **Outlook**: Short-term sentiment outlook (1-4 weeks)" ++ nl
  ++ "7. **Risk Events**: Upcoming events that could shift sentiment" ++ nl
  ++ nl
  ++ "Format your response clearly with headers and bullet points.".

Definition analyze_sentiment (p : provider) (ticker : string) : response :=
  let news := get_news p ticker in
  let info := get_stock_info p ticker in
  let company_name := ReportAgent.company_name_of info ticker in
  let news_text := news_text_of news in
  let stock_context := stock_context_of info in
  let prompt :=
    "Analyze the current sentiment for " ++ company_name ++ " (" ++ PyStr.upper ticker ++ ")." ++ nl
    ++ nl
    ++ "Recent News Headlines:" ++ nl
    ++ news_text ++ nl
    ++ nl
    ++ stock_context ++ nl
    ++ nl
    ++ sentiment_outline in
  Generate (request prompt (Some SYSTEM_INSTRUCTION)).

(** [all_news]: the news of each normalized ticker. *)
Definition all_news (p : provider) (tickers : list string)
  : outcome (Dict.dict (list (Dict.dict pyval))) :=
  collect (fun ticker => Ok (get_news p ticker)) tickers Dict.empty.

(** The entries one company adds to [news_summary]. *)
Definition summary_block (entry : string * list (Dict.dict pyval)) : list string :=
  let '(ticker, news_list) := entry in
  (nl ++ ticker ++ ":")
  :: match news_list with
     | [] => ["  - No recent news"]
     | _ =>
         map (fun item => "  - " ++ py_str (py_get_default item "title" na))
             (firstn 5 news_list)
     end.

Definition news_summary (p : provider) (tickers : list string) : outcome (list string) :=
  news <- all_news p tickers ;;
  Ok (flat_map summary_block (Dict.items news)).

Definition analyze_news_batch (p : provider) (tickers : list string) : outcome response :=
  news_summary <- news_summary p tickers ;;
  let prompt :=
    "Analyze the sentiment across these companies based on recent news:" ++ nl
    ++ nl
    ++ String.concat EmptyString news_summary ++ nl
    ++ nl
    ++ "For each company, provide:" ++ nl
    ++ "1. Sentiment score (-1.0 to +1.0)" ++ nl
    ++ "2. Key sentiment driver" ++ nl
    ++ "3. Notable news items" ++ nl
    ++ nl
    ++ "Then provide a comparative sentiment ranking and any sector-wide themes." in
  Ok (Generate (request prompt (Some SYSTEM_INSTRUCTION))).

Definition custom_text_outline : string :=
  "Provide:" ++ nl
  ++ "1. **Overall Sentiment**: Score from -1.0 to +1.0 with label" ++ nl
  ++ "2. **Tone Analysis**: Management confidence level, forward-looking optimism" ++ nl
  ++ "3. **Key Positive Statements**: Quotes or paraphrases" ++ nl
  ++ "4. **Key Negative Statements**: Quotes or paraphrases" ++ nl
  ++ "5. **Hidden Signals**: Subtle language changes or hedging" ++ nl
  ++ "6. **Comparison**: How this compares to typical earnings call language".

Definition analyze_custom_text (text context : string) : response :=
  let context_line :=
    if PyStr.is_empty context then "" else "Context: " ++ context in
  let prompt :=
    "Analyze the sentiment of the following financial text:" ++ nl
    ++ nl
    ++ context_line ++ nl
    ++ nl
    ++ "Text to analyze:" ++ nl
    ++ "---" ++ nl
    ++ PyStr.take 5000 text ++ nl
    ++ "---" ++ nl
    ++ nl
    ++ custom_text_outline in
  Generate (request prompt (Some SYSTEM_INSTRUCTION)).

End SentimentAgent.

(** ** Earnings analysis of the report agent (src/agents/report_agent.py) *)

Module EarningsReport.

Definition na : pyval := PStr "N/A".

Definition earnings_outline : string :=
  "Generate a comprehensive earnings analysis including:" ++ nl
  ++ "1. **Earnings Overview** - Key numbers and what they mean" ++ nl
  ++ "2. **Revenue Analysis** - Growth drivers and headwinds" ++ nl
  ++ "3. **Margin Analysis** - Profitability trends" ++ nl
  ++ "4. **Key Takeaways** - Most important findings" ++ nl
  ++ "5. **Forward Outlook** - What to expect going forward" ++ nl
  ++ "6. **Market Reaction Context** - How the market may interpret these numbers".

(** [generate_earnings_analysis] *)
Definition generate_earnings_analysis (p : provider) (ticker : string)
  : outcome response :=
  let metrics := get_key_metrics p ticker in
  let company_name := ReportAgent.company_name_of metrics ticker in
  let news := get_news p ticker in
  let news_text := ReportAgent.headlines 5 news "None available" in
  num_totalRevenue <- DataProviders.format_large_number (py_get metrics "totalRevenue") ;;
  pct_revenueGrowth <- DataProviders.format_percentage (py_get metrics "revenueGrowth") ;;
  pct_grossMargins <- DataProviders.format_percentage (py_get metrics "grossMargins") ;;
  pct_operatingMargins <- DataProviders.format_percentage (py_get metrics "operatingMargins") ;;
  pct_profitMargins <- DataProviders.format_percentage (py_get metrics "profitMargins") ;;
  pct_earningsGrowth <- DataProviders.format_percentage (py_get metrics "earningsGrowth") ;;
  let prompt :=
    "Generate an earnings analysis report for " ++ company_name ++ " (" ++ PyStr.upper ticker ++ ")." ++ nl
    ++ nl
    ++ "Current Financial Metrics:" ++ nl
    ++ "- Revenue: " ++ num_totalRevenue ++ nl
    ++ "- Revenue Growth: " ++ pct_revenueGrowth ++ nl
    ++ "- EPS (TTM): $" ++ py_str (py_get_default metrics "trailingEps" na) ++ nl
    ++ "- EPS (Forward): $" ++ py_str (py_get_default metrics "forwardEps" na) ++ nl
    ++ "- Gross Margin: " ++ pct_grossMargins ++ nl
    ++ "- Operating Margin: " ++ pct_operatingMargins ++ nl
    ++ "- Net Margin: " ++ pct_profitMargins ++ nl
    ++ "- Earnings Growth: " ++ pct_earningsGrowth ++ nl
    ++ nl
    ++ "Recent News: " ++ news_text ++ nl
    ++ nl
    ++ earnings_outline in
  Ok (Generate (request prompt (Some ReportAgent.SYSTEM_INSTRUCTION))).

End EarningsReport.

(** ** Multi-turn chat of the text client (src/utils/gemini_client.py) *)

Module GeminiChat.
Import GeminiClient.

(** A chat session: what the [k]-th call of [send_message] gives for a
    history of (role, content) pairs and a last message. *)
Definition chat_model := list (string * pyval) -> pyval -> nat -> outcome gen_response.

(** [msg[key]] *)
Definition item (msg : Dict.dict pyval) (key : string) : outcome pyval :=
  match Dict.get msg key with
  | Some v => Ok v
  | None => Raise (SecEdgar.key_error key)
  end.

(** [msg["role"] == "user"] *)
Definition is_user (role : pyval) : bool :=
  match role with
  | PStr r => String.eqb r "user"
  | _ => false
  end.

(** The loop [for msg in messages[:-1]]: the history built. *)
Fixpoint history_of (messages : list (Dict.dict pyval))
  : outcome (list (string * pyval)) :=
  match messages with
  | [] => Ok []
  | msg :: rest =>
      r <- item msg "role" ;;
      let role := if is_user r then "user" else "model" in
      content <- item msg "content" ;;
      history <- history_of rest ;;
      Ok ((role, content) :: history)
  end.

(** [messages[-1]] *)
Definition last_message (messages : list (Dict.dict pyval))
  : outcome (Dict.dict pyval) :=
  match messages with
  | [] => Raise SecEdgar.index_error
  | _ => Ok (last messages [])
  end.

(** [chat_completion]: the calls made and the text returned.  Choosing
    the model for a system instruction and opening the chat session are
    part of [m]. *)
Definition chat_completion_traced (m : chat_model) (messages : list (Dict.dict pyval))
  : list event * string :=
  match (history <- history_of (removelast messages) ;;
         last_msg <- (msg <- last_message messages ;; item msg "content") ;;
         Ok (history, last_msg)) with
  | Raise e => ([], "Error in chat: " ++ exn_str e)
  | Ok (history, last_msg) =>
      let '(events, result) := _call_with_retry (m history last_msg) default_max_retries in
      (events,
       match (response <- result ;; text response) with
       | Ok t => t
       | Raise e => "Error in chat: " ++ exn_str e
       end)
  end.

Definition chat_completion (m : chat_model) (messages : list (Dict.dict pyval)) : string :=
  snd (chat_completion_traced m messages).

End GeminiChat.

(** ** The composite single-stock answer (src/agents/orchestrator.py) *)

Module SingleStock.

Definition na : pyval := PStr "N/A".

(** [_comprehensive_single_stock]; the optional [status_callback] only
    reports progress and is left out. *)
Definition _comprehensive_single_stock (p : provider) (s : SecEdgar.sec)
  (_cik_cache : Dict.dict string) (ticker query : string) : outcome response :=
  market_data <- MarketDataAgent.get_company_overview p ticker ;;
  let filings := fst (SecEdgar.get_company_filings s _cik_cache ticker "10-K" 2) in
  risk_data <- RiskAgent.assess_financial_risk p ticker ;;
  let context :=
    nl
    ++ "Company: " ++ py_str (py_get_default market_data "name" (PStr ticker)) ++ " (" ++ PyStr.upper ticker ++ ")" ++ nl
    ++ "Sector: " ++ py_str (py_get_default market_data "sector" na) ++ " | Industry: " ++ py_str (py_get_default market_data "industry" na) ++ nl
    ++ nl
    ++ "Price: $" ++ py_str (py_get_default market_data "current_price" na) ++ " | Market Cap: " ++ py_str (py_get_default market_data "market_cap_formatted" na) ++ nl
    ++ "P/E: " ++ py_str (py_get_default market_data "pe_ratio" na) ++ " | Forward P/E: " ++ py_str (py_get_default market_data "forward_pe" na) ++ nl
    ++ "Revenue Growth: " ++ py_str (py_get_default market_data "revenue_growth" na) ++ " | Earnings Growth: " ++ py_str (py_get_default market_data "earnings_growth" na) ++ nl
    ++ "Gross Margin: " ++ py_str (py_get_default market_data "gross_margins" na) ++ " | Op Margin: " ++ py_str (py_get_default market_data "operating_margins" na) ++ nl
    ++ "Analyst Recommendation: " ++ py_str (py_get_default market_data "recommendation" na) ++ " | Target: $" ++ py_str (py_get_default market_data "analyst_target" na) ++ nl
    ++ nl
    ++ "Recent 10-K Filings: " ++ PyNum.string_of_N (N.of_nat (List.length filings)) ++ " found" ++ nl
    ++ "Risk Indicators:" ++ nl
    ++ String.concat EmptyString
         (RiskAgent.indicator_lines
            (fun key level _ => "  - " ++ key ++ ": " ++ level ++ nl)
            risk_data) in
  let prompt :=
    "Using this comprehensive data about " ++ PyStr.upper ticker ++ ", answer the user's question:" ++ nl
    ++ nl
    ++ "User Question: " ++ query ++ nl
    ++ nl
    ++ context ++ nl
    ++ nl
    ++ "Provide a thorough, data-driven response. Reference specific metrics and data points." in
  Ok (Generate (request prompt (Some Orchestrator.SYSTEM_INSTRUCTION))).

End SingleStock.

(** ** Vocabulary of the properties of the data sources and agents *)

Module Props.

(** The sum of the waits, in seconds. *)
Definition total_wait (events : list GeminiClient.event) : Z :=
  fold_right Z.add 0%Z (RetrySpec.waits events).

(** The back-off schedule: the wait after failed attempt [j]. *)
Definition schedule (k : nat) : list Z :=
  map (fun j => (2 ^ Z.of_nat j + 1)%Z) (seq 0 k).

(** The reader yields 7-bit text only (or fails). *)
Definition ascii_pages (reader : outcome (list (option string))) : bool :=
  match reader with
  | Raise _ => true
  | Ok pages =>
      forallb (fun page : option string =>
                 match page with Some t => PyStr.isascii t | None => true end)
              pages
  end.

(** A page without text, or with white space only (7-bit text). *)
Definition blank_page (page : option string) : bool :=
  PyStr.is_empty (PyStr.strip (match page with Some t => t | None => "" end)).

(** The block [_extract_pdf_text] adds for a numbered page. *)
Definition page_block (ip : N * option string) : list string :=
  let text := match snd ip with Some t => t | None => "" end in
  if PyStr.is_empty (PyStr.strip text) then []
  else ["--- Page " ++ PyNum.string_of_N (fst ip + 1) ++ " ---" ++ GeminiClient.nl ++ text].

(** One iteration of the loop [for key in keys] of [get_key_metrics]. *)
Definition copy_field (info metrics : Dict.dict pyval) (key : string) : Dict.dict pyval :=
  match Dict.get info key with
  | Some v => Dict.set metrics key v
  | None => metrics
  end.

(** The overview fields that the market prompts and the composite
    single-stock context read with the default 'N/A', each with the
    metric it is taken from. *)
Definition defaulted_fields : list (string * string) :=
  [ ("current_price", "currentPrice"); ("52w_high", "fiftyTwoWeekHigh");
    ("52w_low", "fiftyTwoWeekLow"); ("beta", "beta");
    ("pe_ratio", "trailingPE"); ("forward_pe", "forwardPE");
    ("peg_ratio", "pegRatio"); ("price_to_book", "priceToBook");
    ("debt_to_equity", "debtToEquity"); ("current_ratio", "currentRatio");
    ("recommendation", "recommendationKey"); ("analyst_target", "targetMeanPrice");
    ("num_analysts", "numberOfAnalystOpinions");
    ("revenue_growth", "revenueGrowth"); ("earnings_growth", "earningsGrowth");
    ("gross_margins", "grossMargins"); ("operating_margins", "operatingMargins") ].

(** The metrics [generate_earnings_analysis] formats. *)
Definition earnings_fields : list string :=
  [ "totalRevenue"; "revenueGrowth"; "grossMargins"; "operatingMargins";
    "profitMargins"; "earningsGrowth" ].

(** A filing as [get_company_filings] lists it: no "error" entry, the
    requested form, and the five fields. *)
Definition listed_filing (filing_type : string) (f : Dict.dict pyval) : Prop :=
  Dict.mem "error" f = false
  /\ Dict.get f "form" = Some (PStr filing_type)
  /\ Dict.keys f
     = ["accession_number"; "filing_date"; "form"; "primary_document"; "description"].

(** Row [i] of the submissions table as a filing. *)
Definition filing_row (recent : SecEdgar.submission_data) (row : nat * string)
  : Dict.dict pyval :=
  let column c := match c with Some l => l | None => [] end in
  [ ("accession_number", PStr (nth (fst row) (column (SecEdgar.accessionNumber recent)) ""));
    ("filing_date", PStr (nth (fst row) (column (SecEdgar.filingDate recent)) ""));
    ("form", PStr (snd row));
    ("primary_document", PStr (nth (fst row) (column (SecEdgar.primaryDocument recent)) ""));
    ("description", PStr (nth (fst row) (column (SecEdgar.primaryDocDescription recent)) "")) ].

(** The period end of a data point as text, and whether the data point
    has one that is a text (a missing one counts as the empty text). *)
Definition end_text (v : Dict.dict pyval) : string :=
  match DocumentAgent.end_key v with PStr s => s | _ => "" end.

Definition dated (v : Dict.dict pyval) : bool :=
  match DocumentAgent.end_key v with PStr _ => true | _ => false end.

(** [a] does not end after [b]. *)
Definition ends_in_order (a b : Dict.dict pyval) : Prop :=
  String.leb (end_text a) (end_text b) = true.

(** A character that is not a lower-case letter. *)
Definition not_lower (c : ascii) : bool := negb (PyStr.is_lower c).

End Props.

(** ** A sample of the SEC tables *)

Definition sample_sec : SecEdgar.sec :=
  {| SecEdgar.company_tickers :=
       Ok [ {| SecEdgar.entry_ticker := "MSFT"; SecEdgar.cik_str := 789019 |};
            {| SecEdgar.entry_ticker := "aapl"; SecEdgar.cik_str := 320193 |} ];
     SecEdgar.submissions :=
       fun cik =>
         if String.eqb cik "0000320193" then
           Ok {| SecEdgar.profile :=
                   [("name", PStr "Apple Inc."); ("sicDescription", PStr "Electronic Computers")];
                 SecEdgar.form := Some ["10-Q"; "10-K"; "8-K"; "10-K"; "10-K"];
                 SecEdgar.accessionNumber := Some ["a0"; "a1"; "a2"; "a3"; "a4"];
                 SecEdgar.filingDate :=
                   Some ["2024-08-02"; "2023-11-03"; "2023-08-04"; "2022-10-28"; "2021-10-29"];
                 SecEdgar.primaryDocument := Some ["q.htm"; "k.htm"];
                 SecEdgar.primaryDocDescription := None |}
         else Raise {| exn_class := OtherError; exn_str := "404 Client Error" |};
     SecEdgar.company_facts :=
       fun _ => Raise {| exn_class := OtherError; exn_str := "404 Client Error" |} |}.

(** ** Sample XBRL data points *)

Definition annual_point (period_end : string) (val : Z) : Dict.dict pyval :=
  [("end", PStr period_end); ("val", PInt val); ("form", PStr "10-K")].

Definition sample_values : list (Dict.dict pyval) :=
  [ annual_point "2023-09-30" 383;
    [("end", PStr "2023-12-30"); ("val", PInt 119); ("form", PStr "10-Q")];
    annual_point "2020-09-26" 274;
    annual_point "2022-09-24" 394;
    [("end", PStr "2024-09-28"); ("val", PInt 391); ("form", PStr "10-K");
     ("frame", PStr "CY2024")];
    annual_point "2021-09-25" 365 ].

(** ** A payload with a ratio reported as text *)

Definition text_ratio_provider : provider :=
  {| get_stock_info :=
       fun _ => [("longName", PStr "Shell Co"); ("debtToEquity", PStr "Infinity")];
     get_price_history := fun _ _ => PObj "Empty DataFrame";
     get_news := fun _ => [] |}.

(* ===================================================================== *)
(** * Part II: properties                                                  *)
(* ===================================================================== *)

(** ** Strings *)

Section StringFacts.
Import PyStr.

Lemma is_space_upper_char c : is_space (upper_char c) = is_space c.
Proof. destruct c as [[] [] [] [] [] [] [] []]; reflexivity. Qed.

Lemma upper_lstrip s : upper (lstrip s) = lstrip (upper s).
Proof.
  induction s as [|c s IH]; simpl; [reflexivity|].
  rewrite is_space_upper_char. destruct (is_space c); [exact IH | reflexivity].
Qed.

Lemma upper_rstrip s : upper (rstrip s) = rstrip (upper s).
Proof.
  induction s as [|c s IH]; simpl; [reflexivity|].
  unfold upper in IH. rewrite <- IH, is_space_upper_char.
  destruct (rstrip s); simpl; [destruct (is_space c)|]; reflexivity.
Qed.

Lemma upper_strip s : upper (strip s) = strip (upper s).
Proof. unfold strip. now rewrite upper_rstrip, upper_lstrip. Qed.

Lemma rstrip_idem s : rstrip (rstrip s) = rstrip s.
Proof.
  induction s as [|c s IH]; simpl; [reflexivity|].
  destruct (rstrip s) as [|a r] eqn:E.
  - destruct (is_space c) eqn:Ec; simpl; [reflexivity | now rewrite Ec].
  - change (rstrip (String c (String a r))) with
      (match rstrip (String a r) with
       | EmptyString => if is_space c then EmptyString else String c EmptyString
       | x => String c x end).
    now rewrite IH.
Qed.

Lemma lstrip_rstrip s : lstrip (rstrip s) = rstrip (lstrip s).
Proof.
  induction s as [|c s IH]; simpl; [reflexivity|].
  destruct (is_space c) eqn:Ec.
  - rewrite <- IH. destruct (rstrip s); simpl; [reflexivity | now rewrite Ec].
  - simpl. destruct (rstrip s); simpl; now rewrite Ec.
Qed.










End StringFacts.

(** ** Numbers and their rendering *)

Section NumberFacts.
Import PyNum.

Lemma Qltb_true p q : Qltb p q = true <-> (p < q)%Q.
Proof.
  unfold Qltb. rewrite Qlt_alt. destruct (p ?= q)%Q; split; congruence.
Qed.

Lemma Qltb_false p q : Qltb p q = false <-> (q <= p)%Q.
Proof.
  split; intros H.
  - apply Qnot_lt_le. intros Hlt. apply Qltb_true in Hlt. congruence.
  - destruct (Qltb p q) eqn:E; [|reflexivity].
    apply Qltb_true in E. now apply Qle_not_lt in H.
Qed.

Lemma Qltb_compat p q q' : (q == q')%Q -> Qltb p q = Qltb p q'.
Proof. intros H. unfold Qltb. now rewrite H. Qed.

Lemma value_fabs x q :
  value_of_float x = XFin q -> value_of_float (fabs x) = XFin (Qabs q).
Proof.
  destruct x as [s| s | | s m e]; simpl; try discriminate.
  - intros [= <-]. reflexivity.
  - intros [= <-]. f_equal. unfold Q_of_finite. destruct e as [|k|k].
    + destruct s; reflexivity.
    + unfold inject_Z, Qabs. f_equal. rewrite Z.abs_mul.
      rewrite (Z.abs_eq (2 ^ Z.pos k)) by (apply Z.pow_nonneg; lia).
      destruct s; reflexivity.
    + destruct s; reflexivity.
Qed.

(** The test [abs(x) >= c] for a float literal [c] whose value is the
    rational [t]. *)
Lemma fle_literal c cq t x q :
  value_of_float c = XFin cq -> (cq == t)%Q ->
  value_of_float x = XFin q ->
  fle c (fabs x) = negb (Qltb (Qabs q) t).
Proof.
  intros Hc Ht Hx. unfold fle. rewrite Hc, (value_fabs _ _ Hx). simpl.
  now rewrite (Qltb_compat _ _ _ Ht).
Qed.

Lemma length_append (a b : string) :
  String.length (a ++ b) = (String.length a + String.length b)%nat.
Proof. induction a as [|c a IH]; simpl; [reflexivity | now rewrite IH]. Qed.

Lemma append_assoc (a b c : string) : (a ++ b) ++ c = a ++ (b ++ c).
Proof. induction a as [|x a IH]; simpl; [reflexivity | now rewrite IH]. Qed.

Lemma append_empty_r (a : string) : a ++ "" = a.
Proof. induction a as [|x a IH]; simpl; [reflexivity | now rewrite IH]. Qed.

Lemma all_chars_append p (a b : string) :
  PyStr.all_chars p (a ++ b) = PyStr.all_chars p a && PyStr.all_chars p b.
Proof.
  induction a as [|c a IH]; simpl; [reflexivity|].
  now rewrite IH, andb_assoc.
Qed.

Lemma digit_char_is_digit n : PyStr.is_digit (digit_char n) = true.
Proof.
  unfold digit_char, PyStr.is_digit, PyStr.code.
  assert (H : (n mod 10 < 10)%N) by (apply N.mod_lt; discriminate).
  generalize dependent (n mod 10)%N. intros r H.
  rewrite N_ascii_embedding by lia.
  apply andb_true_intro; split; apply N.leb_le; lia.
Qed.

Lemma frac_digits_length d n : String.length (frac_digits d n) = d.
Proof.
  revert n. induction d as [|d IH]; intros n; simpl; [reflexivity|].
  rewrite length_append, IH. simpl. lia.
Qed.

Lemma frac_digits_digits d n :
  PyStr.all_chars PyStr.is_digit (frac_digits d n) = true.
Proof.
  revert n. induction d as [|d IH]; intros n; simpl; [reflexivity|].
  rewrite all_chars_append, IH. simpl. now rewrite digit_char_is_digit.
Qed.

Lemma digits_fuel_digits fuel n acc :
  PyStr.all_chars PyStr.is_digit acc = true ->
  PyStr.all_chars PyStr.is_digit (digits_fuel fuel n acc) = true.
Proof.
  revert n acc. induction fuel as [|fuel IH]; intros n acc H; simpl; [exact H|].
  assert (H' : PyStr.all_chars PyStr.is_digit (String (digit_char n) acc) = true)
    by (simpl; now rewrite digit_char_is_digit).
  destruct (n <? 10)%N; [exact H' | now apply IH].
Qed.

Lemma digits_fuel_nonempty fuel n acc :
  (acc <> "" \/ fuel <> O) -> digits_fuel fuel n acc <> "".
Proof.
  revert n acc. induction fuel as [|fuel IH]; intros n acc H; simpl.
  - destruct H as [H|H]; [exact H | congruence].
  - destruct (n <? 10)%N; [discriminate|]. apply IH. left. discriminate.
Qed.

Lemma string_of_N_digits n :
  string_of_N n <> "" /\ PyStr.all_chars PyStr.is_digit (string_of_N n) = true.
Proof.
  unfold string_of_N. split.
  - apply digits_fuel_nonempty. right. discriminate.
  - now apply digits_fuel_digits.
Qed.

Lemma digit_val_digit_char n : digit_val (digit_char n) = (n mod 10)%N.
Proof.
  unfold digit_val, digit_char, PyStr.code.
  assert (H : (n mod 10 < 10)%N) by (apply N.mod_lt; discriminate).
  generalize dependent (n mod 10)%N. intros r H.
  rewrite N_ascii_embedding by lia. lia.
Qed.

Lemma digits_value_from_app acc a b :
  FormatSpec.digits_value_from acc (a ++ b)
  = FormatSpec.digits_value_from (FormatSpec.digits_value_from acc a) b.
Proof. revert acc. induction a as [|c a IH]; intros acc; simpl; [reflexivity | apply IH]. Qed.

Lemma digits_value_from_acc acc s :
  FormatSpec.digits_value_from acc s
  = (acc * 10 ^ N.of_nat (String.length s) + FormatSpec.digits_value s)%N.
Proof.
  unfold FormatSpec.digits_value. revert acc.
  induction s as [|c s IH]; intros acc.
  - simpl. lia.
  - cbn [FormatSpec.digits_value_from String.length].
    rewrite (IH (acc * 10 + digit_val c)%N), (IH (0 * 10 + digit_val c)%N).
    rewrite Nat2N.inj_succ, N.pow_succ_r'. lia.
Qed.

Lemma digits_value_snoc ds c :
  FormatSpec.digits_value (ds ++ String c "")
  = (FormatSpec.digits_value ds * 10 + digit_val c)%N.
Proof.
  unfold FormatSpec.digits_value. rewrite digits_value_from_app. reflexivity.
Qed.

(** With enough fuel, [digits_fuel] puts the digits of [n] before [acc]. *)
Lemma digits_fuel_value fuel :
  forall n acc,
    (n < 10 ^ N.of_nat fuel)%N ->
    exists ds, digits_fuel fuel n acc = ds ++ acc
               /\ FormatSpec.digits_value ds = n.
Proof.
  induction fuel as [|fuel IH]; intros n acc Hn.
  - exists "". simpl in *. split; [reflexivity|]. cbn. lia.
  - cbn [digits_fuel]. destruct (N.ltb_spec n 10) as [Hlt|Hge].
    + exists (String (digit_char n) ""). split; [reflexivity|].
      cbn. rewrite digit_val_digit_char. rewrite N.mod_small; lia.
    + destruct (IH (n / 10)%N (String (digit_char n) acc)) as (ds & E & V).
      { rewrite Nat2N.inj_succ, N.pow_succ_r' in Hn.
        apply N.Div0.div_lt_upper_bound. lia. }
      exists (ds ++ String (digit_char n) ""). split.
      * rewrite E. now rewrite append_assoc.
      * rewrite digits_value_snoc, V, digit_val_digit_char.
        rewrite (N.div_mod n 10) at 3 by discriminate. lia.
Qed.

Lemma string_of_N_value n : FormatSpec.digits_value (string_of_N n) = n.
Proof.
  unfold string_of_N.
  destruct (digits_fuel_value (S (N.to_nat (N.log2 n))) n "") as (ds & E & V).
  - rewrite Nat2N.inj_succ, N2Nat.id.
    destruct n as [|p]; [reflexivity|].
    apply N.lt_le_trans with (2 ^ N.succ (N.log2 (N.pos p)))%N.
    + apply N.log2_spec. reflexivity.
    + apply N.pow_le_mono_l. lia.
  - rewrite E, append_empty_r. exact V.
Qed.

Lemma frac_digits_value d n :
  FormatSpec.digits_value (frac_digits d n) = (n mod 10 ^ N.of_nat d)%N.
Proof.
  revert n. induction d as [|d IH]; intros n.
  - cbn. now rewrite N.mod_1_r.
  - cbn [frac_digits]. rewrite digits_value_snoc, IH, digit_val_digit_char.
    rewrite Nat2N.inj_succ, N.pow_succ_r'.
    rewrite (N.Div0.mod_mul_r n 10). lia.
Qed.

Lemma fixed_digits_value d n sg :
  (0 < d)%nat -> FormatSpec.fixed_point d (sg ++ fixed_digits d n) sg n.
Proof.
  intros Hd. destruct d as [|d]; [lia|].
  set (p10 := (10 ^ N.of_nat (S d))%N).
  exists (string_of_N (n / p10)), (frac_digits (S d) (n mod p10)).
  repeat split.
  - apply string_of_N_digits.
  - apply string_of_N_digits.
  - apply frac_digits_length.
  - apply frac_digits_digits.
  - unfold FormatSpec.digits_value at 1.
    rewrite digits_value_from_app, digits_value_from_acc.
    fold (FormatSpec.digits_value (string_of_N (n / p10))).
    rewrite string_of_N_value, frac_digits_length, frac_digits_value.
    fold p10. rewrite N.Div0.mod_mod.
    rewrite (N.div_mod n p10) at 3 by (unfold p10; apply N.pow_nonzero; discriminate).
    lia.
Qed.

(** The integer chosen by [round_half_even] is within one half of the
    quotient. *)
Lemma round_half_even_nearest a b :
  let n := round_half_even a b in
  (2 * (n * Npos b) <= 2 * a + Npos b /\ 2 * a <= 2 * (n * Npos b) + Npos b)%N.
Proof.
  unfold round_half_even.
  assert (Hdiv := N.div_mod a (Npos b) ltac:(discriminate)).
  assert (Hlt : (a mod Npos b < Npos b)%N) by (apply N.mod_lt; discriminate).
  set (q := (a / Npos b)%N) in *. set (r := (a mod Npos b)%N) in *.
  destruct (N.compare_spec (2 * r) (Npos b)) as [E|E|E];
    [destruct (N.even q)| |]; cbv zeta; nia.
Qed.

Lemma Qabs_Q_of_finite s m e : Qabs (Q_of_finite s m e) = Q_of_finite false m e.
Proof.
  unfold Q_of_finite. destruct e as [|k|k].
  - destruct s; reflexivity.
  - unfold inject_Z, Qabs. f_equal. rewrite Z.abs_mul.
    rewrite (Z.abs_eq (2 ^ Z.pos k)) by (apply Z.pow_nonneg; lia).
    destruct s; reflexivity.
  - destruct s; reflexivity.
Qed.

(** The integer [format_fixed] prints is within one half of the number
    scaled by [10^d]. *)
Lemma scaled_round_nearest d s m e :
  (Qabs (inject_Z (Z.of_N (scaled_round d m e))
         - Qabs (Q_of_finite s m e) * inject_Z (10 ^ Z.of_nat d)) <= 1 # 2)%Q.
Proof.
  rewrite Qabs_Q_of_finite. unfold scaled_round, Q_of_finite.
  assert (Hp : Z.of_N (10 ^ N.of_nat d) = (10 ^ Z.of_nat d)%Z)
    by (rewrite N2Z.inj_pow, nat_N_Z; reflexivity).
  assert (Hpos : (0 < 10 ^ Z.of_nat d)%Z) by (apply Z.pow_pos_nonneg; lia).
  destruct e as [|k|k].
  - apply Qabs_Qle_condition. rewrite !N2Z.inj_mul, Hp. cbn [Z.to_N N.pow Z.of_N].
    unfold Qle, Qminus, Qplus, Qmult, Qopp, inject_Z. cbn [Qnum Qden].
    split; lia.
  - apply Qabs_Qle_condition. rewrite !N2Z.inj_mul, N2Z.inj_pow, Hp.
    rewrite Z2N.id by lia.
    unfold Qle, Qminus, Qplus, Qmult, Qopp, inject_Z. cbn [Qnum Qden Z.of_N].
    split; lia.
  - assert (H := round_half_even_nearest (N.pos m * 10 ^ N.of_nat d) (2 ^ k)).
    cbv zeta in H.
    set (n := round_half_even (N.pos m * 10 ^ N.of_nat d) (2 ^ k)) in *.
    assert (H1 : (2 * (Z.of_N n * Z.pos (2 ^ k))
                  <= 2 * (Z.pos m * 10 ^ Z.of_nat d) + Z.pos (2 ^ k))%Z)
      by (rewrite <- Hp; lia).
    assert (H2 : (2 * (Z.pos m * 10 ^ Z.of_nat d)
                  <= 2 * (Z.of_N n * Z.pos (2 ^ k)) + Z.pos (2 ^ k))%Z)
      by (rewrite <- Hp; lia).
    clear H. apply Qabs_Qle_condition.
    unfold Qle, Qminus, Qplus, Qmult, Qopp, inject_Z. cbn [Qnum Qden].
    generalize dependent (10 ^ Z.of_nat d)%Z. intros P _ HP H1 H2.
    generalize dependent (Z.of_N n). intros A H1 H2.
    rewrite !Pos.mul_1_r, !Pos.mul_1_l, ?Pos2Z.inj_mul.
    split; nia.
Qed.

(** A finite float formatted with [".<d>f"] is rendered with [d] decimal
    places. *)
Lemma format_fixed_rendered d y q :
  (0 < d)%nat -> value_of_float y = XFin q ->
  FormatSpec.rendered d q (format_fixed d y).
Proof.
  intros Hd Hy. destruct y as [s| s | | s m e]; try discriminate.
  - injection Hy as <-. exists (sign_string s), 0%N.
    split; [now apply fixed_digits_value|].
    split; [destruct s; [right | left]; reflexivity|].
    split; [intros H; now apply Qlt_irrefl in H|].
    split; [intros H; now apply Qlt_irrefl in H|].
    apply Qabs_Qle_condition.
    unfold Qle, Qminus, Qplus, Qmult, Qopp, inject_Z. cbn [Qnum Qden Qabs Z.of_N Z.abs].
    split; lia.
  - injection Hy as <-. exists (sign_string s), (scaled_round d m e).
    split; [now apply fixed_digits_value|].
    assert (Hsign : forall b, (b = true -> (Q_of_finite b m e < 0)%Q)
                              /\ (b = false -> (0 < Q_of_finite b m e)%Q)).
    { intros b. unfold Q_of_finite. split; intros ->.
      - destruct e as [|k|k]; unfold Qlt, inject_Z; cbn [Qnum Qden]; try lia;
          assert (0 < 2 ^ Z.pos k)%Z by (apply Z.pow_pos_nonneg; lia); nia.
      - destruct e as [|k|k]; unfold Qlt, inject_Z; cbn [Qnum Qden]; try lia;
          assert (0 < 2 ^ Z.pos k)%Z by (apply Z.pow_pos_nonneg; lia); nia. }
    split; [destruct s; [right | left]; reflexivity|].
    split.
    { intros Hneg. destruct s; [reflexivity|].
      destruct (Hsign false) as [_ Hp]. specialize (Hp eq_refl).
      exfalso. apply (Qlt_irrefl 0). now apply Qlt_trans with (Q_of_finite false m e). }
    split.
    { intros Hposq. destruct s; [|reflexivity].
      destruct (Hsign true) as [Hn _]. specialize (Hn eq_refl).
      exfalso. apply (Qlt_irrefl 0). now apply Qlt_trans with (Q_of_finite true m e). }
    apply scaled_round_nearest.
Qed.

End NumberFacts.

(** ** Formatting helpers *)

Section FormatFacts.
Import PyNum DataProviders.

Lemma lit_1e12_value :
  exists c, value_of_float lit_1e12 = XFin c /\ (c == 1000000000000 # 1)%Q.
Proof. eexists; split; [reflexivity | reflexivity]. Qed.

Lemma lit_1e9_value :
  exists c, value_of_float lit_1e9 = XFin c /\ (c == 1000000000 # 1)%Q.
Proof. eexists; split; [reflexivity | reflexivity]. Qed.

Lemma lit_1e6_value :
  exists c, value_of_float lit_1e6 = XFin c /\ (c == 1000000 # 1)%Q.
Proof. eexists; split; [reflexivity | reflexivity]. Qed.

Lemma lit_1e3_value :
  exists c, value_of_float lit_1e3 = XFin c /\ (c == 1000 # 1)%Q.
Proof. eexists; split; [reflexivity | reflexivity]. Qed.

(** How [format_large_number] treats a value [float()] accepts, in terms
    of the four tests it makes. *)
Lemma format_large_number_float n x :
  to_float n = Ok x ->
  format_large_number n =
    if fle lit_1e12 (fabs x) then Ok ("$" ++ format_fixed 2 (fdiv x lit_1e12) ++ "T")
    else if fle lit_1e9 (fabs x) then Ok ("$" ++ format_fixed 2 (fdiv x lit_1e9) ++ "B")
    else if fle lit_1e6 (fabs x) then Ok ("$" ++ format_fixed 2 (fdiv x lit_1e6) ++ "M")
    else if fle lit_1e3 (fabs x) then Ok ("$" ++ format_fixed 1 (fdiv x lit_1e3) ++ "K")
    else Ok ("$" ++ format_fixed 2 x).
Proof.
  intros H. unfold format_large_number. rewrite H.
  destruct n; try reflexivity. discriminate.
Qed.

End FormatFacts.

(** ** Ticker extraction *)

Example tickers_none : Orchestrator.tickers_of_result "none" = [].
Proof. reflexivity. Qed.

Example tickers_mixed :
  Orchestrator.tickers_of_result "AAPL, MSFT 123, GOOGL" = ["AAPL"; "GOOGL"].
Proof. reflexivity. Qed.



(** ** Routing *)

(** C1. For every intent string I, ticker list T and query, the handler
    chosen by the if/elif chain of [process_query] is the one selected by
    evaluating the routing table top to bottom, first match wins, a match
    needing both the keyword inside I and enough tickers; with no ticker
    the raw query goes to the generic generation path, whatever I is. *)
Theorem route_is_first_match :
  (forall intent tickers query,
      Orchestrator.route intent tickers query
      = RoutingSpec.first_match RoutingSpec.rules intent tickers query)
  /\ (forall gemini query,
        fst (Orchestrator.process_query gemini query)
        = RoutingSpec.first_match RoutingSpec.rules
            (Orchestrator._classify_intent gemini query)
            (Orchestrator._extract_tickers gemini query) query)
  /\ (forall intent query,
        Orchestrator.route intent [] query = Orchestrator.GeneralAnswer query)
  /\ (forall t query,
        Orchestrator.route "PEER_COMPARISON" [t] query
        = Orchestrator.ComprehensiveSingle t query)
  /\ (forall t1 t2 query,
        Orchestrator.route "RISK_ASSESSMENT_DETAIL" [t1; t2] query
        = Orchestrator.CompareRisks [t1; t2]).
Proof.
  assert (H : forall intent tickers query,
      Orchestrator.route intent tickers query
      = RoutingSpec.first_match RoutingSpec.rules intent tickers query).
  { intros intent tickers query.
    unfold Orchestrator.route, RoutingSpec.rules, RoutingSpec.first_match,
      RoutingSpec.matches, RoutingSpec.many_or_one; cbn [RoutingSpec.keyword
      RoutingSpec.min_tickers RoutingSpec.action].
    destruct tickers as [|t [|t' T]]; cbn [Orchestrator.truthy List.length Nat.leb Nat.ltb];
      repeat match goal with
             | |- context [PyStr.contains ?k intent] =>
                 destruct (PyStr.contains k intent); cbn [andb]
             end; reflexivity. }
  repeat split; try exact H.
  - intros. unfold Orchestrator.process_query. cbn [fst]. apply H.
  - intros intent query. unfold Orchestrator.route. cbn [Orchestrator.truthy List.length].
    rewrite !andb_false_r. reflexivity.
Qed.

Section FormatClaims.
Import PyNum DataProviders.

(** C8. For every input [n] that [float()] turns into a finite number of
    magnitude |q|, [format_large_number] returns "$", the number divided
    by 1e12, 1e9, 1e6 or 1e3 according to the largest of these thresholds
    that |q| reaches, formatted with two decimals (one for K), and the
    suffix T, B, M or K; below 1e3 the number itself with two decimals and
    no suffix.  [None] gives "N/A".  A finite number formatted with [d]
    decimals is a sign, digits, a point and exactly [d] digits, and the
    decimal shown is within half a unit of its last place of the number.
    In particular 1_500_000_000_000 gives "$1.50T". *)
Theorem format_large_number_suffixes :
  (forall n x q,
      to_float n = Ok x -> value_of_float x = XFin q ->
      ((1000000000000 # 1 <= Qabs q)%Q ->
       format_large_number n = Ok ("$" ++ format_fixed 2 (fdiv x lit_1e12) ++ "T"))
      /\ ((1000000000 # 1 <= Qabs q)%Q -> (Qabs q < 1000000000000 # 1)%Q ->
          format_large_number n = Ok ("$" ++ format_fixed 2 (fdiv x lit_1e9) ++ "B"))
      /\ ((1000000 # 1 <= Qabs q)%Q -> (Qabs q < 1000000000 # 1)%Q ->
          format_large_number n = Ok ("$" ++ format_fixed 2 (fdiv x lit_1e6) ++ "M"))
      /\ ((1000 # 1 <= Qabs q)%Q -> (Qabs q < 1000000 # 1)%Q ->
          format_large_number n = Ok ("$" ++ format_fixed 1 (fdiv x lit_1e3) ++ "K"))
      /\ ((Qabs q < 1000 # 1)%Q ->
          format_large_number n = Ok ("$" ++ format_fixed 2 x)))
  /\ format_large_number PNone = Ok "N/A"
  /\ (forall d y q, (0 < d)%nat -> value_of_float y = XFin q ->
                    FormatSpec.rendered d q (format_fixed d y))
  /\ format_large_number (PInt 1500000000000) = Ok "$1.50T".
Proof.
  split; [|split; [reflexivity | split; [exact format_fixed_rendered | reflexivity]]].
  intros n x q Hn Hx.
  rewrite (format_large_number_float n x Hn).
  destruct lit_1e12_value as (c12 & V12 & E12).
  destruct lit_1e9_value as (c9 & V9 & E9).
  destruct lit_1e6_value as (c6 & V6 & E6).
  destruct lit_1e3_value as (c3 & V3 & E3).
  rewrite (fle_literal _ _ _ _ _ V12 E12 Hx), (fle_literal _ _ _ _ _ V9 E9 Hx),
    (fle_literal _ _ _ _ _ V6 E6 Hx), (fle_literal _ _ _ _ _ V3 E3 Hx).
  assert (Hbelow : forall lo hi, (Qabs q < lo)%Q -> (lo < hi)%Q ->
                                 Qltb (Qabs q) hi = true).
  { intros lo hi H1 H2. apply Qltb_true. now apply Qlt_trans with lo. }
  split; [|split; [|split; [|split]]].
  - intros H. apply Qltb_false in H. now rewrite H.
  - intros H1 H2. apply Qltb_false in H1. apply Qltb_true in H2.
    now rewrite H1, H2.
  - intros H1 H2.
    rewrite (Hbelow _ (1000000000000 # 1) H2) by reflexivity.
    apply Qltb_false in H1. apply Qltb_true in H2. now rewrite H1, H2.
  - intros H1 H2.
    rewrite (Hbelow _ (1000000000000 # 1) H2), (Hbelow _ (1000000000 # 1) H2)
      by reflexivity.
    apply Qltb_false in H1. apply Qltb_true in H2. now rewrite H1, H2.
  - intros H.
    rewrite (Hbelow _ (1000000000000 # 1) H), (Hbelow _ (1000000000 # 1) H),
      (Hbelow _ (1000000 # 1) H) by reflexivity.
    apply Qltb_true in H. now rewrite H.
Qed.

Lemma format_large_number_suffixes_witness :
  (to_float (PInt 1500000000000) = Ok (S754_finite false 6144000000000000 (-12))
   /\ (1000000000000 # 1 <= Qabs (6144000000000000 # 4096))%Q
   /\ format_large_number (PInt 1500000000000)
      = Ok ("$" ++ format_fixed 2 (fdiv (S754_finite false 6144000000000000 (-12))
                                        lit_1e12) ++ "T"))
  /\ (to_float (PInt 1500) = Ok (S754_finite false 6597069766656000 (-42))
      /\ (1000 # 1 <= Qabs (6597069766656000 # 4398046511104))%Q
      /\ (Qabs (6597069766656000 # 4398046511104) < 1000000 # 1)%Q
      /\ format_large_number (PInt 1500)
         = Ok ("$" ++ format_fixed 1 (fdiv (S754_finite false 6597069766656000 (-42))
                                           lit_1e3) ++ "K")).
Proof.
  assert (H : (1000000000000 # 1 <= Qabs (6144000000000000 # 4096))%Q)
    by (vm_compute; discriminate).
  assert (K1 : (1000 # 1 <= Qabs (6597069766656000 # 4398046511104))%Q)
    by (vm_compute; discriminate).
  assert (K2 : (Qabs (6597069766656000 # 4398046511104) < 1000000 # 1)%Q)
    by reflexivity.
  split.
  - split; [reflexivity | split; [exact H|]].
    exact (proj1 (proj1 format_large_number_suffixes (PInt 1500000000000)
                    (S754_finite false 6144000000000000 (-12))
                    (6144000000000000 # 4096) eq_refl eq_refl) H).
  - split; [reflexivity | split; [exact K1 | split; [exact K2|]]].
    exact (proj1 (proj2 (proj2 (proj2
             (proj1 format_large_number_suffixes (PInt 1500)
                (S754_finite false 6597069766656000 (-42))
                (6597069766656000 # 4398046511104) eq_refl eq_refl)))) K1 K2).
Defined.




(** C9 (the code does not do this). An integer beyond the binary64 range
    makes [float(num)] raise [OverflowError], which the
    [except (ValueError, TypeError)] clause of neither helper catches:
    both raise instead of returning a string. *)
Theorem format_helpers_raise_on_huge_int :
  format_large_number (PInt (10 ^ 400))
  = Raise {| exn_class := OverflowError;
             exn_str := "int too large to convert to float" |}
  /\ format_percentage (PInt (10 ^ 400))
     = Raise {| exn_class := OverflowError;
                exn_str := "int too large to convert to float" |}.
Proof. split; vm_compute; reflexivity. Qed.

(** Apart from such integers the helpers are total: [None] gives "N/A",
    what [float()] accepts is formatted as a number, and what it rejects
    with [ValueError] or [TypeError] comes back as its own [str()]. *)
Lemma format_helpers_total_in_range v :
  (forall z, v = PInt z -> exists x, float_of_int z = Ok x) ->
  (exists s, format_large_number v = Ok s)
  /\ (exists s, format_percentage v = Ok s).
Proof.
  intros Hz. unfold format_large_number, format_percentage.
  destruct v as [|b|z|f|str|r]; try (split; eexists; reflexivity).
  - split; cbn [to_float];
      repeat match goal with |- context [if ?c then _ else _] => destruct c end;
      eexists; reflexivity.
  - destruct (Hz z eq_refl) as [x Hx]. cbn [to_float]. rewrite Hx.
    split;
      repeat match goal with |- context [if ?c then _ else _] => destruct c end;
      eexists; reflexivity.
  - split; cbn [to_float];
      repeat match goal with |- context [if ?c then _ else _] => destruct c end;
      eexists; reflexivity.
  - cbn [to_float]. destruct (parse_float str);
      split; cbn [is_value_or_type_error exn_class];
      repeat match goal with |- context [if ?c then _ else _] => destruct c end;
      eexists; reflexivity.
Qed.

Example format_large_number_numeric_string :
  format_large_number (PStr "1500000000") = Ok "$1.50B".
Proof. reflexivity. Qed.

Example format_large_number_passthrough :
  format_large_number (PStr "N/A") = Ok "N/A"
  /\ format_percentage (PStr "N/A") = Ok "N/A".
Proof. split; reflexivity. Qed.

End FormatClaims.

(** ** Risk scoring *)

Section RiskFacts.
Import PyNum RiskAgent.

Lemma py_gt_finite v t q c :
  value_of v = Some (XFin q) -> value_of t = Some (XFin c) ->
  py_gt v t = Ok (Qltb c q).
Proof. intros Hv Ht. unfold py_gt. now rewrite Hv, Ht. Qed.

Lemma py_lt_finite v t q c :
  value_of v = Some (XFin q) -> value_of t = Some (XFin c) ->
  py_lt v t = Ok (Qltb q c).
Proof. intros Hv Ht. unfold py_lt. now rewrite Hv, Ht. Qed.

(** Case analysis on a test, keeping the order fact it decides. *)
Ltac split_tests :=
  repeat match goal with
         | |- context [Qltb ?a ?b] =>
             let E := fresh "E" in
             destruct (Qltb a b) eqn:E;
             [apply Qltb_true in E | apply Qltb_false in E]
         end.

Ltac rewrite_tests Hv :=
  repeat match goal with
         | |- context [py_gt ?v ?t] => rewrite (py_gt_finite v t _ _ Hv eq_refl)
         | |- context [py_lt ?v ?t] => rewrite (py_lt_finite v t _ _ Hv eq_refl)
         end;
  cbn [bind].

Ltac table_cases :=
  cbn [bind]; eexists; eexists; split; [reflexivity|];
  split; [discriminate|];
  repeat split; intros; try reflexivity; exfalso;
  repeat match goal with H : _ /\ _ |- _ => destruct H end;
  unfold RiskSpec.margin_cut, RiskSpec.growth_cut, RiskSpec.beta_cut, inject_Z in *;
  cbn in *;
  lra.

Lemma leverage_risk_table v q :
  value_of v = Some (XFin q) ->
  exists level note,
    leverage_risk v = Ok (RInd level v note) /\ note <> ""
    /\ RiskSpec.leverage q level.
Proof.
  intros Hv. unfold leverage_risk, RiskSpec.leverage.
  rewrite_tests Hv. split_tests; table_cases.
Qed.

Lemma liquidity_risk_table v q :
  value_of v = Some (XFin q) ->
  exists level note,
    liquidity_risk v = Ok (RInd level v note) /\ note <> ""
    /\ RiskSpec.liquidity q level.
Proof.
  intros Hv. unfold liquidity_risk, RiskSpec.liquidity.
  rewrite_tests Hv. split_tests; table_cases.
Qed.

Lemma valuation_risk_table v q :
  value_of v = Some (XFin q) ->
  exists level note,
    valuation_risk v = Ok (RInd level v note) /\ note <> ""
    /\ RiskSpec.valuation q level.
Proof.
  intros Hv. unfold valuation_risk, RiskSpec.valuation.
  rewrite_tests Hv. split_tests; table_cases.
Qed.

Lemma profitability_risk_table v q :
  value_of v = Some (XFin q) ->
  exists level note,
    profitability_risk v = Ok (RInd level v note) /\ note <> ""
    /\ RiskSpec.profitability q level.
Proof.
  intros Hv. unfold profitability_risk, RiskSpec.profitability.
  rewrite_tests Hv. split_tests; table_cases.
Qed.

Lemma growth_risk_table v q :
  value_of v = Some (XFin q) ->
  exists level note,
    growth_risk v = Ok (RInd level v note) /\ note <> ""
    /\ RiskSpec.growth q level.
Proof.
  intros Hv. unfold growth_risk, RiskSpec.growth.
  rewrite_tests Hv. split_tests; table_cases.
Qed.

Lemma volatility_risk_table v q :
  value_of v = Some (XFin q) ->
  exists level note,
    volatility_risk v = Ok (RInd level v note) /\ note <> ""
    /\ RiskSpec.volatility q level.
Proof.
  intros Hv. unfold volatility_risk, RiskSpec.volatility.
  rewrite_tests Hv. split_tests; table_cases.
Qed.

Lemma add_indicator_num key f x xr d :
  value_of x = Some xr ->
  add_indicator key f x d = (r <- f x ;; Ok (Dict.set d key r)).
Proof. destruct x; try discriminate; reflexivity. Qed.

Lemma value_not_none x xr : value_of x = Some xr -> RiskSpec.is_none x = false.
Proof. destruct x; try discriminate; reflexivity. Qed.

(** One metric: absent, or scored by its table. *)
Ltac score_metric H table_lemma :=
  let q := fresh "q" in
  let Q := fresh "Q" in
  let N := fresh "N" in
  destruct H as [N | [q Q]];
  [ rewrite ?N in *; cbn [add_indicator bind RiskSpec.is_none negb]
  | let l := fresh "l" in
    let n := fresh "n" in
    let R := fresh "R" in
    let NE := fresh "NE" in
    let T := fresh "T" in
    destruct (table_lemma _ _ Q) as (l & n & R & NE & T);
    rewrite (add_indicator_num _ _ _ _ _ Q), R, ?(value_not_none _ _ Q);
    cbn [bind negb] ].

Lemma risk_indicators_table ticker metrics :
  Dict.mem "error" metrics = false ->
  (forall cat m, In (cat, m) RiskSpec.categories ->
     py_get metrics m = PNone
     \/ exists q, value_of (py_get metrics m) = Some (XFin q)) ->
  exists r,
    risk_indicators_of ticker metrics = Ok r
    /\ Dict.keys r = "ticker" :: "company" :: RiskSpec.present_categories metrics
    /\ (forall cat m, In (cat, m) RiskSpec.categories ->
          py_get metrics m = PNone -> Dict.get r cat = None)
    /\ (forall cat m q, In (cat, m) RiskSpec.categories ->
          value_of (py_get metrics m) = Some (XFin q) ->
          exists level note,
            Dict.get r cat = Some (RInd level (py_get metrics m) note)
            /\ note <> "" /\ RiskSpec.table cat q level).
Proof.
  intros Herr Hnum. unfold risk_indicators_of. rewrite Herr.
  unfold RiskSpec.present_categories, RiskSpec.categories in *.
  cbn [filter map snd fst].
  assert (H1 := Hnum "leverage_risk" "debtToEquity" ltac:(cbn; tauto)).
  assert (H2 := Hnum "liquidity_risk" "currentRatio" ltac:(cbn; tauto)).
  assert (H3 := Hnum "valuation_risk" "trailingPE" ltac:(cbn; tauto)).
  assert (H4 := Hnum "profitability_risk" "profitMargins" ltac:(cbn; tauto)).
  assert (H5 := Hnum "growth_risk" "revenueGrowth" ltac:(cbn; tauto)).
  assert (H6 := Hnum "volatility_risk" "beta" ltac:(cbn; tauto)).
  clear Hnum.
  set (v1 := py_get metrics "debtToEquity") in *.
  set (v2 := py_get metrics "currentRatio") in *.
  set (v3 := py_get metrics "trailingPE") in *.
  set (v4 := py_get metrics "profitMargins") in *.
  set (v5 := py_get metrics "revenueGrowth") in *.
  set (v6 := py_get metrics "beta") in *.
  score_metric H1 leverage_risk_table;
  score_metric H2 liquidity_risk_table;
  score_metric H3 valuation_risk_table;
  score_metric H4 profitability_risk_table;
  score_metric H5 growth_risk_table;
  score_metric H6 volatility_risk_table;
  (eexists; split; [reflexivity|]; split; [reflexivity|]; split;
   [ intros cat m Hin Hm;
     repeat (destruct Hin as [Hin|Hin];
             [injection Hin as <- <-;
              first [reflexivity
                    | exfalso; fold v1 v2 v3 v4 v5 v6 in Hm; subst;
                      match goal with
                      | Q : value_of ?v = Some _, Hm : ?v = PNone |- _ =>
                          rewrite Hm in Q; discriminate
                      end ]|]);
     destruct Hin
   | intros cat m qx Hin Hq;
     repeat (destruct Hin as [Hin|Hin];
             [injection Hin as <- <-; fold v1 v2 v3 v4 v5 v6 in Hq |- *;
              first [ match goal with
                      | N : ?v = PNone, Hq : value_of ?v = Some _ |- _ =>
                          rewrite N in Hq; discriminate
                      end
                    | match goal with
                      | Q : value_of ?v = Some (XFin ?q'), Hq : value_of ?v = Some (XFin qx),
                        T : _ ?q' ?l, NE : ?n <> "" |- _ =>
                          rewrite Q in Hq; injection Hq as <-;
                          exists l, n; split; [reflexivity | split; [exact NE | exact T]]
                      end ]|]);
     destruct Hin ]).
Qed.

End RiskFacts.

Section RiskClaims.
Import PyNum RiskAgent.

(** C2 as stated fails at one boundary: a trailing P/E of exactly 0 fails
    the test [pe > 0] of the Low bucket and falls to the next-listed
    bucket, which is High ("Negative earnings"), not a bucket of lower
    severity. *)
Lemma valuation_boundary_zero_not_lower :
  valuation_risk (PInt 0) = Ok (RInd "High" (PInt 0) "Negative earnings")
  /\ ~ (forall b, In b RiskSpec.boundaries -> RiskSpec.falls_lower b).
Proof.
  split; [reflexivity|]. intros H.
  destruct (H {| RiskSpec.b_scorer := valuation_risk; RiskSpec.b_value := PInt 0;
                 RiskSpec.b_bucket := "Low"; RiskSpec.b_next := "High" |})
    as (level & note & E & Hs).
  - cbn. tauto.
  - cbn in Hs. lia.
Qed.

(** C2, amended. When the fetched metrics are not the error sentinel and
    each of the six source metrics is absent ([None] or missing) or a
    finite number, [assess_financial_risk] returns the ticker, the company
    and exactly the categories whose metric is present, in the order
    leverage, liquidity, valuation, profitability, growth, volatility;
    an absent metric leaves its category out; a present one gives an
    indicator carrying the raw metric value, a non-empty note and the
    level of the specification's table.  The thresholds 0.05, -0.10 and
    1.2 of the table are the binary64 numbers nearest to them, written
    out as fractions: they are what the floats 0.05, -0.1 and 1.2 are
    worth, and they lie within 1e-16 of the decimals.  At each listed
    boundary the value falls to the next-listed bucket, which has lower
    severity except at P/E = 0, where the next-listed bucket is High. *)
Theorem assess_financial_risk_table :
  (forall p ticker,
      Dict.mem "error" (get_key_metrics p ticker) = false ->
      (forall cat m, In (cat, m) RiskSpec.categories ->
         py_get (get_key_metrics p ticker) m = PNone
         \/ exists q, value_of (py_get (get_key_metrics p ticker) m) = Some (XFin q)) ->
      exists r,
        assess_financial_risk p ticker = Ok r
        /\ Dict.keys r
           = "ticker" :: "company"
             :: RiskSpec.present_categories (get_key_metrics p ticker)
        /\ (forall cat m, In (cat, m) RiskSpec.categories ->
              py_get (get_key_metrics p ticker) m = PNone -> Dict.get r cat = None)
        /\ (forall cat m q, In (cat, m) RiskSpec.categories ->
              value_of (py_get (get_key_metrics p ticker) m) = Some (XFin q) ->
              exists level note,
                Dict.get r cat
                = Some (RInd level (py_get (get_key_metrics p ticker) m) note)
                /\ note <> "" /\ RiskSpec.table cat q level))
  /\ (forall b, In b RiskSpec.boundaries -> RiskSpec.falls_to_next b)
  /\ (forall b, In b RiskSpec.boundaries -> ~ RiskSpec.is_pe_zero b ->
                RiskSpec.falls_lower b)
  /\ ((exists c, value_of (RiskSpec.decimal false 5 (-2)) = Some (XFin c)
                 /\ c == RiskSpec.margin_cut)
      /\ (exists c, value_of (RiskSpec.decimal true 1 (-1)) = Some (XFin c)
                    /\ c == RiskSpec.growth_cut)
      /\ (exists c, value_of (RiskSpec.decimal false 12 (-1)) = Some (XFin c)
                    /\ c == RiskSpec.beta_cut))
  /\ (Qabs (RiskSpec.margin_cut - (5 # 100)) <= 1 # 10000000000000000
      /\ Qabs (RiskSpec.growth_cut - (-10 # 100)) <= 1 # 10000000000000000
      /\ Qabs (RiskSpec.beta_cut - (12 # 10)) <= 1 # 10000000000000000).
Proof.
  split; [|split; [|split; [|split]]].
  5:{ repeat split; vm_compute; discriminate. }
  4:{ repeat split; eexists; (split; [reflexivity | reflexivity]). }
  - intros p ticker. unfold assess_financial_risk. apply risk_indicators_table.
  - intros b Hb. unfold RiskSpec.falls_to_next.
    repeat (destruct Hb as [<-|Hb]; [eexists; reflexivity|]). destruct Hb.
  - intros b Hb Hz. unfold RiskSpec.falls_lower.
    repeat (destruct Hb as [<-|Hb];
            [first [ exfalso; apply Hz; split; reflexivity
                   | eexists; eexists; split; [reflexivity | cbn; lia] ]|]).
    destruct Hb.
Qed.

Lemma assess_financial_risk_table_witness :
  exists r,
    assess_financial_risk sample_provider "aapl" = Ok r
    /\ Dict.keys r
       = "ticker" :: "company"
         :: RiskSpec.present_categories (get_key_metrics sample_provider "aapl")
    /\ (forall cat m, In (cat, m) RiskSpec.categories ->
          py_get (get_key_metrics sample_provider "aapl") m = PNone ->
          Dict.get r cat = None)
    /\ (forall cat m q, In (cat, m) RiskSpec.categories ->
          value_of (py_get (get_key_metrics sample_provider "aapl") m)
          = Some (XFin q) ->
          exists level note,
            Dict.get r cat
            = Some (RInd level (py_get (get_key_metrics sample_provider "aapl") m) note)
            /\ note <> "" /\ RiskSpec.table cat q level).
Proof.
  apply (proj1 assess_financial_risk_table sample_provider "aapl").
  - reflexivity.
  - intros cat m Hin.
    repeat (destruct Hin as [Hin|Hin];
            [injection Hin as <- <-;
             first [left; reflexivity | right; eexists; reflexivity]|]).
    destruct Hin.
Defined.

End RiskClaims.

(** ** Retry helper and text generation *)

Section RetryFacts.
Import GeminiClient RetrySpec.

Lemma retry_from_attempts_bound {A} (fn : nat -> outcome A) remaining attempt last :
  (List.length (attempts (fst (retry_from fn attempt remaining last))) <= remaining)%nat.
Proof.
  revert attempt last. induction remaining as [|n IH]; intros attempt last; simpl.
  - lia.
  - destruct (fn attempt) as [a|e]; simpl; [lia|].
    destruct (retryable (exn_str e)); simpl; [|lia].
    specialize (IH (S attempt) (Some e)).
    destruct (retry_from fn (S attempt) n (Some e)) as [events result].
    simpl in *. lia.
Qed.

(** [k] retryable failures from attempt [a] on, then the rest of the
    loop. *)
Lemma retry_from_skip {A} (fn : nat -> outcome A) k :
  forall a remaining last,
    (forall j, (j < k)%nat ->
       exists e, fn (a + j)%nat = Raise e /\ retryable (exn_str e) = true) ->
    exists last',
      retry_from fn a (k + remaining) last
      = (backoff_trace a k ++ fst (retry_from fn (a + k) remaining last'),
         snd (retry_from fn (a + k) remaining last'))%list
      /\ (k = O -> last' = last)
      /\ (forall k', k = S k' -> exists e, fn (a + k')%nat = Raise e /\ last' = Some e).
Proof.
  induction k as [|k IH]; intros a remaining last H.
  - exists last. rewrite Nat.add_0_r. simpl.
    split; [now destruct (retry_from fn a remaining last)|].
    split; [reflexivity | discriminate].
  - destruct (H O ltac:(lia)) as (e & He & Hr). rewrite Nat.add_0_r in He.
    destruct (IH (S a) remaining (Some e)) as (last' & E & H0 & HS).
    { intros j Hj. destruct (H (S j) ltac:(lia)) as (e' & He' & Hr').
      exists e'. split; [|exact Hr']. rewrite <- He'. f_equal. lia. }
    exists last'. simpl. rewrite He, Hr, E.
    replace (a + S k)%nat with (S a + k)%nat by lia.
    split; [reflexivity|]. split; [discriminate|].
    intros k' [= <-]. destruct k as [|k''].
    + exists e. rewrite Nat.add_0_r. split; [exact He | now apply H0].
    + destruct (HS k'' eq_refl) as (e' & He' & ->).
      exists e'. split; [|reflexivity]. rewrite <- He'. f_equal. lia.
Qed.




(** After [k] retryable failures the loop is at attempt [k]. *)
Lemma retry_stops {A} (fn : nat -> outcome A) n k :
  (k < n)%nat -> fails_retryably fn k ->
  exists last',
    _call_with_retry fn n
    = ((backoff_trace 0 k ++ fst (retry_from fn k (n - k) last'))%list,
       snd (retry_from fn k (n - k) last')).
Proof.
  intros Hk Hf. unfold _call_with_retry.
  destruct (retry_from_skip fn k 0 (n - k) None) as (last' & E & _).
  - intros j Hj. exact (Hf j Hj).
  - exists last'. replace (k + (n - k))%nat with n in E by lia. exact E.
Qed.

(** When all the attempts fail retryably the last error is raised. *)
Lemma retry_exhausted {A} (fn : nat -> outcome A) n :
  fails_retryably fn (S n) ->
  exists e, fn n = Raise e
            /\ _call_with_retry fn (S n) = (backoff_trace 0 (S n), Raise e).
Proof.
  intros Hf. unfold _call_with_retry.
  destruct (retry_from_skip fn (S n) 0 0 None) as (last' & E & _ & HS).
  - intros j Hj. exact (Hf j Hj).
  - destruct (HS n eq_refl) as (e & He & ->). exists e. split; [exact He|].
    rewrite Nat.add_0_r in E. rewrite E. cbn [retry_from fst snd].
    now rewrite app_nil_r.
Qed.

End RetryFacts.

Section RetryClaims.
Import GeminiClient RetrySpec.

(** C5. [_call_with_retry] makes at most [max_retries] attempts, 4 by
    default.  The errors it retries are exactly those whose text carries
    a rate-limit or server-busy signal: "429", "503" or "Resource
    exhausted".  After such an error it sleeps [2^attempt + 1] seconds,
    that is 2, 3, 5 and 9, and goes on; an error without such a signal
    is re-raised at once, with no wait and no further attempt; a success
    is returned at once.  When every attempt up to the cap fails with
    such a signal the helper ends by raising the last error, and
    [generate] then returns that error behind the prefix
    "Error generating response: ". *)
Theorem call_with_retry_policy :
  (forall A (fn : nat -> outcome A) n,
      (List.length (attempts (fst (_call_with_retry fn n))) <= n)%nat)
  /\ default_max_retries = 4%nat
  /\ waits (backoff_trace 0 4) = [2; 3; 5; 9]%Z
  /\ (forall A (fn : nat -> outcome A) n e,
        (0 < n)%nat -> fn 0%nat = Raise e ->
        (busy_signal (exn_str e) = true ->
         exists events, fst (_call_with_retry fn n) = Attempt 0 :: Sleep 2 :: events)
        /\ (busy_signal (exn_str e) = false ->
            _call_with_retry fn n = ([Attempt 0], Raise e)))
  /\ (forall A (fn : nat -> outcome A) n k e,
        (k < n)%nat -> fails_retryably fn k ->
        fn k = Raise e -> busy_signal (exn_str e) = false ->
        _call_with_retry fn n = ((backoff_trace 0 k ++ [Attempt k])%list, Raise e))
  /\ (forall A (fn : nat -> outcome A) n k a,
        (k < n)%nat -> fails_retryably fn k -> fn k = Ok a ->
        _call_with_retry fn n = ((backoff_trace 0 k ++ [Attempt k])%list, Ok a))
  /\ (forall A (fn : nat -> outcome A) n,
        fails_retryably fn (S n) ->
        exists e, fn n = Raise e
                  /\ _call_with_retry fn (S n) = (backoff_trace 0 (S n), Raise e))
  /\ (forall m req,
        fails_retryably (m req) 4 ->
        exists e, m req 3%nat = Raise e
                  /\ generate_traced m req
                     = (backoff_trace 0 4, "Error generating response: " ++ exn_str e)).
Proof.
  split; [|split; [|split; [|split; [|split; [|split; [|split]]]]]];
    try reflexivity.
  - intros A fn n. apply retry_from_attempts_bound.
  - intros A fn n e Hn He. unfold _call_with_retry.
    destruct n as [|n]; [lia|]. cbn [retry_from]. rewrite He.
    change (retryable (exn_str e)) with (busy_signal (exn_str e)).
    split; intros Hs; rewrite Hs; [|reflexivity].
    destruct (retry_from fn 1 n (Some e)) as [events result].
    exists events. reflexivity.
  - intros A fn n k e Hk Hf He Hr.
    destruct (retry_stops fn n k Hk Hf) as (last' & ->).
    destruct (n - k)%nat as [|r] eqn:Er; [lia|].
    cbn [retry_from]. rewrite He.
    change (retryable (exn_str e)) with (busy_signal (exn_str e)).
    now rewrite Hr.
  - intros A fn n k a Hk Hf Ha.
    destruct (retry_stops fn n k Hk Hf) as (last' & ->).
    destruct (n - k)%nat as [|r] eqn:Er; [lia|].
    cbn [retry_from]. now rewrite Ha.
  - intros A fn n. apply retry_exhausted.
  - intros m req Hf. destruct (retry_exhausted (m req) 3%nat Hf) as (e & He & E).
    exists e. split; [exact He|]. unfold generate_traced.
    change default_max_retries with 4%nat. now rewrite E.
Qed.

Lemma call_with_retry_policy_witness :
  (exists e, busy_model (request "hello" None) 3%nat = Raise e
             /\ generate_traced busy_model (request "hello" None)
                = (backoff_trace 0 4, "Error generating response: " ++ exn_str e))
  /\ _call_with_retry (fun _ : nat => @Raise string bad_request) 4
     = ([Attempt 0], Raise bad_request)
  /\ _call_with_retry flaky_call 4
     = ([Attempt 0; Sleep 2; Attempt 1], Ok "done")
  /\ _call_with_retry crowded_call 4
     = ([Attempt 0; Sleep 2; Attempt 1; Sleep 3; Attempt 2; Sleep 5; Attempt 3],
        Ok "done").
Proof.
  destruct call_with_retry_policy as (_ & _ & _ & _ & Hother & Hok & _ & Hgen).
  split; [|split; [|split]].
  - apply Hgen. intros j _. exists rate_limited. split; reflexivity.
  - apply (Hother string (fun _ => Raise bad_request) 4%nat 0%nat bad_request).
    + lia.
    + intros j Hj. lia.
    + reflexivity.
    + reflexivity.
  - apply (Hok string flaky_call 4%nat 1%nat "done").
    + lia.
    + intros j Hj. assert (j = 0)%nat as -> by lia.
      exists rate_limited. split; reflexivity.
    + reflexivity.
  - apply (Hok string crowded_call 4%nat 3%nat "done").
    + lia.
    + intros j Hj.
      destruct j as [|[|[|j]]]; [| | |lia];
        eexists; (split; [reflexivity | reflexivity]).
    + reflexivity.
Defined.




Example extract_pdf_text_sample :
  _extract_pdf_text (reader sample_document)
  = "--- Page 1 ---" ++ nl ++ "Revenue grew 10%".
Proof. reflexivity. Qed.

Example double_failure_sample :
  analyze_document busy_model
    {| tempfile := Ok tt;
       upload_and_generate := fun _ => Raise rate_limited;
       reader := Raise {| exn_class := OtherError; exn_str := "EOF marker not found" |} |}
    "Summarise" "report.pdf"
  = "Error analyzing document: 429 Resource exhausted" ++ nl ++ nl
    ++ "Additionally, could not extract text from the PDF for a fallback analysis.  Please try again in a minute.".
Proof. reflexivity. Qed.

Example truncate_long_text :
  String.eqb
    (truncate (string_of_list_ascii (repeat "x"%char (N.to_nat 60001))))
    (string_of_list_ascii (repeat "x"%char (N.to_nat 60000))
     ++ nl ++ nl ++ "... [text truncated] ...")
  = true.
Proof. vm_compute. reflexivity. Qed.

End RetryClaims.

(** ** Agents on the error sentinel *)

Section SentinelClaims.

Lemma key_metrics_sentinel p ticker msg :
  get_stock_info p ticker = [("error", msg)] ->
  get_key_metrics p ticker = [("error", msg)].
Proof. intros H. unfold get_key_metrics. now rewrite H. Qed.

(** The sibling path that does short-circuit: the market agent answers
    with the error text of the overview and makes no generation call. *)
Lemma market_agent_short_circuits p ticker query msg :
  get_stock_info p ticker = [("error", msg)] ->
  MarketDataAgent.analyze_with_ai p ticker query
  = Ok (Reply ("Could not fetch data for " ++ ticker ++ ": " ++ py_str msg)).
Proof.
  intros H. unfold MarketDataAgent.analyze_with_ai, MarketDataAgent.get_company_overview.
  rewrite (key_metrics_sentinel _ _ _ H). reflexivity.
Qed.

(** C4 (the code does not do this). When the data provider returns the
    error sentinel for a ticker, the risk agent's
    [comprehensive_risk_analysis] still ends with a generation call, on a
    prompt whose data block holds only "N/A" and in which the error
    message does not appear, and the report agent's
    [generate_investment_thesis] raises [ValueError] while formatting the
    missing employee count; neither returns the sentinel's message. *)
Theorem agents_ignore_error_sentinel :
  forall p ticker msg,
    get_stock_info p ticker = [("error", msg)] ->
    RiskAgent.comprehensive_risk_analysis p ticker
    = Ok (Generate
            (request
               ("Provide a comprehensive risk assessment for " ++ PyStr.upper ticker
                 ++ " based on the data below:" ++ nl
                 ++ nl
                 ++ (nl ++ "Company: " ++ ticker ++ " (" ++ PyStr.upper ticker ++ ")" ++ nl
                     ++ nl
                     ++ "FINANCIAL METRICS:" ++ nl
                     ++ "- Market Cap: N/A" ++ nl
                     ++ "- Revenue: N/A" ++ nl
                     ++ "- Revenue Growth: N/A" ++ nl
                     ++ "- Gross Margins: N/A" ++ nl
                     ++ "- Operating Margins: N/A" ++ nl
                     ++ "- Net Margins: N/A" ++ nl
                     ++ "- Debt/Equity: N/A" ++ nl
                     ++ "- Current Ratio: N/A" ++ nl
                     ++ "- P/E Ratio: N/A" ++ nl
                     ++ "- Beta: N/A" ++ nl
                     ++ "- ROE: N/A" ++ nl
                     ++ "- Free Cash Flow: N/A" ++ nl
                     ++ nl
                     ++ "QUANTITATIVE RISK ASSESSMENT:" ++ nl) ++ nl
                 ++ RiskAgent.risk_report_outline)
               (Some RiskAgent.SYSTEM_INSTRUCTION)))
    /\ ReportAgent.generate_investment_thesis p ticker
       = Raise {| exn_class := ValueError;
                  exn_str := "Cannot specify ',' with 's'." |}.
Proof.
  intros p ticker msg H. split.
  - unfold RiskAgent.comprehensive_risk_analysis, RiskAgent.assess_financial_risk.
    rewrite (key_metrics_sentinel _ _ _ H). reflexivity.
  - unfold ReportAgent.generate_investment_thesis.
    rewrite (key_metrics_sentinel _ _ _ H). reflexivity.
Qed.

Lemma agents_ignore_error_sentinel_witness :
  (exists req,
      RiskAgent.comprehensive_risk_analysis sentinel_provider "ZZZZ"
      = Ok (Generate req))
  /\ ReportAgent.generate_investment_thesis sentinel_provider "ZZZZ"
     = Raise {| exn_class := ValueError;
                exn_str := "Cannot specify ',' with 's'." |}.
Proof.
  destruct (agents_ignore_error_sentinel sentinel_provider "ZZZZ"
              (PStr "No data returned for ZZZZ") eq_refl) as [Hrisk Hreport].
  split; [eexists; exact Hrisk | exact Hreport].
Defined.

End SentinelClaims.

(** ** Comparison operations and duplicate tickers *)

Section DictFacts.
Context {V : Type}.

Lemma get_set_same (d : Dict.dict V) k v : Dict.get (Dict.set d k v) k = Some v.
Proof.
  induction d as [|[k' v'] d IH]; simpl.
  - now rewrite String.eqb_refl.
  - destruct (String.eqb k' k) eqn:E; simpl; rewrite E; [reflexivity | exact IH].
Qed.

Lemma get_set_other (d : Dict.dict V) k k' v :
  k <> k' -> Dict.get (Dict.set d k v) k' = Dict.get d k'.
Proof.
  intros Hne. induction d as [|[k0 v0] d IH]; simpl.
  - destruct (String.eqb_spec k k'); [contradiction | reflexivity].
  - destruct (String.eqb_spec k0 k) as [->|Hk]; simpl.
    + destruct (String.eqb_spec k k'); [contradiction | reflexivity].
    + destruct (String.eqb k0 k'); [reflexivity | exact IH].
Qed.

Lemma set_same_value (d : Dict.dict V) k v :
  Dict.get d k = Some v -> Dict.set d k v = d.
Proof.
  induction d as [|[k' v'] d IH]; simpl; [discriminate|].
  destruct (String.eqb k' k) eqn:E.
  - now intros [= ->].
  - intros H. now rewrite IH.
Qed.

Lemma keys_set_fresh (d : Dict.dict V) k v :
  Dict.get d k = None -> Dict.keys (Dict.set d k v) = (Dict.keys d ++ [k])%list.
Proof.
  induction d as [|[k' v'] d IH]; simpl; [reflexivity|].
  destruct (String.eqb k' k) eqn:E; [discriminate|].
  intros H. simpl. now rewrite (IH H).
Qed.

Lemma seen_in_keys (d : Dict.dict V) k :
  CompareSpec.seen_in (Dict.keys d) k = true <-> exists v, Dict.get d k = Some v.
Proof.
  unfold CompareSpec.seen_in. induction d as [|[k' v'] d IH]; simpl.
  - split; [discriminate | intros [v H]; discriminate].
  - rewrite (String.eqb_sym k k'). destruct (String.eqb k' k); simpl.
    + split; [eauto | reflexivity].
    + exact IH.
Qed.

End DictFacts.

Section CollectFacts.
Import CompareSpec.

Lemma lstrip_idem s : PyStr.lstrip (PyStr.lstrip s) = PyStr.lstrip s.
Proof.
  induction s as [|c s IH]; simpl; [reflexivity|].
  destruct (PyStr.is_space c) eqn:E; [exact IH | simpl; now rewrite E].
Qed.

Lemma strip_idem s : PyStr.strip (PyStr.strip s) = PyStr.strip s.
Proof.
  unfold PyStr.strip. now rewrite lstrip_rstrip, lstrip_idem, rstrip_idem.
Qed.

Lemma upper_char_idem c : PyStr.upper_char (PyStr.upper_char c) = PyStr.upper_char c.
Proof. destruct c as [[] [] [] [] [] [] [] []]; reflexivity. Qed.

Lemma upper_idem s : PyStr.upper (PyStr.upper s) = PyStr.upper s.
Proof.
  unfold PyStr.upper. induction s as [|c s IH]; simpl; [reflexivity|].
  now rewrite IH, upper_char_idem.
Qed.

(** Normalizing a normalized ticker changes nothing. *)
Lemma normalize_idem t : normalize (normalize t) = normalize t.
Proof.
  unfold normalize. now rewrite <- upper_strip, upper_idem, strip_idem.
Qed.

Lemma dedup_from_ext s1 s2 l :
  (forall x, seen_in s1 x = seen_in s2 x) -> dedup_from s1 l = dedup_from s2 l.
Proof.
  revert s1 s2. induction l as [|x l IH]; intros s1 s2 H; simpl; [reflexivity|].
  rewrite (H x). destruct (seen_in s2 x); [now apply IH|].
  f_equal. apply IH. intros y. unfold seen_in in *. simpl. now rewrite H.
Qed.

Lemma seen_in_app s x y :
  seen_in (s ++ [x])%list y = seen_in (x :: s) y.
Proof.
  unfold seen_in. rewrite existsb_app. simpl.
  rewrite orb_false_r. apply orb_comm.
Qed.

(** On normalized keys the loop is a plain left-to-right insertion. *)
Section OneFetch.
Context {V : Type} (fetch : string -> outcome V).

Lemma consistent_set acc k v :
  consistent fetch acc -> fetch k = Ok v -> consistent fetch (Dict.set acc k v).
Proof.
  intros Hc Hk k' v' H. destruct (String.eqb_spec k k') as [<-|Hne].
  - rewrite get_set_same in H. now injection H as <-.
  - rewrite get_set_other in H by assumption. now apply Hc.
Qed.

Lemma collect_dedup tickers :
  forall acc,
    consistent fetch acc ->
    collect fetch tickers acc
    = collect fetch (dedup_from (Dict.keys acc) (map normalize tickers)) acc.
Proof.
  induction tickers as [|t rest IH]; intros acc Hc; [reflexivity|].
  cbn [map dedup_from]. set (k := normalize t).
  destruct (seen_in (Dict.keys acc) k) eqn:Hs.
  - apply seen_in_keys in Hs. destruct Hs as [v Hv].
    cbn [collect]. fold k. rewrite (Hc _ _ Hv). cbn [bind].
    rewrite (set_same_value _ _ _ Hv). now apply IH.
  - cbn [collect]. fold k. replace (normalize k) with k
      by (unfold k; now rewrite normalize_idem).
    destruct (fetch k) as [v|e] eqn:Hf; [|reflexivity]. cbn [bind].
    rewrite IH by now apply consistent_set.
    f_equal. apply dedup_from_ext. intros x.
    rewrite keys_set_fresh; [apply seen_in_app|].
    destruct (Dict.get acc k) eqn:Hg; [|reflexivity].
    assert (seen_in (Dict.keys acc) k = true) by (apply seen_in_keys; eauto).
    congruence.
Qed.

Lemma collect_distinct tickers :
  collect fetch tickers Dict.empty = collect fetch (distinct tickers) Dict.empty.
Proof. apply (collect_dedup tickers Dict.empty). intros k v H. discriminate. Qed.

Lemma collect_keys tickers :
  forall acc d,
    consistent fetch acc ->
    collect fetch tickers acc = Ok d ->
    Dict.keys d = (Dict.keys acc ++ dedup_from (Dict.keys acc) (map normalize tickers))%list
    /\ consistent fetch d.
Proof.
  induction tickers as [|t rest IH]; intros acc d Hc H.
  - injection H as <-. cbn. now rewrite app_nil_r.
  - cbn [collect] in H. cbn [map dedup_from]. set (k := normalize t) in *.
    destruct (fetch k) as [v|e] eqn:Hf; [|discriminate]. cbn [bind] in H.
    destruct (IH _ _ (consistent_set _ _ _ Hc Hf) H) as [Hk Hd].
    split; [|exact Hd]. rewrite Hk.
    destruct (seen_in (Dict.keys acc) k) eqn:Hs.
    + apply seen_in_keys in Hs. destruct Hs as [v0 Hv0].
      assert (v0 = v) by (apply Hc in Hv0; congruence). subst v0.
      now rewrite (set_same_value _ _ _ Hv0).
    + assert (Hg : Dict.get acc k = None).
      { destruct (Dict.get acc k) eqn:Hg; [|reflexivity].
        assert (seen_in (Dict.keys acc) k = true) by (apply seen_in_keys; eauto).
        congruence. }
      rewrite (keys_set_fresh _ _ _ Hg), <- app_assoc. cbn [app].
      do 2 f_equal. apply dedup_from_ext. intros x. apply seen_in_app.
Qed.

(** The dictionary built by the loop: one entry per distinct normalized
    ticker, in order of first occurrence, holding what was fetched for
    it. *)
Lemma collect_entries tickers d :
  collect fetch tickers Dict.empty = Ok d ->
  Dict.keys d = distinct tickers
  /\ (forall k, In k (distinct tickers) ->
        exists v, Dict.get d k = Some v /\ fetch k = Ok v).
Proof.
  intros H.
  destruct (collect_keys tickers Dict.empty d) as [Hk Hc];
    [intros k v Hg; discriminate | exact H |].
  cbn in Hk. split; [exact Hk|]. intros k Hin.
  assert (Hs : seen_in (Dict.keys d) k = true).
  { rewrite Hk. unfold seen_in. apply existsb_exists. exists k.
    split; [exact Hin | apply String.eqb_refl]. }
  apply seen_in_keys in Hs. destruct Hs as [v Hv]. exists v. split; [exact Hv|].
  now apply Hc.
Qed.

End OneFetch.






End CollectFacts.

Section ComparisonClaims.
Import CompareSpec.



Example distinct_sample :
  distinct [" aapl"; "MSFT "; "AAPL"; "msft"] = ["AAPL"; "MSFT"].
Proof. reflexivity. Qed.

(** The prompt of [generate_comparison_report] opens with the tickers as
    they were passed, so only its data blocks, not the whole prompt, are
    those of the deduplicated list. *)
Remark comparison_report_header_lists_raw_tickers :
  ReportAgent.generate_comparison_report sample_provider ["aapl"; "AAPL"]
  <> ReportAgent.generate_comparison_report sample_provider (distinct ["aapl"; "AAPL"]).
Proof. vm_compute. intros H. discriminate H. Qed.

End ComparisonClaims.

(** ** The extracted tickers *)

Section TickerFacts.
Import PyStr.

Lemma all_chars_lstrip p s : all_chars p s = true -> all_chars p (lstrip s) = true.
Proof.
  induction s as [|c s IH]; simpl; [easy|].
  intros H. apply andb_prop in H as [Hc Hs].
  destruct (is_space c); [now apply IH | simpl; now rewrite Hc, Hs].
Qed.

Lemma all_chars_rstrip p s : all_chars p s = true -> all_chars p (rstrip s) = true.
Proof.
  induction s as [|c s IH]; simpl; [easy|].
  intros H. apply andb_prop in H as [Hc Hs]. specialize (IH Hs).
  destruct (rstrip s) as [|c' r].
  - destruct (is_space c); simpl; [reflexivity | now rewrite Hc].
  - change (all_chars p (String c (String c' r))) with (p c && all_chars p (String c' r)).
    now rewrite Hc, IH.
Qed.

Lemma all_chars_strip p s : all_chars p s = true -> all_chars p (strip s) = true.
Proof. intros H. unfold strip. now apply all_chars_rstrip, all_chars_lstrip. Qed.

Lemma all_chars_split p sep s :
  all_chars p s = true -> forall t, In t (split sep s) -> all_chars p t = true.
Proof.
  induction s as [|c s IH]; simpl.
  - intros _ t [<-|[]]. reflexivity.
  - intros H t Hin. apply andb_prop in H as [Hc Hs].
    destruct (Ascii.eqb c sep).
    + destruct Hin as [<-|Hin]; [reflexivity | now apply IH].
    + destruct (split sep s) as [|h rest] eqn:E.
      * destruct Hin as [<-|[]]. simpl. now rewrite Hc.
      * destruct Hin as [<-|Hin].
        -- simpl. rewrite Hc. apply IH; [exact Hs | now left].
        -- apply IH; [exact Hs | now right].
Qed.

Lemma upper_char_not_lower c : Props.not_lower (upper_char c) = true.
Proof. destruct c as [[] [] [] [] [] [] [] []]; reflexivity. Qed.

Lemma upper_not_lower s : all_chars Props.not_lower (upper s) = true.
Proof.
  unfold upper. induction s as [|c s IH]; simpl; [reflexivity|].
  now rewrite upper_char_not_lower, IH.
Qed.

Lemma alpha_not_lower_upper c :
  is_alpha c = true -> Props.not_lower c = true -> is_upper c = true.
Proof.
  unfold is_alpha, Props.not_lower. destruct (is_lower c); simpl; [discriminate|].
  now rewrite orb_false_r.
Qed.

Lemma all_upper_of_alpha s :
  all_chars is_alpha s = true -> all_chars Props.not_lower s = true ->
  all_chars is_upper s = true.
Proof.
  induction s as [|c s IH]; simpl; [easy|].
  intros H1 H2. apply andb_prop in H1 as [A1 A2]. apply andb_prop in H2 as [B1 B2].
  now rewrite (alpha_not_lower_upper c A1 B1), IH.
Qed.

Lemma upper_fixed s : all_chars Props.not_lower s = true -> upper s = s.
Proof.
  unfold upper. induction s as [|c s IH]; simpl; [easy|].
  intros H. apply andb_prop in H as [Hc Hs]. rewrite (IH Hs).
  unfold upper_char. unfold Props.not_lower in Hc.
  now destruct (is_lower c).
Qed.

(** X1. Every ticker the orchestrator extracts from a model reply of 7-bit
    (ASCII) characters is a non-empty run of the upper-case letters A to
    Z, and normalizing it (as the comparison operations do) leaves it
    unchanged. *)
Theorem extracted_tickers_are_symbols :
  forall raw t,
    PyStr.isascii raw = true ->
    In t (Orchestrator.tickers_of_result raw) ->
    t <> ""
    /\ all_chars is_upper t = true
    /\ normalize t = t.
Proof.
  intros raw t _. unfold Orchestrator.tickers_of_result. cbv zeta.
  destruct (_ || _); [intros []|].
  intros Hin. apply in_map_iff in Hin as (tok & <- & Hin).
  apply filter_In in Hin as [Hin Halpha].
  unfold isalpha in Halpha. apply andb_prop in Halpha as [Hne Hal].
  assert (Hnl : all_chars Props.not_lower (strip tok) = true).
  { apply all_chars_strip. apply (all_chars_split _ ","%char (upper (strip raw)) (upper_not_lower _)).
    exact Hin. }
  split; [|split].
  - intros E. rewrite E in Hne. discriminate.
  - now apply all_upper_of_alpha.
  - unfold normalize. rewrite strip_idem. now apply upper_fixed.
Qed.

Lemma extracted_tickers_are_symbols_witness :
  PyStr.isascii " aapl, msft ,, x1" = true
  /\ In "MSFT" (Orchestrator.tickers_of_result " aapl, msft ,, x1")
  /\ "MSFT" <> ""
  /\ all_chars is_upper "MSFT" = true
  /\ normalize "MSFT" = "MSFT".
Proof.
  assert (H : In "MSFT" (Orchestrator.tickers_of_result " aapl, msft ,, x1"))
    by (vm_compute; auto).
  split; [reflexivity|]. split; [exact H|].
  exact (extracted_tickers_are_symbols " aapl, msft ,, x1" "MSFT" eq_refl H).
Defined.

End TickerFacts.

(** ** The handlers and the number of tickers *)

(** X2. The handler chosen by [process_query] fits the number of tickers:
    the general answer is given exactly when there is none; the
    single-company risk, sentiment, market and composite handlers are
    chosen only for exactly one ticker; the comparison handlers only for
    two or more, and they get the whole list; the thesis, earnings and
    filing handlers take the first ticker, whatever follows it. *)
Theorem route_handler_fits_tickers :
  forall intent tickers query,
    match Orchestrator.route intent tickers query with
    | Orchestrator.GeneralAnswer q => tickers = [] /\ q = query
    | Orchestrator.InvestmentThesis t
    | Orchestrator.EarningsAnalysis t => exists rest, tickers = t :: rest
    | Orchestrator.FilingAnalysis t q => (exists rest, tickers = t :: rest) /\ q = query
    | Orchestrator.ComprehensiveRisk t
    | Orchestrator.Sentiment t => tickers = [t]
    | Orchestrator.MarketAnalysis t q
    | Orchestrator.ComprehensiveSingle t q => tickers = [t] /\ q = query
    | Orchestrator.ComparisonReport ts
    | Orchestrator.CompareRisks ts
    | Orchestrator.NewsBatch ts => ts = tickers /\ (2 <= List.length tickers)%nat
    | Orchestrator.MarketCompare ts q =>
        ts = tickers /\ (2 <= List.length tickers)%nat /\ q = query
    end.
Proof.
  intros intent tickers query. unfold Orchestrator.route.
  destruct tickers as [|t [|t' T]];
    cbn [Orchestrator.truthy Orchestrator.first hd List.length Nat.leb Nat.ltb];
    repeat match goal with
           | |- context [PyStr.contains ?k intent] =>
               destruct (PyStr.contains k intent); cbn [andb]
           end;
    repeat split; try reflexivity; try (eexists; reflexivity); simpl; lia.
Qed.

(** ** The time spent waiting *)

Section RetryBudget.
Import GeminiClient RetrySpec.

Lemma waits_retry_from {A} (fn : nat -> outcome A) remaining :
  forall attempt last,
    exists k, (k <= remaining)%nat
      /\ waits (fst (retry_from fn attempt remaining last))
         = map (fun j => (2 ^ Z.of_nat j + 1)%Z) (seq attempt k).
Proof.
  induction remaining as [|r IH]; intros attempt last.
  - exists 0%nat. split; [lia | reflexivity].
  - cbn [retry_from]. destruct (fn attempt) as [a|e].
    + exists 0%nat. split; [lia | reflexivity].
    + destruct (retryable (exn_str e)).
      * destruct (IH (S attempt) (Some e)) as (k & Hk & E).
        destruct (retry_from fn (S attempt) r (Some e)) as [events result].
        exists (S k). split; [lia|]. cbn [fst] in *.
        cbn [waits flat_map app seq map]. f_equal. exact E.
      * exists 0%nat. split; [lia | reflexivity].
Qed.

Lemma schedule_sum k :
  forall a,
    fold_right Z.add 0%Z (map (fun j => (2 ^ Z.of_nat j + 1)%Z) (seq a k))
    = (2 ^ Z.of_nat (a + k) - 2 ^ Z.of_nat a + Z.of_nat k)%Z.
Proof.
  induction k as [|k IH]; intros a.
  - rewrite Nat.add_0_r. simpl. lia.
  - cbn [seq map fold_right]. rewrite IH.
    replace (S a + k)%nat with (a + S k)%nat by lia.
    replace (Z.of_nat (S a)) with (Z.of_nat a + 1)%Z by lia.
    rewrite Z.pow_add_r by lia. lia.
Qed.

(** X3. However the calls fail, [_call_with_retry] waits according to the
    schedule 2, 3, 5, 9, ... seconds from its start, and in total at most
    [2^n + n - 1] seconds over its [n] attempts; one [generate] call
    therefore spends at most 19 seconds asleep. *)
Theorem retry_waits_follow_schedule :
  (forall A (fn : nat -> outcome A) n,
      (exists k, (k <= n)%nat
                 /\ waits (fst (_call_with_retry fn n)) = Props.schedule k)
      /\ (Props.total_wait (fst (_call_with_retry fn n))
          <= 2 ^ Z.of_nat n + Z.of_nat n - 1)%Z)
  /\ (forall m req,
        (Props.total_wait (fst (generate_traced m req)) <= 19)%Z).
Proof.
  assert (H : forall A (fn : nat -> outcome A) n,
      (exists k, (k <= n)%nat
                 /\ waits (fst (_call_with_retry fn n)) = Props.schedule k)
      /\ (Props.total_wait (fst (_call_with_retry fn n))
          <= 2 ^ Z.of_nat n + Z.of_nat n - 1)%Z).
  { intros A fn n. unfold _call_with_retry.
    destruct (waits_retry_from fn n 0%nat None) as (k & Hk & E).
    split; [exists k; split; [exact Hk | exact E]|].
    unfold Props.total_wait. rewrite E, schedule_sum. cbn [Nat.add Z.of_nat].
    assert (2 ^ Z.of_nat k <= 2 ^ Z.of_nat n)%Z by (apply Z.pow_le_mono_r; lia).
    change (2 ^ 0)%Z with 1%Z. lia. }
  split; [exact H|].
  intros m req. unfold generate_traced.
  destruct (H gen_response (m req) default_max_retries) as [_ Hb].
  destruct (_call_with_retry (m req) default_max_retries) as [events result].
  cbn [fst] in *. exact Hb.
Qed.

End RetryBudget.

(** ** Text extracted from a PDF *)

Section PdfText.
Import GeminiClient.

Lemma join_empty_iff sep l :
  Forall (fun x => x <> "") l -> (PyStr.join sep l = "" <-> l = []).
Proof.
  intros H. split; [|now intros ->].
  destruct H as [|x rest Hx _]; [reflexivity|].
  intros Hj. exfalso. destruct rest as [|y rest]; cbn [PyStr.join] in Hj;
    [congruence|]. destruct x; [congruence | discriminate].
Qed.

Lemma page_blocks_nonempty pages :
  forall i, Forall (fun x => x <> "") (flat_map Props.page_block (enumerate i pages)).
Proof.
  induction pages as [|p pages IH]; intros i; cbn [enumerate flat_map];
    [constructor|].
  apply Forall_app. split; [|apply IH].
  unfold Props.page_block. cbn [fst snd].
  destruct (PyStr.is_empty _); constructor; [discriminate | constructor].
Qed.

Lemma page_blocks_nil pages :
  forall i,
    flat_map Props.page_block (enumerate i pages) = []
    <-> forallb Props.blank_page pages = true.
Proof.
  induction pages as [|p pages IH]; intros i; cbn [enumerate flat_map forallb].
  - split; reflexivity.
  - unfold Props.page_block at 1. cbn [fst snd]. unfold Props.blank_page at 1.
    destruct (PyStr.is_empty (PyStr.strip match p with Some t => t | None => "" end)).
    + cbn [app andb]. apply IH.
    + cbn [andb]. split; discriminate.
Qed.

(** X4. For a PDF whose pages hold 7-bit text, [_extract_pdf_text] gives
    the empty text exactly when the PDF could not be read or every page
    is blank (no text, or white space only): a scanned document has no
    fallback text. *)
Theorem extract_pdf_text_empty_iff :
  forall reader,
    Props.ascii_pages reader = true ->
    (_extract_pdf_text reader = ""
     <-> match reader with
         | Raise _ => True
         | Ok pages => forallb Props.blank_page pages = true
         end).
Proof.
  intros [pages|e] _; cbn [_extract_pdf_text]; [|split; auto].
  change (PyStr.join (nl ++ nl) (flat_map Props.page_block (enumerate 0 pages)) = ""
          <-> forallb Props.blank_page pages = true).
  rewrite (join_empty_iff _ _ (page_blocks_nonempty pages 0%N)).
  apply page_blocks_nil.
Qed.

Lemma extract_pdf_text_empty_iff_witness :
  Props.ascii_pages (Ok [None; Some "  "; Some ""]) = true
  /\ _extract_pdf_text (Ok [None; Some "  "; Some ""]) = ""
  /\ Props.ascii_pages (reader sample_document) = true
  /\ _extract_pdf_text (reader sample_document) <> "".
Proof.
  split; [reflexivity|]. split.
  - apply (proj2 (extract_pdf_text_empty_iff (Ok [None; Some "  "; Some ""]) eq_refl)).
    reflexivity.
  - split; [reflexivity|]. intros H.
    apply (proj1 (extract_pdf_text_empty_iff (reader sample_document) eq_refl)) in H.
    discriminate H.
Defined.

End PdfText.

(** ** The market-data payload *)

Section DictMore.
Context {V : Type}.

Lemma get_pop_same (d : Dict.dict V) k : Dict.get (dict_pop d k) k = None.
Proof.
  induction d as [|[k' v] d IH]; [reflexivity|]. cbn [dict_pop].
  destruct (String.eqb k' k) eqn:E; [exact IH|]. cbn [Dict.get]. now rewrite E.
Qed.

Lemma get_pop_other (d : Dict.dict V) k k' :
  k <> k' -> Dict.get (dict_pop d k) k' = Dict.get d k'.
Proof.
  intros Hne. induction d as [|[k0 v] d IH]; [reflexivity|]. cbn [dict_pop].
  destruct (String.eqb k0 k) eqn:E.
  - apply String.eqb_eq in E. subst k0. cbn [Dict.get].
    destruct (String.eqb k k') eqn:E'; [apply String.eqb_eq in E'; congruence | exact IH].
  - cbn [Dict.get]. now rewrite IH.
Qed.

Lemma mem_pop_same (d : Dict.dict V) k : Dict.mem k (dict_pop d k) = false.
Proof. unfold Dict.mem. now rewrite get_pop_same. Qed.

Lemma get_none_keys (d : Dict.dict V) k : Dict.get d k = None <-> ~ In k (Dict.keys d).
Proof.
  induction d as [|[k' v] d IH]; cbn [Dict.get Dict.keys map fst In]; [tauto|].
  destruct (String.eqb k' k) eqn:E.
  - apply String.eqb_eq in E. split; [discriminate | tauto].
  - apply String.eqb_neq in E. unfold Dict.keys in IH. tauto.
Qed.

End DictMore.

Section KeyMetrics.
Import DataProviders.

Variable info : Dict.dict pyval.

Lemma copy_get ks :
  forall acc k,
    Dict.get (fold_left (Props.copy_field info) ks acc) k
    = if existsb (String.eqb k) ks
      then match Dict.get info k with Some v => Some v | None => Dict.get acc k end
      else Dict.get acc k.
Proof.
  induction ks as [|x ks IH]; intros acc k; cbn [fold_left existsb]; [reflexivity|].
  rewrite IH.
  assert (Hstep : Dict.get (Props.copy_field info acc x) k
                  = if String.eqb k x
                    then match Dict.get info k with
                         | Some v => Some v
                         | None => Dict.get acc k
                         end
                    else Dict.get acc k).
  { unfold Props.copy_field. destruct (String.eqb k x) eqn:E.
    - apply String.eqb_eq in E. subst x.
      destruct (Dict.get info k) as [v|]; [apply get_set_same | reflexivity].
    - apply String.eqb_neq in E.
      destruct (Dict.get info x) as [v|]; [|reflexivity].
      apply get_set_other. congruence. }
  rewrite Hstep.
  destruct (String.eqb k x), (existsb (String.eqb k) ks), (Dict.get info k);
    reflexivity.
Qed.

Lemma copy_keys ks :
  NoDup ks ->
  forall acc,
    (forall k, In k ks -> ~ In k (Dict.keys acc)) ->
    Dict.keys (fold_left (Props.copy_field info) ks acc)
    = (Dict.keys acc ++ filter (fun k => Dict.mem k info) ks)%list.
Proof.
  induction 1 as [|x ks Hx Hnd IH]; intros acc Hfresh; cbn [fold_left filter].
  - now rewrite app_nil_r.
  - assert (Hacc : Dict.get acc x = None)
      by (apply get_none_keys, Hfresh; now left).
    unfold Dict.mem. unfold Props.copy_field at 2. destruct (Dict.get info x) as [v|] eqn:G.
    + rewrite IH.
      * rewrite (keys_set_fresh _ _ _ Hacc), <- app_assoc. reflexivity.
      * intros k Hk. rewrite (keys_set_fresh _ _ _ Hacc), in_app_iff.
        intros [Hin|[->|[]]]; [|contradiction].
        apply (Hfresh k); [now right | exact Hin].
    + apply IH. intros k Hk. apply Hfresh. now right.
Qed.

End KeyMetrics.

Lemma metric_keys_nodup : NoDup DataProviders.metric_keys.
Proof.
  unfold DataProviders.metric_keys.
  repeat (constructor; [cbn [In]; intuition discriminate|]). constructor.
Qed.

Section KeyMetricsClaims.
Import DataProviders.

(** X5. For a payload that is not the bare error sentinel, [get_key_metrics]
    keeps exactly the listed fields that the payload has, in the order of
    the list and with the payload's values, and nothing else: in
    particular an "error" entry that comes with data is dropped. *)
Theorem key_metrics_is_projection :
  forall info,
    Dict.mem "error" info && (List.length info <=? 1)%nat = false ->
    Dict.keys (key_metrics_of info) = filter (fun k => Dict.mem k info) metric_keys
    /\ (forall k,
          Dict.get (key_metrics_of info) k
          = if existsb (String.eqb k) metric_keys then Dict.get info k else None)
    /\ Dict.mem "error" (key_metrics_of info) = false.
Proof.
  intros info H. unfold key_metrics_of. rewrite H.
  change (fold_left _ metric_keys Dict.empty)
    with (fold_left (Props.copy_field info) metric_keys Dict.empty).
  assert (Hget : forall k,
             Dict.get (fold_left (Props.copy_field info) metric_keys Dict.empty) k
             = if existsb (String.eqb k) metric_keys then Dict.get info k else None).
  { intros k. rewrite (copy_get info metric_keys Dict.empty k).
    destruct (existsb (String.eqb k) metric_keys); [|reflexivity].
    now destruct (Dict.get info k). }
  split; [|split].
  - rewrite (copy_keys info metric_keys metric_keys_nodup Dict.empty); [reflexivity|].
    intros k _ [].
  - exact Hget.
  - unfold Dict.mem. rewrite Hget. reflexivity.
Qed.

Lemma key_metrics_is_projection_witness :
  Dict.keys (key_metrics_of (("error", PStr "stale") :: sample_info))
  = ["marketCap"; "trailingPE"; "beta"; "profitMargins"; "debtToEquity";
     "currentRatio"; "longName"; "sector"]
  /\ Dict.mem "error" (key_metrics_of (("error", PStr "stale") :: sample_info)) = false.
Proof.
  destruct (key_metrics_is_projection (("error", PStr "stale") :: sample_info) eq_refl)
    as (Hk & _ & He).
  split; [exact Hk | exact He].
Defined.

End KeyMetricsClaims.

(** ** Reading the market-data payload *)

Section StockInfo.
Import YahooFinance.

Lemma retry_loop_facts src remaining :
  forall attempt events result,
    retry_loop src attempt remaining = (events, result) ->
    (fetches events <= remaining)%nat
    /\ match result with
       | Some info =>
           Dict.mem "error" info = false /\ (S (sleeps events) <= remaining)%nat
       | None => sleeps events = remaining /\ fetches events = remaining
       end.
Proof.
  induction remaining as [|r IH]; intros attempt events result; cbn [retry_loop].
  - intros [= <- <-]. repeat split; reflexivity.
  - assert (Hagain :
        (let '(events0, result0) := retry_loop src (S attempt) r in
         (Fetch attempt :: Sleep :: events0, result0)) = (events, result) ->
        (fetches events <= S r)%nat
        /\ match result with
           | Some info =>
               Dict.mem "error" info = false /\ (S (sleeps events) <= S r)%nat
           | None => sleeps events = S r /\ fetches events = S r
           end).
    { destruct (retry_loop src (S attempt) r) as [events0 result0] eqn:E.
      intros [= <- <-]. destruct (IH _ _ _ E) as [Hf Hr].
      unfold fetches, sleeps in *. cbn [filter List.length].
      split; [lia|]. destruct result0 as [info|]; [|lia].
      destruct Hr as [Hm Hs]. split; [exact Hm | lia]. }
    destruct (src attempt) as [info|e]; [|exact Hagain].
    destruct (falsy info); [exact Hagain|].
    destruct (has_meaningful_key info); [|exact Hagain].
    intros [= <- <-]. unfold fetches, sleeps. cbn [filter List.length].
    split; [lia|]. split; [apply mem_pop_same | lia].
Qed.

(** What [get_stock_info] returns is either a payload without an "error"
    entry or the one-entry error sentinel. *)
Lemma stock_info_shape src ticker :
  Dict.mem "error" (snd (get_stock_info src ticker)) = false
  \/ snd (get_stock_info src ticker)
     = [("error", PStr ("No data returned for " ++ ticker))]
  \/ exists e, src 3%nat = Raise e
               /\ snd (get_stock_info src ticker) = [("error", PStr (exn_str e))].
Proof.
  unfold get_stock_info.
  destruct (retry_loop src 0 3) as [events result] eqn:E.
  destruct (retry_loop_facts _ _ _ _ _ E) as [_ Hr].
  destruct result as [info|]; cbn [snd]; [left; apply Hr|].
  destruct (src 3%nat) as [info|e].
  - destruct (negb (falsy info) && (3 <? List.length info)%nat).
    + left. apply mem_pop_same.
    + right. left. reflexivity.
  - right. right. exists e. split; reflexivity.
Qed.

(** X6. [get_stock_info] never raises and never hands back an error flag
    mixed with data: it returns either a payload that has no "error"
    entry or exactly the one-entry sentinel, whose message is "No data
    returned for <ticker>" or the text of the exception of the last
    read.  It reads the payload at most four times and sleeps at most
    three times half a second. *)
Theorem stock_info_payload_or_sentinel :
  forall src ticker,
    (Dict.mem "error" (snd (get_stock_info src ticker)) = false
     \/ snd (get_stock_info src ticker)
        = [("error", PStr ("No data returned for " ++ ticker))]
     \/ exists e, src 3%nat = Raise e
                  /\ snd (get_stock_info src ticker) = [("error", PStr (exn_str e))])
    /\ (fetches (fst (get_stock_info src ticker)) <= 4)%nat
    /\ (sleeps (fst (get_stock_info src ticker)) <= 3)%nat.
Proof.
  intros src ticker. split; [apply stock_info_shape|].
  unfold get_stock_info.
  destruct (retry_loop src 0 3) as [events result] eqn:E.
  destruct (retry_loop_facts _ _ _ _ _ E) as [Hf Hr].
  destruct result as [info|]; cbn [fst].
  - destruct Hr as [_ Hs]. split; lia.
  - destruct Hr as [Hs Hf']. unfold fetches, sleeps in *.
    rewrite !filter_app, !length_app. cbn [filter List.length]. split; lia.
Qed.

End StockInfo.

Section YahooProvider.
Import DataProviders.

Lemma error_not_listed : existsb (String.eqb "error") metric_keys = false.
Proof. reflexivity. Qed.

(** X7. With Yahoo Finance behind the agents, the metrics bundle of a ticker
    has an "error" entry exactly when [get_stock_info] gave the error
    sentinel, and then the bundle is that sentinel; otherwise it holds
    only fields of the payload. *)
Theorem yahoo_metrics_error_iff_sentinel :
  forall y ticker,
    (Dict.mem "error" (get_key_metrics (yahoo_provider y) ticker) = true
     <-> exists msg, get_stock_info (yahoo_provider y) ticker = [("error", PStr msg)])
    /\ (forall msg,
          get_stock_info (yahoo_provider y) ticker = [("error", PStr msg)] ->
          get_key_metrics (yahoo_provider y) ticker = [("error", PStr msg)])
    /\ (Dict.mem "error" (get_key_metrics (yahoo_provider y) ticker) = false ->
        forall k v,
          Dict.get (get_key_metrics (yahoo_provider y) ticker) k = Some v ->
          Dict.get (get_stock_info (yahoo_provider y) ticker) k = Some v).
Proof.
  intros y ticker. unfold get_key_metrics. cbn [yahoo_provider get_stock_info].
  set (info := snd (YahooFinance.get_stock_info (YahooFinance.info_of y ticker) ticker)).
  assert (Hproj : Dict.mem "error" info = false ->
                  Dict.mem "error" (key_metrics_of info) = false
                  /\ forall k v, Dict.get (key_metrics_of info) k = Some v ->
                                 Dict.get info k = Some v).
  { intros Hm. unfold key_metrics_of. rewrite Hm. cbn [andb].
    change (fold_left _ metric_keys Dict.empty)
      with (fold_left (Props.copy_field info) metric_keys Dict.empty).
    split.
    - unfold Dict.mem. rewrite copy_get, error_not_listed. reflexivity.
    - intros k v. rewrite copy_get.
      destruct (existsb (String.eqb k) metric_keys); [|discriminate].
      now destruct (Dict.get info k). }
  assert (Hsent : forall msg, info = [("error", PStr msg)] ->
                              key_metrics_of info = [("error", PStr msg)]).
  { intros msg ->. reflexivity. }
  assert (Hshape : Dict.mem "error" info = false
                   \/ exists msg, info = [("error", PStr msg)]).
  { destruct (stock_info_shape (YahooFinance.info_of y ticker) ticker)
      as [H|[H|(e & _ & H)]]; [now left | right; eexists; exact H..]. }
  split; [|split].
  - split.
    + intros Hm. destruct Hshape as [Hn|Hs]; [|exact Hs].
      destruct (Hproj Hn) as [Hf _]. congruence.
    + intros (msg & Hs). rewrite (Hsent msg Hs). reflexivity.
  - exact Hsent.
  - intros Hm k v. destruct Hshape as [Hn|(msg & Hs)]; [now apply Hproj|].
    rewrite (Hsent msg Hs) in Hm. discriminate.
Qed.

Lemma yahoo_metrics_error_iff_sentinel_witness :
  get_key_metrics
    (yahoo_provider
       {| YahooFinance.info_of := fun _ _ => Ok [("error", PStr "Too Many Requests")];
          YahooFinance.history_of := fun _ _ => PObj "Empty DataFrame";
          YahooFinance.news_of := fun _ => Ok [] |}) "AAPL"
  = [("error", PStr "No data returned for AAPL")].
Proof.
  apply (yahoo_metrics_error_iff_sentinel
           {| YahooFinance.info_of := fun _ _ => Ok [("error", PStr "Too Many Requests")];
              YahooFinance.history_of := fun _ _ => PObj "Empty DataFrame";
              YahooFinance.news_of := fun _ => Ok [] |} "AAPL").
  reflexivity.
Defined.

End YahooProvider.

(** ** News items *)

Section News.

(** X8. [get_news] never raises; it returns at most ten items, the first of
    those Yahoo Finance listed and in their order, and each returned
    item has exactly the five fields title, publisher, link, published
    and type, so that looking one of them up with a default never yields
    the default. *)
Theorem news_items_have_fixed_fields :
  forall news,
    (List.length (YahooFinance.get_news news) <= 10)%nat
    /\ (forall items,
          news = Ok items ->
          List.length (YahooFinance.get_news news) = Nat.min 10 (List.length items)
          /\ map (fun item => py_get item "title") (YahooFinance.get_news news)
             = map (fun item => py_get_default item "title" (PStr "")) (firstn 10 items))
    /\ (forall item,
          In item (YahooFinance.get_news news) ->
          Dict.keys item = ["title"; "publisher"; "link"; "published"; "type"]
          /\ forall default,
               py_get_default item "title" default = py_get item "title").
Proof.
  intros news.
  assert (E : forall items,
             YahooFinance.get_news (Ok items)
             = map YahooFinance.news_item (firstn 10 items))
    by (intros [|i items]; reflexivity).
  split; [|split].
  - destruct news as [items|e]; [|cbn; lia].
    rewrite E, length_map, length_firstn. lia.
  - intros items ->. rewrite E, length_map, length_firstn. split; [reflexivity|].
    rewrite map_map. reflexivity.
  - intros item Hin. destruct news as [items|e]; [|destruct Hin].
    rewrite E in Hin. apply in_map_iff in Hin as (src & <- & _).
    split; reflexivity.
Qed.

Lemma news_items_have_fixed_fields_witness :
  Dict.keys (YahooFinance.news_item [("title", PStr "Apple beats estimates")])
  = ["title"; "publisher"; "link"; "published"; "type"]
  /\ py_get_default (YahooFinance.news_item [("title", PStr "Apple beats estimates")])
       "publisher" (PStr "N/A")
     = PStr "".
Proof.
  destruct (news_items_have_fixed_fields
              (Ok [[("title", PStr "Apple beats estimates")]])) as (_ & _ & H).
  destruct (H (YahooFinance.news_item [("title", PStr "Apple beats estimates")])
              (or_introl eq_refl)) as [Hk _].
  split; [exact Hk | reflexivity].
Defined.

End News.

(** ** The sentiment agent *)

Section Sentiment.
Import SentimentAgent.

Lemma news_items_nonempty news : Forall (fun x => x <> "") (news_items news).
Proof.
  unfold news_items. induction news as [|item news IH]; cbn [flat_map];
    [constructor|].
  apply Forall_app. split; [|exact IH].
  destruct (py_truthy _); constructor; [discriminate | constructor].
Qed.

Lemma news_items_nil news :
  news_items news = []
  <-> forallb (fun item => negb (py_truthy (py_get_default item "title" (PStr "")))) news
      = true.
Proof.
  unfold news_items. induction news as [|item news IH]; cbn [flat_map forallb];
    [tauto|].
  destruct (py_truthy (py_get_default item "title" (PStr ""))); cbn [negb andb app].
  - split; discriminate.
  - exact IH.
Qed.

Lemma join_head sep x rest :
  exists tail, PyStr.join sep (x :: rest) = x ++ tail.
Proof.
  destruct rest as [|y rest]; cbn [PyStr.join].
  - exists "". clear. induction x as [|c x IH]; [reflexivity|]. simpl. now rewrite <- IH.
  - eexists. reflexivity.
Qed.

(** X9. In the sentiment prompt the notice "No recent news articles
    available." stands for the headlines exactly when the news list is
    empty.  A non-empty list whose items all lack a title gives an empty
    headline block instead, and only such a list does. *)
Theorem sentiment_headlines_cases :
  forall news,
    (news_text_of news = "No recent news articles available." <-> news = [])
    /\ (news_text_of news = ""
        <-> news <> []
            /\ forallb (fun item =>
                          negb (py_truthy (py_get_default item "title" (PStr ""))))
                       news = true).
Proof.
  intros news. destruct news as [|item news]; cbn [news_text_of].
  - split; split; try reflexivity; try discriminate. intros [H _]. congruence.
  - set (l := item :: news).
    assert (Hne := news_items_nonempty l).
    split; split.
    + intros H. exfalso. destruct (news_items l) as [|x rest] eqn:E;
        [discriminate H|].
      destruct (join_head nl x rest) as (tail & Hj). rewrite Hj in H.
      assert (Hx : exists t, x = "- [" ++ t).
      { assert (Hin : In x (news_items l)) by (rewrite E; now left).
        unfold news_items in Hin. apply in_flat_map in Hin as (it & _ & Hin).
        destruct (py_truthy _); [|destruct Hin].
        destruct Hin as [<-|[]]. eexists. reflexivity. }
      destruct Hx as (t & ->). discriminate H.
    + discriminate.
    + intros H. split; [discriminate|]. apply news_items_nil.
      now apply (join_empty_iff nl _ Hne).
    + intros [_ H]. apply news_items_nil in H. now rewrite H.
Qed.

(** X10. When the data provider has only the error sentinel for a ticker,
    [analyze_sentiment] still ends with a generation call: the company
    is named by the raw ticker, the stock context block is left out, and
    the sentinel's message appears nowhere in the prompt. *)
Theorem sentiment_ignores_error_sentinel :
  forall p ticker msg,
    get_stock_info p ticker = [("error", msg)] ->
    analyze_sentiment p ticker
    = Generate
        (request
           ("Analyze the current sentiment for " ++ ticker
              ++ " (" ++ PyStr.upper ticker ++ ")." ++ nl
              ++ nl
              ++ "Recent News Headlines:" ++ nl
              ++ news_text_of (get_news p ticker) ++ nl
              ++ nl
              ++ "" ++ nl
              ++ nl
              ++ sentiment_outline)
           (Some SYSTEM_INSTRUCTION)).
Proof.
  intros p ticker msg H. unfold analyze_sentiment. rewrite H. reflexivity.
Qed.

Lemma sentiment_ignores_error_sentinel_witness :
  exists prompt,
    analyze_sentiment sentinel_provider "ZZZZ"
    = Generate (request prompt (Some SYSTEM_INSTRUCTION))
    /\ PyStr.contains "No data returned" prompt = false
    /\ PyStr.contains "No recent news articles available." prompt = true.
Proof.
  eexists. split; [|split].
  - exact (sentiment_ignores_error_sentinel sentinel_provider "ZZZZ"
             (PStr "No data returned for ZZZZ") eq_refl).
  - vm_compute. reflexivity.
  - vm_compute. reflexivity.
Defined.

(** X11. [analyze_news_batch] keys the news by the normalized ticker, so a
    ticker list and the list of its distinct normalized tickers give the
    same summary; every company contributes its header and between one
    and five lines. *)
Theorem news_batch_collapses_duplicates :
  forall p tickers,
    news_summary p tickers = news_summary p (CompareSpec.distinct tickers)
    /\ analyze_news_batch p tickers = analyze_news_batch p (CompareSpec.distinct tickers)
    /\ (forall summary,
          news_summary p tickers = Ok summary ->
          (2 * List.length (CompareSpec.distinct tickers) <= List.length summary
           <= 6 * List.length (CompareSpec.distinct tickers))%nat).
Proof.
  intros p tickers.
  assert (Hall : all_news p tickers = all_news p (CompareSpec.distinct tickers))
    by apply collect_distinct.
  assert (Hsum : news_summary p tickers = news_summary p (CompareSpec.distinct tickers))
    by (unfold news_summary; now rewrite Hall).
  split; [exact Hsum|]. split; [unfold analyze_news_batch; now rewrite Hsum|].
  intros summary H. unfold news_summary in H.
  destruct (all_news p tickers) as [d|e] eqn:E; [|discriminate].
  cbn [bind] in H. injection H as <-.
  destruct (collect_entries _ _ _ E) as [Hk _]. rewrite <- Hk.
  unfold Dict.items, Dict.keys. rewrite length_map. clear.
  induction d as [|[t news] d IH]; [simpl; lia|].
  cbn [flat_map]. rewrite length_app. cbn [List.length].
  assert (Hb : (2 <= List.length (summary_block (t, news)) <= 6)%nat).
  { unfold summary_block. cbn [List.length]. destruct news as [|i news];
      [simpl; lia|].
    rewrite length_map, length_firstn. cbn [List.length]. lia. }
  lia.
Qed.

Lemma news_batch_collapses_duplicates_witness :
  news_summary sample_provider sample_tickers
  = Ok [nl ++ "AAPL:"; "  - No recent news"; nl ++ "MSFT:"; "  - No recent news"]
  /\ (2 * List.length (CompareSpec.distinct sample_tickers) <= 4
       <= 6 * List.length (CompareSpec.distinct sample_tickers))%nat.
Proof.
  assert (H : news_summary sample_provider sample_tickers
              = Ok [nl ++ "AAPL:"; "  - No recent news";
                    nl ++ "MSFT:"; "  - No recent news"]) by reflexivity.
  split; [exact H|].
  exact (proj2 (proj2 (news_batch_collapses_duplicates sample_provider sample_tickers))
           _ H).
Defined.

End Sentiment.

(** ** Reports on missing or unusual data *)

Section Reports.
Import DataProviders.

(** X12. [generate_earnings_analysis] ends with a generation call whenever
    none of the six metrics it formats is an integer beyond the float
    range; in particular on the error sentinel, where every metric reads
    "N/A" and the company is named by the raw ticker. *)
Theorem earnings_analysis_always_generates :
  (forall p ticker,
      (forall k z,
          In k Props.earnings_fields ->
          py_get (get_key_metrics p ticker) k = PInt z ->
          exists x, PyNum.float_of_int z = Ok x) ->
      exists req,
        EarningsReport.generate_earnings_analysis p ticker = Ok (Generate req)
        /\ gr_system req = Some ReportAgent.SYSTEM_INSTRUCTION)
  /\ (forall p ticker msg,
        get_stock_info p ticker = [("error", msg)] ->
        EarningsReport.generate_earnings_analysis p ticker
        = Ok (Generate
                (request
                   ("Generate an earnings analysis report for " ++ ticker
                      ++ " (" ++ PyStr.upper ticker ++ ")." ++ nl
                      ++ nl
                      ++ "Current Financial Metrics:" ++ nl
                      ++ "- Revenue: N/A" ++ nl
                      ++ "- Revenue Growth: N/A" ++ nl
                      ++ "- EPS (TTM): $N/A" ++ nl
                      ++ "- EPS (Forward): $N/A" ++ nl
                      ++ "- Gross Margin: N/A" ++ nl
                      ++ "- Operating Margin: N/A" ++ nl
                      ++ "- Net Margin: N/A" ++ nl
                      ++ "- Earnings Growth: N/A" ++ nl
                      ++ nl
                      ++ "Recent News: "
                      ++ ReportAgent.headlines 5 (get_news p ticker) "None available" ++ nl
                      ++ nl
                      ++ EarningsReport.earnings_outline)
                   (Some ReportAgent.SYSTEM_INSTRUCTION)))).
Proof.
  split.
  - intros p ticker Hrange. unfold EarningsReport.generate_earnings_analysis.
    set (metrics := get_key_metrics p ticker) in *.
    assert (Hn : forall k, In k Props.earnings_fields ->
                 exists s, format_large_number (py_get metrics k) = Ok s)
      by (intros k Hk; apply format_helpers_total_in_range;
          intros z Hz; exact (Hrange k z Hk Hz)).
    assert (Hp : forall k, In k Props.earnings_fields ->
                 exists s, format_percentage (py_get metrics k) = Ok s)
      by (intros k Hk; apply format_helpers_total_in_range;
          intros z Hz; exact (Hrange k z Hk Hz)).
    destruct (Hn "totalRevenue") as (s1 & ->); [cbn; tauto|].
    destruct (Hp "revenueGrowth") as (s2 & ->); [cbn; tauto|].
    destruct (Hp "grossMargins") as (s3 & ->); [cbn; tauto|].
    destruct (Hp "operatingMargins") as (s4 & ->); [cbn; tauto|].
    destruct (Hp "profitMargins") as (s5 & ->); [cbn; tauto|].
    destruct (Hp "earningsGrowth") as (s6 & ->); [cbn; tauto|].
    cbn [bind]. eexists. split; reflexivity.
  - intros p ticker msg H. unfold EarningsReport.generate_earnings_analysis.
    rewrite (key_metrics_sentinel _ _ _ H). reflexivity.
Qed.

Lemma earnings_analysis_always_generates_witness :
  exists req,
    EarningsReport.generate_earnings_analysis sentinel_provider "ZZZZ" = Ok (Generate req)
    /\ gr_system req = Some ReportAgent.SYSTEM_INSTRUCTION.
Proof.
  apply (proj1 earnings_analysis_always_generates sentinel_provider "ZZZZ").
  intros k z Hk H. unfold Props.earnings_fields in Hk. cbn [In] in Hk.
  repeat (destruct Hk as [<-|Hk]; [discriminate H|]). destruct Hk.
Defined.

(** X13. [generate_investment_thesis] cannot format the employee count unless
    the payload has one: whenever [fullTimeEmployees] is missing, or is
    a text, it raises [ValueError] and makes no generation call. *)
Theorem thesis_needs_employee_count :
  forall p ticker,
    (Dict.get (get_key_metrics p ticker) "fullTimeEmployees" = None
     \/ exists s, Dict.get (get_key_metrics p ticker) "fullTimeEmployees" = Some (PStr s)) ->
    ReportAgent.generate_investment_thesis p ticker
    = Raise {| exn_class := ValueError;
               exn_str := "Cannot specify ',' with 's'." |}.
Proof.
  intros p ticker H. unfold ReportAgent.generate_investment_thesis.
  unfold py_get_default at 1.
  destruct H as [->|(s & ->)]; reflexivity.
Qed.

Lemma thesis_needs_employee_count_witness :
  ReportAgent.generate_investment_thesis sample_provider "AAPL"
  = Raise {| exn_class := ValueError;
             exn_str := "Cannot specify ',' with 's'." |}.
Proof.
  apply thesis_needs_employee_count. left. reflexivity.
Defined.

(** X14. The overview of a company always carries every one of its fields,
    with [None] for a metric the payload lacks; so the default 'N/A'
    that the market prompts and the composite context give for these
    fields is never used, and a missing metric is shown as "None". *)
Theorem overview_defaults_never_apply :
  forall p ticker overview,
    Dict.mem "error" (get_key_metrics p ticker) = false ->
    MarketDataAgent.get_company_overview p ticker = Ok overview ->
    Forall
      (fun field =>
         (forall default,
             py_get_default overview (fst field) default
             = py_get (get_key_metrics p ticker) (snd field))
         /\ (Dict.get (get_key_metrics p ticker) (snd field) = None ->
             py_str (py_get_default overview (fst field) MarketDataAgent.na) = "None"))
      Props.defaulted_fields.
Proof.
  intros p ticker overview Hm. unfold MarketDataAgent.get_company_overview.
  rewrite Hm. set (metrics := get_key_metrics p ticker).
  destruct (format_large_number (py_get metrics "marketCap")) as [s1|e1];
    [|discriminate].
  destruct (format_large_number (py_get metrics "totalRevenue")) as [s2|e2];
    [|discriminate].
  destruct (format_large_number (py_get metrics "freeCashflow")) as [s3|e3];
    [|discriminate].
  cbn [bind]. intros [= <-]. unfold Props.defaulted_fields.
  assert (Hnone : forall k, Dict.get metrics k = None -> py_str (py_get metrics k) = "None")
    by (intros k Hg; unfold py_get; now rewrite Hg).
  repeat (apply Forall_cons;
          [split; [intros default; reflexivity | exact (Hnone _)]|]).
  constructor.
Qed.

Lemma overview_defaults_never_apply_witness :
  exists overview,
    MarketDataAgent.get_company_overview sample_provider "AAPL" = Ok overview
    /\ py_str (py_get_default overview "current_price" MarketDataAgent.na) = "None".
Proof.
  eexists. split; [reflexivity|].
  assert (H := overview_defaults_never_apply sample_provider "AAPL" _ eq_refl eq_refl).
  apply Forall_inv in H. cbn [fst snd] in H. apply (proj2 H). reflexivity.
Defined.

End Reports.

(** ** One unscorable company *)

Section RiskErrors.

Lemma collect_raises {V} (fetch : string -> outcome V) tickers :
  forall acc t e,
    In t tickers -> fetch (normalize t) = Raise e ->
    exists e', collect fetch tickers acc = Raise e'.
Proof.
  induction tickers as [|x tickers IH]; intros acc t e Hin He; [destruct Hin|].
  cbn [collect]. destruct (fetch (normalize x)) as [v|e0] eqn:E.
  - cbn [bind]. destruct Hin as [->|Hin]; [congruence|].
    exact (IH _ t e Hin He).
  - cbn [bind]. now exists e0.
Qed.

(** X15. A debt-to-equity ratio that the payload reports as text cannot be
    compared with the thresholds: [assess_financial_risk] raises
    [TypeError], and a risk comparison over any ticker list that
    contains such a company raises as well instead of comparing the
    others. *)
Theorem text_ratio_aborts_risk_scoring :
  (forall p ticker s,
      Dict.mem "error" (get_key_metrics p ticker) = false ->
      Dict.get (get_key_metrics p ticker) "debtToEquity" = Some (PStr s) ->
      RiskAgent.assess_financial_risk p ticker
      = Raise (not_supported ">" (PStr s) (PInt 200)))
  /\ (forall p tickers t e,
        In t tickers ->
        RiskAgent.assess_financial_risk p (normalize t) = Raise e ->
        exists e', RiskAgent.compare_risks p tickers = Raise e').
Proof.
  split.
  - intros p ticker s Hm Hde.
    unfold RiskAgent.assess_financial_risk, RiskAgent.risk_indicators_of.
    rewrite Hm. unfold py_get. rewrite Hde. reflexivity.
  - intros p tickers t e Hin He.
    unfold RiskAgent.compare_risks, RiskAgent.profile_text, RiskAgent.risk_profiles.
    destruct (collect_raises (RiskAgent.assess_financial_risk p) tickers
                Dict.empty t e Hin He) as (e' & ->).
    now exists e'.
Qed.

Lemma text_ratio_aborts_risk_scoring_witness :
  RiskAgent.assess_financial_risk text_ratio_provider "SHEL"
  = Raise {| exn_class := TypeError;
             exn_str := "'>' not supported between instances of 'str' and 'int'" |}
  /\ exists e', RiskAgent.compare_risks text_ratio_provider ["AAPL"; " shel "] = Raise e'.
Proof.
  assert (H : RiskAgent.assess_financial_risk text_ratio_provider "SHEL"
              = Raise (not_supported ">" (PStr "Infinity") (PInt 200)))
    by (apply (proj1 text_ratio_aborts_risk_scoring); reflexivity).
  split; [exact H|].
  apply (proj2 text_ratio_aborts_risk_scoring text_ratio_provider
           ["AAPL"; " shel "] " shel "
           (not_supported ">" (PStr "Infinity") (PInt 200))
           (or_intror (or_introl eq_refl))).
  exact H.
Defined.

End RiskErrors.

(** ** The CIK lookup *)

Section Cik.
Import SecEdgar.

Lemma zeros_length n : String.length (PyNum.zeros n) = n.
Proof. induction n as [|n IH]; simpl; [reflexivity | now rewrite IH]. Qed.

Lemma zeros_digits n : PyStr.all_chars PyStr.is_digit (PyNum.zeros n) = true.
Proof. induction n as [|n IH]; simpl; [reflexivity | exact IH]. Qed.

Lemma zeros_value n acc :
  FormatSpec.digits_value_from acc (PyNum.zeros n) = (acc * 10 ^ N.of_nat n)%N.
Proof.
  revert acc. induction n as [|n IH]; intros acc.
  - simpl. lia.
  - cbn [PyNum.zeros FormatSpec.digits_value_from]. rewrite IH.
    change (PyNum.digit_val "0") with 0%N.
    rewrite Nat2N.inj_succ, N.pow_succ_r'. lia.
Qed.

Lemma zfill_length width s :
  String.length (zfill width s) = Nat.max width (String.length s).
Proof.
  unfold zfill. destruct s as [|c rest]; cbn [String.length].
  - rewrite zeros_length. lia.
  - destruct (Ascii.eqb c "+" || Ascii.eqb c "-").
    + cbn [String.length]. rewrite length_append, zeros_length. lia.
    + rewrite length_append, zeros_length. cbn [String.length]. lia.
Qed.

Lemma zfill_digits width s :
  s <> "" -> PyStr.all_chars PyStr.is_digit s = true ->
  zfill width s = PyNum.zeros (width - String.length s) ++ s.
Proof.
  intros Hne Hd. unfold zfill. destruct s as [|c rest]; [congruence|].
  cbn [PyStr.all_chars] in Hd. apply andb_prop in Hd as [Hc _].
  destruct (Ascii.eqb c "+") eqn:E1;
    [apply Ascii.eqb_eq in E1; subst c; discriminate Hc|].
  destruct (Ascii.eqb c "-") eqn:E2;
    [apply Ascii.eqb_eq in E2; subst c; discriminate Hc|].
  reflexivity.
Qed.

Lemma digits_fuel_length fuel :
  forall n acc d,
    (1 <= d)%nat -> (n < 10 ^ N.of_nat d)%N ->
    (String.length (PyNum.digits_fuel fuel n acc) <= d + String.length acc)%nat.
Proof.
  induction fuel as [|fuel IH]; intros n acc d Hd Hn; cbn [PyNum.digits_fuel]; [lia|].
  destruct (N.ltb_spec n 10) as [Hlt|Hge]; [cbn [String.length]; lia|].
  destruct d as [|[|d]]; [lia | simpl in Hn; lia |].
  specialize (IH (n / 10)%N (String (PyNum.digit_char n) acc) (S d) ltac:(lia)).
  cbn [String.length] in IH.
  assert (n / 10 < 10 ^ N.of_nat (S d))%N.
  { apply N.Div0.div_lt_upper_bound.
    replace (N.of_nat (S (S d))) with (N.succ (N.of_nat (S d))) in Hn by lia.
    now rewrite N.pow_succ_r' in Hn. }
  specialize (IH H). lia.
Qed.

Lemma string_of_N_length n d :
  (1 <= d)%nat -> (n < 10 ^ N.of_nat d)%N ->
  (String.length (PyNum.string_of_N n) <= d)%nat.
Proof.
  intros Hd Hn. unfold PyNum.string_of_N.
  pose proof (digits_fuel_length (S (N.to_nat (N.log2 n))) n "" d Hd Hn) as H.
  cbn [String.length] in H. lia.
Qed.

Lemma scan_entries_found ticker entries cik :
  scan_entries ticker entries = Some cik ->
  exists entry,
    In entry entries
    /\ PyStr.upper (entry_ticker entry) = ticker
    /\ cik = zfill 10 (PyNum.string_of_Z (cik_str entry)).
Proof.
  induction entries as [|entry entries IH]; cbn [scan_entries]; [discriminate|].
  destruct (String.eqb (PyStr.upper (entry_ticker entry)) ticker) eqn:E.
  - intros [= <-]. apply String.eqb_eq in E. exists entry. repeat split; auto. now left.
  - intros H. destruct (IH H) as (e & Hin & He). exists e. split; [now right | exact He].
Qed.

Lemma lookup_key ticker : PyStr.strip (PyStr.upper ticker) = normalize ticker.
Proof. unfold normalize. symmetry. apply upper_strip. Qed.

(** X16. A CIK that [get_cik_from_ticker] looks up (rather than finds in its
    cache) belongs to an entry of the ticker table whose upper-cased
    symbol is the normalized ticker.  It has at least ten characters;
    for a non-negative entry it consists of digits that denote the
    entry's number, and it has exactly ten of them when the number is
    below 10^10. *)
Theorem looked_up_cik_is_zero_padded :
  forall table cache ticker cik cache',
    Dict.get cache (normalize ticker) = None ->
    get_cik_from_ticker table cache ticker = (Some cik, cache') ->
    exists entries entry,
      table = Ok entries
      /\ In entry entries
      /\ PyStr.upper (entry_ticker entry) = normalize ticker
      /\ (10 <= String.length cik)%nat
      /\ ((0 <= cik_str entry)%Z ->
          PyStr.all_chars PyStr.is_digit cik = true
          /\ Z.of_N (FormatSpec.digits_value cik) = cik_str entry
          /\ ((cik_str entry < 10 ^ 10)%Z -> String.length cik = 10%nat)).
Proof.
  intros table cache ticker cik cache' Hmiss. unfold get_cik_from_ticker.
  cbv zeta. rewrite lookup_key, Hmiss.
  destruct table as [entries|e]; [|discriminate].
  destruct (scan_entries (normalize ticker) entries) as [c|] eqn:E; [|discriminate].
  intros [= <- <-]. destruct (scan_entries_found _ _ _ E) as (entry & Hin & Hup & ->).
  exists entries, entry. split; [reflexivity|]. split; [exact Hin|].
  split; [exact Hup|]. split; [rewrite zfill_length; lia|].
  intros Hpos.
  assert (Hs : PyNum.string_of_Z (cik_str entry)
               = PyNum.string_of_N (Z.to_N (cik_str entry)))
    by (unfold PyNum.string_of_Z; destruct (cik_str entry); [reflexivity..|lia]).
  rewrite Hs. destruct (string_of_N_digits (Z.to_N (cik_str entry))) as [Hne Hd].
  rewrite (zfill_digits _ _ Hne Hd). split; [|split].
  - rewrite all_chars_append, zeros_digits, Hd. reflexivity.
  - unfold FormatSpec.digits_value. rewrite digits_value_from_app, zeros_value.
    rewrite N.mul_0_l. fold (FormatSpec.digits_value (PyNum.string_of_N (Z.to_N (cik_str entry)))).
    rewrite string_of_N_value. lia.
  - intros Hlt. rewrite length_append, zeros_length.
    assert (String.length (PyNum.string_of_N (Z.to_N (cik_str entry))) <= 10)%nat.
    { apply string_of_N_length; [lia|]. change (10 ^ N.of_nat 10)%N with 10000000000%N.
      change (10 ^ 10)%Z with 10000000000%Z in Hlt. lia. }
    lia.
Qed.

Lemma looked_up_cik_is_zero_padded_witness :
  get_cik_from_ticker (company_tickers sample_sec) Dict.empty " aapl"
  = (Some "0000320193", [("AAPL", "0000320193")])
  /\ exists entries entry,
       company_tickers sample_sec = Ok entries
       /\ In entry entries
       /\ PyStr.upper (entry_ticker entry) = normalize " aapl"
       /\ (10 <= String.length "0000320193")%nat
       /\ ((0 <= cik_str entry)%Z ->
           PyStr.all_chars PyStr.is_digit "0000320193" = true
           /\ Z.of_N (FormatSpec.digits_value "0000320193") = cik_str entry
           /\ ((cik_str entry < 10 ^ 10)%Z -> String.length "0000320193" = 10%nat)).
Proof.
  assert (H : get_cik_from_ticker (company_tickers sample_sec) Dict.empty " aapl"
              = (Some "0000320193", [("AAPL", "0000320193")])) by reflexivity.
  split; [exact H|].
  exact (looked_up_cik_is_zero_padded (company_tickers sample_sec) Dict.empty " aapl"
           "0000320193" [("AAPL", "0000320193")] eq_refl H).
Defined.

(** X17. The CIK cache is a faithful memo: once a lookup has succeeded, every
    later lookup of a ticker with the same normalized form gives the same
    CIK and leaves the cache alone, whatever the ticker table then says
    (even when the request fails); a lookup that fails stores nothing;
    and a lookup sees its ticker only through the normalized form. *)
Theorem cik_cache_round_trip :
  (forall table cache ticker cik cache',
      get_cik_from_ticker table cache ticker = (Some cik, cache') ->
      forall table' ticker',
        normalize ticker' = normalize ticker ->
        get_cik_from_ticker table' cache' ticker' = (Some cik, cache'))
  /\ (forall table cache ticker cache',
        get_cik_from_ticker table cache ticker = (None, cache') -> cache' = cache)
  /\ (forall table cache ticker,
        get_cik_from_ticker table cache ticker
        = get_cik_from_ticker table cache (normalize ticker)).
Proof.
  split; [|split].
  - intros table cache ticker cik cache' H table' ticker' Hn.
    unfold get_cik_from_ticker in *. cbv zeta in *.
    rewrite lookup_key in *. rewrite Hn.
    destruct (Dict.get cache (normalize ticker)) as [c|] eqn:G.
    + injection H as <- <-. now rewrite G.
    + destruct table as [entries|e]; [|discriminate].
      destruct (scan_entries (normalize ticker) entries) as [c|]; [|discriminate].
      injection H as <- <-. now rewrite get_set_same.
  - intros table cache ticker cache'. unfold get_cik_from_ticker. cbv zeta.
    destruct (Dict.get cache _); [discriminate|].
    destruct table as [entries|e]; [|now intros [= <-]].
    destruct (scan_entries _ entries); [discriminate | now intros [= <-]].
  - intros table cache ticker. unfold get_cik_from_ticker. cbv zeta.
    rewrite !lookup_key, normalize_idem. reflexivity.
Qed.

Lemma cik_cache_round_trip_witness :
  get_cik_from_ticker
    (Raise {| exn_class := OtherError; exn_str := "503 Service Unavailable" |})
    [("AAPL", "0000320193")] "Aapl "
  = (Some "0000320193", [("AAPL", "0000320193")]).
Proof.
  apply (proj1 cik_cache_round_trip (company_tickers sample_sec) Dict.empty " aapl").
  - reflexivity.
  - reflexivity.
Defined.

End Cik.

(** ** The list of filings *)

Section Filings.
Import SecEdgar.

Lemma filing_entry_listed recent i f entry :
  filing_entry recent i f = Ok entry -> Props.listed_filing f entry.
Proof.
  unfold filing_entry.
  destruct (required "accessionNumber" (accessionNumber recent) i) as [a|e];
    [|discriminate].
  destruct (required "filingDate" (filingDate recent) i) as [d|e]; [|discriminate].
  cbn [bind]. intros [= <-]. repeat split.
Qed.

Lemma scan_forms_listed recent filing_type count rows :
  forall filings result,
    Forall (Props.listed_filing filing_type) filings ->
    scan_forms recent filing_type count rows filings = Ok result ->
    Forall (Props.listed_filing filing_type) result
    /\ (Z.of_nat (List.length result) <= Z.max count (Z.of_nat (List.length filings)))%Z.
Proof.
  induction rows as [|[i f] rows IH]; intros filings result Hl; cbn [scan_forms].
  - intros [= <-]. split; [exact Hl | lia].
  - destruct (String.eqb f filing_type) eqn:Ef; cbn [andb].
    + destruct (Z.ltb_spec (Z.of_nat (List.length filings)) count) as [Hlt|Hge].
      * destruct (filing_entry recent i f) as [entry|e] eqn:Ee; [|discriminate].
        cbn [bind]. intros H. apply String.eqb_eq in Ef. subst f.
        apply IH in H.
        -- destruct H as [Hr Hn]. split; [exact Hr|].
           rewrite length_app in Hn. cbn [List.length] in Hn. lia.
        -- apply Forall_app. split; [exact Hl|]. constructor; [|constructor].
           exact (filing_entry_listed _ _ _ _ Ee).
      * intros H. apply IH in H; [|exact Hl]. exact H.
    + intros H. apply IH in H; [|exact Hl]. exact H.
Qed.

(** X18. [get_company_filings] never raises and never mixes filings with an
    error: it returns either exactly one dictionary that holds the text
    of the exception under "error", or a list of filings, each of the
    requested form and with the five fields, at most [count] of them
    (none for a count of zero or less); for a ticker without a CIK the
    list is empty. *)
Theorem filings_are_listed_or_one_error :
  forall s cache ticker filing_type count,
    ((exists msg,
         fst (get_company_filings s cache ticker filing_type count)
         = [[("error", PStr msg)]])
     \/ (Forall (Props.listed_filing filing_type)
           (fst (get_company_filings s cache ticker filing_type count))
         /\ (Z.of_nat (List.length
                         (fst (get_company_filings s cache ticker filing_type count)))
             <= Z.max count 0)%Z))
    /\ (fst (get_cik_from_ticker (company_tickers s) cache ticker) = None ->
        fst (get_company_filings s cache ticker filing_type count) = []).
Proof.
  intros s cache ticker filing_type count. unfold get_company_filings.
  destruct (get_cik_from_ticker (company_tickers s) cache ticker) as [cik cache'].
  cbn [fst]. split.
  - destruct (no_cik cik); cbn [fst]; [right; split; [constructor | simpl; lia]|].
    destruct (submissions s _) as [recent|e]; cbn [bind];
      [|left; eexists; reflexivity].
    destruct (scan_forms recent filing_type count _ []) as [result|e] eqn:E;
      [|left; eexists; reflexivity].
    right. apply (scan_forms_listed _ _ _ _ [] result (Forall_nil _)) in E.
    exact E.
  - intros ->. reflexivity.
Qed.

Lemma row_entry recent i f accs dates :
  accessionNumber recent = Some accs -> filingDate recent = Some dates ->
  (i < List.length accs)%nat -> (i < List.length dates)%nat ->
  filing_entry recent i f = Ok (Props.filing_row recent (i, f)).
Proof.
  intros Ha Hd Hia Hid. unfold filing_entry, Props.filing_row, required, optional.
  rewrite Ha, Hd. cbn [fst snd].
  destruct (nth_error accs i) as [a|] eqn:Ea;
    [|apply nth_error_None in Ea; lia].
  destruct (nth_error dates i) as [d|] eqn:Ed;
    [|apply nth_error_None in Ed; lia].
  cbn [bind].
  rewrite (nth_error_nth _ _ "" Ea), (nth_error_nth _ _ "" Ed).
  assert (Hopt : forall column : option (list string),
             (if (i <? List.length (match column with Some l => l | None => [] end))%nat
              then nth i (match column with Some l => l | None => [""] end) ""
              else "")
             = nth i (match column with Some l => l | None => [] end) "").
  { intros [l|]; cbn [List.length].
    - destruct (Nat.ltb_spec i (List.length l)); [reflexivity|].
      symmetry. now apply nth_overflow.
    - cbn. now destruct i. }
  rewrite !Hopt. reflexivity.
Qed.

Lemma scan_forms_complete recent filing_type count accs dates :
  accessionNumber recent = Some accs -> filingDate recent = Some dates ->
  forall forms i filings,
    (i + List.length forms <= List.length accs)%nat ->
    (i + List.length forms <= List.length dates)%nat ->
    scan_forms recent filing_type count (indexed i forms) filings
    = Ok (filings
          ++ map (Props.filing_row recent)
               (firstn (Z.to_nat count - List.length filings)
                  (filter (fun row => String.eqb (snd row) filing_type)
                     (indexed i forms))))%list.
Proof.
  intros Ha Hd. induction forms as [|f forms IH]; intros i filings Hia Hid;
    cbn [indexed scan_forms filter].
  - rewrite firstn_nil. cbn [map]. now rewrite app_nil_r.
  - cbn [List.length] in Hia, Hid. cbn [snd].
    destruct (String.eqb f filing_type) eqn:Ef; cbn [andb].
    + destruct (Z.ltb_spec (Z.of_nat (List.length filings)) count) as [Hlt|Hge].
      * rewrite (row_entry recent i f accs dates Ha Hd) by lia. cbn [bind].
        rewrite IH by lia. rewrite length_app. cbn [List.length].
        replace (Z.to_nat count - List.length filings)%nat
          with (S (Z.to_nat count - (List.length filings + 1)))%nat by lia.
        cbn [firstn map]. now rewrite <- app_assoc.
      * rewrite IH by lia.
        replace (Z.to_nat count - List.length filings)%nat with 0%nat by lia.
        reflexivity.
    + apply IH; lia.
Qed.

(** X19. When the submissions table has an accession number and a filing date
    for every row, [get_company_filings] returns the first [count] rows
    of the requested form, in the order of the table. *)
Theorem filings_are_first_matching_rows :
  forall s cache ticker filing_type count cik cache' recent forms accs dates,
    get_cik_from_ticker (company_tickers s) cache ticker = (Some cik, cache') ->
    cik <> "" ->
    submissions s cik = Ok recent ->
    form recent = Some forms ->
    accessionNumber recent = Some accs ->
    filingDate recent = Some dates ->
    (List.length forms <= List.length accs)%nat ->
    (List.length forms <= List.length dates)%nat ->
    get_company_filings s cache ticker filing_type count
    = (map (Props.filing_row recent)
         (firstn (Z.to_nat count)
            (filter (fun row => String.eqb (snd row) filing_type) (indexed 0 forms))),
       cache').
Proof.
  intros s cache ticker filing_type count cik cache' recent forms accs dates
    Hcik Hne Hsub Hf Ha Hd Hla Hld.
  unfold get_company_filings. rewrite Hcik.
  destruct cik as [|c cik]; [congruence|]. cbn [no_cik PyStr.is_empty].
  rewrite Hsub. cbn [bind]. rewrite Hf.
  rewrite (scan_forms_complete recent filing_type count accs dates Ha Hd) by (simpl; lia).
  cbn [List.length app]. now rewrite Nat.sub_0_r.
Qed.

Lemma filings_are_first_matching_rows_witness :
  fst (get_company_filings sample_sec Dict.empty "aapl" "10-K" 2)
  = [ [ ("accession_number", PStr "a1"); ("filing_date", PStr "2023-11-03");
        ("form", PStr "10-K"); ("primary_document", PStr "k.htm");
        ("description", PStr "") ];
      [ ("accession_number", PStr "a3"); ("filing_date", PStr "2022-10-28");
        ("form", PStr "10-K"); ("primary_document", PStr "");
        ("description", PStr "") ] ].
Proof.
  rewrite (filings_are_first_matching_rows sample_sec Dict.empty "aapl" "10-K" 2
             "0000320193" [("AAPL", "0000320193")]
             _ ["10-Q"; "10-K"; "8-K"; "10-K"; "10-K"]
             ["a0"; "a1"; "a2"; "a3"; "a4"]
             ["2024-08-02"; "2023-11-03"; "2023-08-04"; "2022-10-28"; "2021-10-29"]
             eq_refl ltac:(discriminate) eq_refl eq_refl eq_refl eq_refl
             ltac:(simpl; lia) ltac:(simpl; lia)).
  reflexivity.
Defined.

End Filings.

(** ** Metrics from XBRL facts *)

Section StringOrder.

Lemma string_leb_trans a :
  forall b c,
    String.leb a b = true -> String.leb b c = true -> String.leb a c = true.
Proof.
  unfold String.leb. induction a as [|x a IH]; intros [|y b] [|z c];
    cbn [String.compare]; try easy.
  unfold Ascii.compare.
  destruct (N.compare_spec (N_of_ascii x) (N_of_ascii y)) as [Exy|Lxy|Gxy];
    destruct (N.compare_spec (N_of_ascii y) (N_of_ascii z)) as [Eyz|Lyz|Gyz];
    destruct (N.compare_spec (N_of_ascii x) (N_of_ascii z)) as [Exz|Lxz|Gxz];
    try easy; try lia.
  apply IH.
Qed.

Lemma string_ltb_leb a b : String.ltb a b = true -> String.leb a b = true.
Proof. unfold String.ltb, String.leb. now destruct (String.compare a b). Qed.

Lemma string_ltb_false a b : String.ltb a b = false -> String.leb b a = true.
Proof.
  unfold String.ltb, String.leb. rewrite (String.compare_antisym a b).
  now destruct (String.compare b a).
Qed.

End StringOrder.

Section Xbrl.
Import DocumentAgent.

Lemma key_lt_dated x y :
  Props.dated x = true -> Props.dated y = true ->
  key_lt (end_key y) (end_key x)
  = Ok (String.ltb (Props.end_text y) (Props.end_text x)).
Proof.
  unfold Props.dated, Props.end_text.
  destruct (end_key x); try discriminate. destruct (end_key y); try discriminate.
  reflexivity.
Qed.

Lemma insert_sorted x l :
  Props.dated x = true -> Forall (fun v => Props.dated v = true) l ->
  StronglySorted Props.ends_in_order l ->
  exists r,
    insert_by_end x l = Ok r
    /\ Permutation r (x :: l)
    /\ StronglySorted Props.ends_in_order r.
Proof.
  intros Hx. induction l as [|y l IH]; intros Hl Hs; cbn [insert_by_end].
  - exists [x]. repeat split; [apply Permutation_refl|].
    constructor; constructor.
  - apply Forall_cons_iff in Hl as [Hy Hl].
    apply StronglySorted_inv in Hs as [Hs Hyl].
    rewrite (key_lt_dated x y Hx Hy). cbn [bind].
    destruct (String.ltb (Props.end_text y) (Props.end_text x)) eqn:E.
    + destruct (IH Hl Hs) as (r & -> & Hp & Hr). cbn [bind].
      exists (y :: r). split; [reflexivity|]. split.
      * apply Permutation_trans with (y :: x :: l);
          [now apply perm_skip | apply perm_swap].
      * constructor; [exact Hr|].
        apply (Permutation_Forall (Permutation_sym Hp)).
        constructor; [|exact Hyl]. apply string_ltb_leb. exact E.
    + exists (x :: y :: l). split; [reflexivity|]. split; [apply Permutation_refl|].
      assert (Hxy : Props.ends_in_order x y) by (apply string_ltb_false; exact E).
      constructor; [constructor; assumption|].
      constructor; [exact Hxy|].
      apply Forall_forall. intros z Hz.
      assert (Hyz : Props.ends_in_order y z)
        by (revert z Hz; apply Forall_forall; exact Hyl).
      unfold Props.ends_in_order in *.
      exact (string_leb_trans _ _ _ Hxy Hyz).
Qed.

Lemma sort_sorted l :
  Forall (fun v => Props.dated v = true) l ->
  exists r,
    sort_by_end l = Ok r
    /\ Permutation r l
    /\ StronglySorted Props.ends_in_order r.
Proof.
  induction l as [|x l IH]; intros Hl; cbn [sort_by_end].
  - exists []. repeat split; constructor.
  - apply Forall_cons_iff in Hl as [Hx Hl].
    destruct (IH Hl) as (r & -> & Hp & Hs). cbn [bind].
    destruct (insert_sorted x r Hx) as (r' & E & Hp' & Hs').
    + exact (Permutation_Forall (Permutation_sym Hp) Hl).
    + exact Hs.
    + exists r'. split; [exact E|]. split; [|exact Hs'].
      apply Permutation_trans with (x :: r); [exact Hp' | now apply perm_skip].
Qed.

Lemma sorted_app_inv {A} (R : A -> A -> Prop) l1 :
  forall l2,
    StronglySorted R (l1 ++ l2)%list ->
    StronglySorted R l2 /\ forall a b, In a l1 -> In b l2 -> R a b.
Proof.
  induction l1 as [|x l1 IH]; intros l2 H; cbn [app] in H.
  - split; [exact H | intros a b []].
  - apply StronglySorted_inv in H as [H Hx]. destruct (IH _ H) as [Hs Hc].
    split; [exact Hs|]. intros a b [<-|Ha] Hb.
    + revert b Hb. apply Forall_forall. apply Forall_app in Hx. apply Hx.
    + now apply Hc.
Qed.

(** X20. The rows a metric gets are the latest annual figures.  When every
    annual data point of a concept has a text as its period end (or
    none), [recent_annual] does not raise; its rows are made from data
    points of annual reports (form 10-K or 10-K/A, no "frame"), at most
    three and at least one of them, in ascending order of period end,
    and every annual data point left out ends no later than each one
    kept, three being kept whenever one is left out. *)
Theorem xbrl_rows_are_latest_annual :
  forall values,
    (forall v, In v values -> annual v = true -> Props.dated v = true) ->
    (filter annual values = [] /\ recent_annual values = Ok None)
    \/ exists dropped kept,
         recent_annual values = Ok (Some (map metric_row kept))
         /\ Permutation (dropped ++ kept)%list (filter annual values)
         /\ (1 <= List.length kept <= 3)%nat
         /\ (dropped <> [] -> List.length kept = 3%nat)
         /\ StronglySorted Props.ends_in_order kept
         /\ (forall d k, In d dropped -> In k kept -> Props.ends_in_order d k).
Proof.
  intros values Hd. unfold recent_annual.
  assert (Hf : Forall (fun v => Props.dated v = true) (filter annual values)).
  { apply Forall_forall. intros v Hv. apply filter_In in Hv as [Hin Ha].
    now apply Hd. }
  destruct (filter annual values) as [|a rest] eqn:E; [left; split; reflexivity|].
  right. destruct (sort_sorted (a :: rest) Hf) as (r & -> & Hp & Hs). cbn [bind].
  exists (firstn (List.length r - 3) r), (last3 r).
  unfold last3. rewrite firstn_skipn.
  assert (Hlen : List.length r = S (List.length rest))
    by (rewrite (Permutation_length Hp); reflexivity).
  rewrite <- (firstn_skipn (List.length r - 3) r) in Hs.
  destruct (sorted_app_inv _ _ _ Hs) as [Hk Hc].
  split; [reflexivity|]. split; [exact Hp|].
  split; [rewrite length_skipn; lia|].
  split; [|split; [exact Hk | exact Hc]].
  intros Hne. rewrite length_skipn.
  destruct (List.length r - 3)%nat eqn:En; [|lia].
  exfalso. apply Hne. reflexivity.
Qed.

Lemma xbrl_rows_are_latest_annual_witness :
  recent_annual sample_values
  = Ok (Some (map metric_row
                [ annual_point "2021-09-25" 365;
                  annual_point "2022-09-24" 394;
                  annual_point "2023-09-30" 383 ]))
  /\ exists dropped kept,
       recent_annual sample_values = Ok (Some (map metric_row kept))
       /\ Permutation (dropped ++ kept)%list (filter annual sample_values)
       /\ (1 <= List.length kept <= 3)%nat
       /\ (dropped <> [] -> List.length kept = 3%nat)
       /\ StronglySorted Props.ends_in_order kept
       /\ (forall d k, In d dropped -> In k kept -> Props.ends_in_order d k).
Proof.
  split; [reflexivity|].
  destruct (xbrl_rows_are_latest_annual sample_values) as [[H _]|H].
  - intros v Hin _. unfold sample_values in Hin. cbn [In] in Hin.
    repeat (destruct Hin as [<-|Hin]; [reflexivity|]). destruct Hin.
  - discriminate H.
  - exact H.
Defined.

Lemma add_metric_get us_gaap metrics item m label rows :
  add_metric us_gaap metrics item = Ok m ->
  Dict.get m label = Some rows ->
  Dict.get metrics label = Some rows
  \/ (snd item = label
      /\ exists units values,
           Dict.get us_gaap (fst item) = Some units
           /\ first_unit units unit_types = Some values
           /\ recent_annual values = Ok (Some rows)).
Proof.
  destruct item as [xbrl_key lab]. unfold add_metric. cbn [fst snd].
  destruct (Dict.get us_gaap xbrl_key) as [units|] eqn:Eu;
    [|intros [= <-]; now left].
  destruct (first_unit units unit_types) as [values|] eqn:Ev;
    [|intros [= <-]; now left].
  destruct (recent_annual values) as [[r|]|e] eqn:Er; cbn [bind];
    [|intros [= <-]; now left|discriminate].
  intros [= <-] Hg. destruct (String.eqb lab label) eqn:El.
  - apply String.eqb_eq in El. subst lab. rewrite get_set_same in Hg.
    injection Hg as <-. right. split; [reflexivity|].
    exists units, values. repeat split; assumption.
  - apply String.eqb_neq in El. rewrite get_set_other in Hg by exact El. now left.
Qed.

Lemma add_metrics_get us_gaap items :
  forall metrics m label rows,
    add_metrics us_gaap items metrics = Ok m ->
    Dict.get m label = Some rows ->
    Dict.get metrics label = Some rows
    \/ exists xbrl_key units values,
         In (xbrl_key, label) items
         /\ Dict.get us_gaap xbrl_key = Some units
         /\ first_unit units unit_types = Some values
         /\ recent_annual values = Ok (Some rows).
Proof.
  induction items as [|item items IH]; intros metrics m label rows; cbn [add_metrics].
  - intros [= <-] Hg. now left.
  - destruct (add_metric us_gaap metrics item) as [m1|e] eqn:E1; [|discriminate].
    cbn [bind]. intros H Hg. destruct (IH _ _ _ _ H Hg) as [Hm|(k & u & v & Hin & Hr)].
    + destruct (add_metric_get _ _ _ _ _ _ E1 Hm) as [Ho|(Hl & u & v & Hr)];
        [now left|].
      right. exists (fst item), u, v. split; [|exact Hr].
      left. destruct item; cbn [fst snd] in *. now subst.
    + right. exists k, u, v. split; [now right | exact Hr].
Qed.

Lemma add_metrics_keep us_gaap items :
  forall metrics m label,
    ~ In label (map snd items) ->
    add_metrics us_gaap items metrics = Ok m ->
    Dict.get m label = Dict.get metrics label.
Proof.
  induction items as [|[k lab] items IH]; intros metrics m label Hn; cbn [add_metrics].
  - now intros [= <-].
  - destruct (add_metric us_gaap metrics (k, lab)) as [m1|e] eqn:E1; [|discriminate].
    cbn [bind]. intros H. cbn [map snd In] in Hn.
    rewrite (IH _ _ _ (fun Hin => Hn (or_intror Hin)) H).
    unfold add_metric in E1.
    destruct (Dict.get us_gaap k); [|now injection E1 as <-].
    destruct (first_unit _ _); [|now injection E1 as <-].
    destruct (recent_annual _) as [[r|]|e]; cbn [bind] in E1;
      [|now injection E1 as <-|discriminate].
    injection E1 as <-. apply get_set_other. intros ->. apply Hn. now left.
Qed.

(** X21. Every metric that [extract_key_metrics_from_xbrl] reports comes from
    a concept listed for its label: its rows are those of the annual
    data points of the first unit (USD, USD/shares, shares) the concept
    is reported in.  Revenue has two concepts; when the later one,
    RevenueFromContractWithCustomerExcludingAssessedTax, has annual data
    points, its rows are the ones reported, whatever Revenues holds. *)
Theorem xbrl_metrics_come_from_listed_concepts :
  forall us_gaap metrics,
    metrics_of_facts (SecEdgar.Facts us_gaap) = Ok (Xbrl metrics) ->
    (forall label rows,
        Dict.get metrics label = Some rows ->
        exists xbrl_key units values,
          In (xbrl_key, label) key_items
          /\ Dict.get us_gaap xbrl_key = Some units
          /\ first_unit units unit_types = Some values
          /\ recent_annual values = Ok (Some rows))
    /\ (forall units values rows,
          Dict.get us_gaap "RevenueFromContractWithCustomerExcludingAssessedTax"
          = Some units ->
          first_unit units unit_types = Some values ->
          recent_annual values = Ok (Some rows) ->
          Dict.get metrics "revenue" = Some rows).
Proof.
  intros us_gaap metrics. unfold metrics_of_facts.
  destruct (add_metrics us_gaap key_items Dict.empty) as [m|e] eqn:E; [|discriminate].
  cbn [bind]. intros [= <-]. split.
  - intros label rows Hg.
    destruct (add_metrics_get _ _ _ _ _ _ E Hg) as [H|H]; [cbv in H; discriminate H | exact H].
  - intros units values rows Hu Hv Hr.
    unfold key_items in E. cbn [add_metrics] in E.
    destruct (add_metric us_gaap Dict.empty ("Revenues", "revenue")) as [m1|e1];
      [|discriminate].
    cbn [bind] in E.
    assert (E2 : add_metric us_gaap m1
                   ("RevenueFromContractWithCustomerExcludingAssessedTax", "revenue")
                 = Ok (Dict.set m1 "revenue" rows))
      by (unfold add_metric; now rewrite Hu, Hv, Hr).
    rewrite E2 in E. cbn [bind] in E.
    change (add_metrics us_gaap
              [ ("NetIncomeLoss", "net_income");
                ("EarningsPerShareBasic", "eps_basic");
                ("EarningsPerShareDiluted", "eps_diluted");
                ("Assets", "total_assets");
                ("Liabilities", "total_liabilities");
                ("StockholdersEquity", "stockholders_equity");
                ("OperatingIncomeLoss", "operating_income");
                ("GrossProfit", "gross_profit");
                ("CashAndCashEquivalentsAtCarryingValue", "cash");
                ("LongTermDebt", "long_term_debt");
                ("CommonStockSharesOutstanding", "shares_outstanding") ]
              (Dict.set m1 "revenue" rows) = Ok m) in E.
    assert (Hk := fun Hn =>
                    add_metrics_keep us_gaap _ (Dict.set m1 "revenue" rows) m
                      "revenue" Hn E).
    rewrite Hk by (cbn; intuition discriminate).
    apply get_set_same.
Qed.

Lemma xbrl_metrics_come_from_listed_concepts_witness :
  exists metrics,
    metrics_of_facts
      (SecEdgar.Facts
         [ ("Revenues", [("USD", [annual_point "2019-09-28" 260])]);
           ("RevenueFromContractWithCustomerExcludingAssessedTax",
            [("USD", sample_values)]) ])
    = Ok (Xbrl metrics)
    /\ Dict.get metrics "revenue"
       = Some (map metric_row
                 [ annual_point "2021-09-25" 365;
                   annual_point "2022-09-24" 394;
                   annual_point "2023-09-30" 383 ]).
Proof.
  eexists. split; [reflexivity|].
  apply (proj2 (xbrl_metrics_come_from_listed_concepts
                  [ ("Revenues", [("USD", [annual_point "2019-09-28" 260])]);
                    ("RevenueFromContractWithCustomerExcludingAssessedTax",
                     [("USD", sample_values)]) ] _ eq_refl)
           [("USD", sample_values)] sample_values);
    reflexivity.
Defined.

End Xbrl.

(** ** Multi-turn chat *)

Section Chat.
Import GeminiClient GeminiChat.

Lemma history_roles messages :
  forall history,
    history_of messages = Ok history ->
    Forall2
      (fun msg entry =>
         exists role,
           Dict.get msg "role" = Some role
           /\ fst entry = (if is_user role then "user" else "model")
           /\ Dict.get msg "content" = Some (snd entry))
      messages history.
Proof.
  induction messages as [|msg messages IH]; intros history; cbn [history_of].
  - intros [= <-]. constructor.
  - unfold item. destruct (Dict.get msg "role") as [role|] eqn:Er; [|discriminate].
    cbn [bind]. destruct (Dict.get msg "content") as [content|] eqn:Ec;
      [|discriminate].
    cbn [bind]. destruct (history_of messages) as [h|e]; [|discriminate].
    cbn [bind]. intros [= <-]. constructor; [|now apply IH].
    exists role. cbn [fst snd]. repeat split; assumption.
Qed.

(** X22. [chat_completion] never raises.  On an empty conversation it makes
    no call and returns "Error in chat: list index out of range".  On a
    conversation whose earlier messages all have a role and a content and
    whose last message has a content, it sends that content with a
    history that has one entry per earlier message, in order, each with
    the message's content and the role "user" if the message's role is
    "user" and "model" otherwise; a failure comes back behind the prefix
    "Error in chat: ". *)
Theorem chat_completion_edge_cases :
  (forall m, chat_completion_traced m [] = ([], "Error in chat: list index out of range"))
  /\ (forall m earlier last_msg history content,
        history_of earlier = Ok history ->
        Dict.get last_msg "content" = Some content ->
        chat_completion_traced m (earlier ++ [last_msg])%list
        = (fst (_call_with_retry (m history content) default_max_retries),
           match (response <- snd (_call_with_retry (m history content)
                                     default_max_retries) ;;
                  text response) with
           | Ok t => t
           | Raise e => "Error in chat: " ++ exn_str e
           end)
        /\ List.length history = List.length earlier
        /\ Forall (fun entry => fst entry = "user" \/ fst entry = "model") history
        /\ Forall2
             (fun msg entry =>
                exists role,
                  Dict.get msg "role" = Some role
                  /\ fst entry = (if is_user role then "user" else "model")
                  /\ Dict.get msg "content" = Some (snd entry))
             earlier history)
  /\ (forall m earlier last_msg history,
        history_of earlier = Ok history ->
        Dict.get last_msg "content" = None ->
        chat_completion_traced m (earlier ++ [last_msg])%list
        = ([], "Error in chat: 'content'")).
Proof.
  split; [reflexivity|]. split.
  - intros m earlier last_msg history content Hh Hc.
    assert (Hroles := history_roles _ _ Hh).
    split; [|split; [|split]].
    + unfold chat_completion_traced. rewrite removelast_last, Hh. cbn [bind].
      unfold last_message.
      destruct (earlier ++ [last_msg])%list as [|x l] eqn:E;
        [now destruct earlier|].
      rewrite <- E, last_last. cbn [bind]. unfold item. rewrite Hc. cbn [bind].
      destruct (_call_with_retry (m history content) default_max_retries).
      reflexivity.
    + symmetry. exact (Forall2_length Hroles).
    + clear -Hroles. induction Hroles as [|msg entry ms h (role & _ & Hr & _) _ IH];
        constructor; [|exact IH].
      rewrite Hr. destruct (is_user role); [now left | now right].
    + exact Hroles.
  - intros m earlier last_msg history Hh Hc.
    unfold chat_completion_traced. rewrite removelast_last, Hh. cbn [bind].
    unfold last_message.
    destruct (earlier ++ [last_msg])%list as [|x l] eqn:E; [now destruct earlier|].
    rewrite <- E, last_last. cbn [bind]. unfold item. rewrite Hc. reflexivity.
Qed.

Lemma chat_completion_edge_cases_witness :
  chat_completion
    (fun history last_msg _ =>
       Ok {| text := Ok (String.concat "," (map fst history)) |})
    [ [("role", PStr "user"); ("content", PStr "Hi")];
      [("role", PStr "assistant"); ("content", PStr "Hello")];
      [("role", PStr "system"); ("content", PStr "Be brief")];
      [("content", PStr "What is a 10-K?")] ]
  = "user,model,model".
Proof.
  exact (f_equal snd
           (proj1 (proj1 (proj2 chat_completion_edge_cases)
                     (fun history last_msg _ =>
                        Ok {| text := Ok (String.concat "," (map fst history)) |})
                     [ [("role", PStr "user"); ("content", PStr "Hi")];
                       [("role", PStr "assistant"); ("content", PStr "Hello")];
                       [("role", PStr "system"); ("content", PStr "Be brief")] ]
                     [("content", PStr "What is a 10-K?")]
                     [("user", PStr "Hi"); ("model", PStr "Hello");
                      ("model", PStr "Be brief")]
                     (PStr "What is a 10-K?") eq_refl eq_refl))).
Defined.

End Chat.

(** ** The composite single-stock answer *)

Section Composite.

(** X23. On the error sentinel [_comprehensive_single_stock] still ends with
    a generation call: the company is named by the raw ticker, every
    market field reads "N/A", no risk indicator is listed and the
    sentinel's message is not in the prompt.  The number of filings it
    reports is the length of what [get_company_filings] returned, so a
    failed request for the submissions of a known company is reported as
    one filing found. *)
Theorem composite_answer_on_missing_data :
  (forall p s cache ticker query msg,
      get_stock_info p ticker = [("error", msg)] ->
      SingleStock._comprehensive_single_stock p s cache ticker query
      = Ok (Generate
              (request
                 ("Using this comprehensive data about " ++ PyStr.upper ticker
                    ++ ", answer the user's question:" ++ nl
                    ++ nl
                    ++ "User Question: " ++ query ++ nl
                    ++ nl
                    ++ (nl
                        ++ "Company: " ++ ticker ++ " (" ++ PyStr.upper ticker ++ ")" ++ nl
                        ++ "Sector: N/A | Industry: N/A" ++ nl
                        ++ nl
                        ++ "Price: $N/A | Market Cap: N/A" ++ nl
                        ++ "P/E: N/A | Forward P/E: N/A" ++ nl
                        ++ "Revenue Growth: N/A | Earnings Growth: N/A" ++ nl
                        ++ "Gross Margin: N/A | Op Margin: N/A" ++ nl
                        ++ "Analyst Recommendation: N/A | Target: $N/A" ++ nl
                        ++ nl
                        ++ "Recent 10-K Filings: "
                        ++ PyNum.string_of_N
                             (N.of_nat
                                (List.length
                                   (fst (SecEdgar.get_company_filings s cache ticker
                                           "10-K" 2))))
                        ++ " found" ++ nl
                        ++ "Risk Indicators:" ++ nl) ++ nl
                    ++ nl
                    ++ "Provide a thorough, data-driven response. Reference specific metrics and data points.")
                 (Some Orchestrator.SYSTEM_INSTRUCTION))))
  /\ (forall s cache ticker filing_type count cik cache' e,
        SecEdgar.get_cik_from_ticker (SecEdgar.company_tickers s) cache ticker
        = (Some cik, cache') ->
        cik <> "" ->
        SecEdgar.submissions s cik = Raise e ->
        fst (SecEdgar.get_company_filings s cache ticker filing_type count)
        = [[("error", PStr (exn_str e))]]
        /\ PyNum.string_of_N
             (N.of_nat
                (List.length
                   (fst (SecEdgar.get_company_filings s cache ticker filing_type count))))
           = "1").
Proof.
  split.
  - intros p s cache ticker query msg H.
    unfold SingleStock._comprehensive_single_stock,
      MarketDataAgent.get_company_overview, RiskAgent.assess_financial_risk.
    rewrite (key_metrics_sentinel _ _ _ H). reflexivity.
  - intros s cache ticker filing_type count cik cache' e Hcik Hne Hsub.
    unfold SecEdgar.get_company_filings. rewrite Hcik.
    destruct cik as [|c cik]; [congruence|].
    cbn [SecEdgar.no_cik PyStr.is_empty]. rewrite Hsub. split; reflexivity.
Qed.

Lemma composite_answer_on_missing_data_witness :
  fst (SecEdgar.get_company_filings sample_sec Dict.empty "MSFT" "10-K" 2)
  = [[("error", PStr "404 Client Error")]]
  /\ exists req,
       SingleStock._comprehensive_single_stock sentinel_provider sample_sec Dict.empty
         "MSFT" "Is it a buy?"
       = Ok (Generate req)
       /\ PyStr.contains "Recent 10-K Filings: 1 found" (gr_prompt req) = true
       /\ PyStr.contains "No data returned" (gr_prompt req) = false.
Proof.
  destruct composite_answer_on_missing_data as [Hprompt Hcount].
  split.
  - apply (Hcount sample_sec Dict.empty "MSFT" "10-K" 2%Z "0000789019"
             [("MSFT", "0000789019")]
             {| exn_class := OtherError; exn_str := "404 Client Error" |});
      [reflexivity | discriminate | reflexivity].
  - eexists. split.
    + apply (Hprompt sentinel_provider sample_sec Dict.empty "MSFT" "Is it a buy?"
               (PStr "No data returned for MSFT")). reflexivity.
    + split; vm_compute; reflexivity.
Defined.

End Composite.

(** ** The filing analysis *)

Section FilingAnalysis.
Import DocumentAgent.

Lemma cik_miss_keeps_cache table cache ticker :
  fst (SecEdgar.get_cik_from_ticker table cache ticker) = None ->
  SecEdgar.get_cik_from_ticker table cache ticker = (None, cache).
Proof.
  unfold SecEdgar.get_cik_from_ticker. cbv zeta.
  destruct (Dict.get cache _); [discriminate|].
  destruct table as [entries|e]; [|reflexivity].
  destruct (SecEdgar.scan_entries _ entries); [discriminate | reflexivity].
Qed.

(** X24. For a ticker without a CIK (it is not in the ticker table, or
    the request for the table fails) [analyze_filing_with_ai] still ends
    with a generation call: the company is named by the raw ticker, the
    SIC and the fiscal year end read "N/A", no filing and no metric is
    listed, and "CIK not found" appears nowhere in the prompt. *)
Theorem filing_analysis_without_cik :
  forall s cache ticker query,
    fst (SecEdgar.get_cik_from_ticker (SecEdgar.company_tickers s) cache ticker) = None ->
    analyze_filing_with_ai s cache ticker query
    = Ok (Generate
            (request
               (let context :=
                  "Company: " ++ ticker ++ " (" ++ PyStr.upper ticker ++ ")" ++ nl
                  ++ "SIC: N/A" ++ nl
                  ++ "Fiscal Year End: N/A" ++ nl
                  ++ nl ++ "Recent 10-K Filings:" ++ nl
                  ++ nl ++ "Key Financial Metrics (from XBRL filings):" in
                match MarketDataAgent.given query with
                | Some q =>
                    "Based on the following SEC filing data for " ++ PyStr.upper ticker
                    ++ ", answer this question:" ++ nl
                    ++ q ++ nl
                    ++ nl
                    ++ context ++ nl
                    ++ nl
                    ++ "Provide a thorough analysis citing specific metrics and trends. If the data is insufficient to fully answer," ++ nl
                    ++ "note what additional information would be needed."
                | None =>
                    "Provide a comprehensive analysis of " ++ PyStr.upper ticker
                    ++ "'s SEC filings based on this data:" ++ nl
                    ++ nl
                    ++ context ++ nl
                    ++ nl
                    ++ "Include:" ++ nl
                    ++ "1. Revenue and earnings trends (year-over-year changes)" ++ nl
                    ++ "2. Profitability analysis" ++ nl
                    ++ "3. Balance sheet strength" ++ nl
                    ++ "4. Key changes or trends observed" ++ nl
                    ++ "5. Notable items that warrant further investigation"
                end)
               (Some SYSTEM_INSTRUCTION))).
Proof.
  intros s cache ticker query H. apply cik_miss_keeps_cache in H.
  unfold analyze_filing_with_ai, SecEdgar.get_company_info_sec,
    SecEdgar.get_company_facts, SecEdgar.get_company_filings.
  rewrite H. cbn [SecEdgar.no_cik]. rewrite H. cbn [SecEdgar.no_cik metrics_of_facts bind].
  rewrite H. cbn [SecEdgar.no_cik fst xbrl_lines bind filing_lines flat_map app].
  cbv zeta. f_equal. f_equal. unfold request. f_equal.
  assert (Hc : PyStr.join nl
                 [ "Company: " ++ py_str (py_get_default [("error", PStr "CIK not found")] "name" (PStr ticker))
                     ++ " (" ++ PyStr.upper ticker ++ ")";
                   "SIC: " ++ py_str (py_get_default [("error", PStr "CIK not found")] "sic_description" na);
                   "Fiscal Year End: "
                     ++ py_str (py_get_default [("error", PStr "CIK not found")] "fiscal_year_end" na);
                   nl ++ "Recent 10-K Filings:";
                   nl ++ "Key Financial Metrics (from XBRL filings):" ]
               = "Company: " ++ ticker ++ " (" ++ PyStr.upper ticker ++ ")" ++ nl
                 ++ "SIC: N/A" ++ nl
                 ++ "Fiscal Year End: N/A" ++ nl
                 ++ nl ++ "Recent 10-K Filings:" ++ nl
                 ++ nl ++ "Key Financial Metrics (from XBRL filings):").
  { cbn [PyStr.join py_get_default Dict.get py_str]. cbn [String.eqb Ascii.eqb Bool.eqb].
    rewrite !append_assoc. reflexivity. }
  rewrite Hc. reflexivity.
Qed.

Lemma filing_analysis_without_cik_witness :
  fst (SecEdgar.get_cik_from_ticker (SecEdgar.company_tickers sample_sec) Dict.empty "zzzz")
  = None
  /\ exists prompt,
       analyze_filing_with_ai sample_sec Dict.empty "zzzz" None
       = Ok (Generate (request prompt (Some SYSTEM_INSTRUCTION)))
       /\ PyStr.contains "CIK not found" prompt = false
       /\ PyStr.contains "SIC: N/A" prompt = true.
Proof.
  split; [reflexivity|].
  eexists. split; [apply filing_analysis_without_cik; reflexivity|].
  split; vm_compute; reflexivity.
Defined.

Lemma py_abs_value val q :
  value_of val = Some (PyNum.XFin q) ->
  value_of (py_abs val) = Some (PyNum.XFin (Qabs q)).
Proof.
  destruct val as [|b|z|f|s|o]; simpl; try discriminate.
  - intros [= <-]. destruct b; reflexivity.
  - intros [= <-]. reflexivity.
  - intros H. f_equal. apply value_fabs. congruence.
Qed.

Lemma value_is_number val x : value_of val = Some x -> is_number val = true.
Proof. destruct val; simpl; intros H; try discriminate H; reflexivity. Qed.

(** X25. The text [analyze_filing_with_ai] shows for a reported value
    depends on its exact magnitude: up to one million (inclusive) the
    value is not abbreviated (a float with two decimals and thousands
    separators, an integer as [str] prints it); strictly between one
    million and one billion it is shown in millions with one decimal;
    from one billion on (inclusive) in billions with two decimals. *)
Theorem filing_value_text_by_magnitude :
  forall val q,
    value_of val = Some (PyNum.XFin q) ->
    ((Qabs q <= 1000000 # 1)%Q ->
     val_str val
     = Ok (match val with
           | PFloat f => format_fixed_grouped 2 f
           | _ => py_str val
           end))
    /\ ((1000000 # 1 < Qabs q)%Q /\ (Qabs q < 1000000000 # 1)%Q ->
        val_str val
        = (x <- py_truediv val (PFloat DataProviders.lit_1e6) ;;
           Ok ("$" ++ format_fixed_grouped 1 x ++ "M")))
    /\ ((1000000000 # 1 <= Qabs q)%Q ->
        val_str val
        = (x <- py_truediv val (PFloat DataProviders.lit_1e9) ;;
           Ok ("$" ++ format_fixed_grouped 2 x ++ "B"))).
Proof.
  intros val q Hv.
  pose proof (py_abs_value _ _ Hv) as Ha.
  pose proof (value_is_number _ _ Hv) as Hn.
  destruct lit_1e6_value as (c6 & H6 & E6).
  destruct lit_1e9_value as (c9 & H9 & E9).
  assert (Hgt : py_gt (py_abs val) (PFloat DataProviders.lit_1e6) = Ok (PyNum.Qltb c6 (Qabs q))).
  { unfold py_gt. rewrite Ha. cbn [value_of]. rewrite H6. reflexivity. }
  assert (Hlt : py_lt (py_abs val) (PFloat DataProviders.lit_1e9) = Ok (PyNum.Qltb (Qabs q) c9)).
  { unfold py_lt. rewrite Ha. cbn [value_of]. rewrite H9. reflexivity. }
  unfold val_str. rewrite Hn, Hgt. cbn [bind]. rewrite Hlt.
  repeat split.
  - intros Hle. replace (PyNum.Qltb c6 (Qabs q)) with false; [cbn [bind]; destruct val; reflexivity|].
    symmetry. apply Qltb_false. rewrite E6. exact Hle.
  - intros [H1 H2]. replace (PyNum.Qltb c6 (Qabs q)) with true.
    2:{ symmetry. apply Qltb_true. rewrite E6. exact H1. }
    cbn [bind]. replace (PyNum.Qltb (Qabs q) c9) with true; [reflexivity|].
    symmetry. apply Qltb_true. rewrite E9. exact H2.
  - intros H1. replace (PyNum.Qltb c6 (Qabs q)) with true.
    2:{ symmetry. apply Qltb_true. rewrite E6.
        eapply Qlt_le_trans; [|exact H1]. reflexivity. }
    cbn [bind]. replace (PyNum.Qltb (Qabs q) c9) with false; [reflexivity|].
    symmetry. apply Qltb_false. rewrite E9. exact H1.
Qed.

Lemma filing_value_text_by_magnitude_witness :
  val_str (PInt 2500000) = Ok "$2.5M"
  /\ val_str (PInt 1000000) = Ok "1000000"
  /\ val_str (PInt (-1000000000)) = Ok "$-1.00B".
Proof.
  split; [|split].
  - rewrite (proj1 (proj2 (filing_value_text_by_magnitude (PInt 2500000) (2500000 # 1) eq_refl))).
    + vm_compute. reflexivity.
    + split; reflexivity.
  - rewrite (proj1 (filing_value_text_by_magnitude (PInt 1000000) (1000000 # 1) eq_refl)).
    + reflexivity.
    + discriminate.
  - rewrite (proj2 (proj2 (filing_value_text_by_magnitude (PInt (-1000000000))
                             (-1000000000 # 1) eq_refl))).
    + vm_compute. reflexivity.
    + discriminate.
Defined.

(** Float values never make the rendering raise, whatever their size
    (infinities and NaN included); an integer beyond the float range
    does. *)
Lemma val_str_float_total f : exists text, val_str (PFloat f) = Ok text.
Proof.
  unfold val_str, py_gt, py_lt. cbn [is_number py_abs value_of bind].
  destruct (PyNum.xlt _ _); cbn [bind]; [|eauto].
  destruct (PyNum.xlt _ _); cbn [bind];
    unfold py_truediv; cbn [is_number andb as_int operand_float bind];
    (replace (is_zero _) with false by reflexivity); cbn [bind]; eauto.
Qed.

Example val_str_rounds_up_to_thousand_millions :
  val_str (PInt 999999999) = Ok "$1,000.0M".
Proof. vm_compute. reflexivity. Qed.

Example val_str_overflow :
  exists e, val_str (PInt (2 ^ 1024)) = Raise e /\ exn_class e = OverflowError.
Proof. eexists. split; vm_compute; reflexivity. Qed.

End FilingAnalysis.
